(** * bzpost / bzbrowser: snapshot discovery and range covering

    A shallow embedding of [src/TestovaciZapisniky/bzpost.py] (time
    normalisation, the HTTP connector with its existence cache, the directory
    listing parser, [get_snapshots]) and of the [SnapshotCollection] class of
    [src/TestovaciZapisniky/bzbrowser.py] (the range-covering collector),
    followed by the properties established about them.

    Conventions of the embedding.
    - Python exceptions are values of [exn]; a call that can raise returns a
      [result].
    - A method of [HTTPConnector] is a function on the connector record that
      gives the new record back, also when it raises: attribute updates made
      before an exception are kept, as in Python.
    - A generator is run to exhaustion: it is modelled by the list of the
      values it yields, how it ended ([None] for a normal end, [Some e] when
      [e] was raised) and the connector it leaves behind.  The body of a
      Python generator only starts at the first [next]; an exception raised
      before the first [yield] is therefore seen by the consumer, not by the
      caller of the generator function.
    - The HTTP connection is a parameter: a request for a URL, given the
      requests made so far, is answered with a status and a body, with no
      valid status line, or fails in the connection with another exception.
      A body is a [bytes] object, as [response.read()] returns it.
    - A [str] is modelled by a string of characters below 256; the URLs and
      the patterns of the program are such strings.
    - [datetime.datetime.fromtimestamp] (local time) and
      [datetime.datetime.now] are parameters. *)

From Stdlib Require Import ZArith Lia List Bool Ascii String DecimalString.
From stdpp Require Import base decidable countable gmap sets strings.

Import ListNotations.
Local Open Scope string_scope.
Local Open Scope list_scope.
Local Open Scope Z_scope.

(** ** Exceptions and results *)

Inductive exn : Type :=
| ValueError
| TypeError
| OverflowError
| AttributeError      (* a method called on [None] *)
| RecursionError      (* maximum recursion depth exceeded *)
| BadStatusLine       (* http.client: the server sent no valid status line *)
| InvalidURL          (* http.client: the URL holds a blank or a control character *)
| UnicodeEncodeError  (* http.client: the URL is not ASCII *)
| TransportError (what : string)
                      (* any other exception of the connection (http.client or
                         the socket under it), by the name of its class *)
| IndexError
| ConnectorException (status : Z)
| LoopBudget.         (* model only: a [while] loop used up its budget *)

Inductive result (A : Type) : Type :=
| Ok (a : A)
| Raise (e : exn).
Arguments Ok {A} a.
Arguments Raise {A} e.

Definition bind {A B : Type} (r : result A) (k : A -> result B) : result B :=
  match r with
  | Ok a => k a
  | Raise e => Raise e
  end.

Notation "'let*' x ':=' r 'in' k" := (bind r (fun x => k))
  (at level 10, x pattern, r at level 100, k at level 200).

#[global] Instance exn_eq_dec : EqDecision exn.
Proof. solve_decision. Defined.

(** ** datetime.date and datetime.datetime *)

Record date : Type := mkdate { year : Z; month : Z; day : Z }.

Record datetime : Type := mkdatetime {
  ddate : date;
  hour : Z;
  minute : Z;
  second : Z;
  microsecond : Z
}.

#[global] Instance date_eq_dec : EqDecision date.
Proof. solve_decision. Defined.

#[global] Instance datetime_eq_dec : EqDecision datetime.
Proof. solve_decision. Defined.

#[global] Instance date_countable : Countable date.
Proof.
  refine (inj_countable' (fun d => (year d, month d, day d))
                         (fun t => mkdate t.1.1 t.1.2 t.2) _).
  intros []; reflexivity.
Defined.

(** The calendar of the [datetime] module. *)

Definition is_leap (y : Z) : bool :=
  (y mod 4 =? 0) && (negb (y mod 100 =? 0) || (y mod 400 =? 0)).

Definition days_in_month (y m : Z) : Z :=
  if m =? 2 then (if is_leap y then 29 else 28)
  else if (m =? 4) || (m =? 6) || (m =? 9) || (m =? 11) then 30
  else 31.

Definition MINYEAR : Z := 1.
Definition MAXYEAR : Z := 9999.

Definition check_date_fields (y m d : Z) : bool :=
  (MINYEAR <=? y) && (y <=? MAXYEAR) &&
  (1 <=? m) && (m <=? 12) &&
  (1 <=? d) && (d <=? days_in_month y m).

Definition check_time_fields (h mi s us : Z) : bool :=
  (0 <=? h) && (h <=? 23) &&
  (0 <=? mi) && (mi <=? 59) &&
  (0 <=? s) && (s <=? 59) &&
  (0 <=? us) && (us <=? 999999).

(** [datetime.date(y, m, d)]: [ValueError] on a field out of range. *)
Definition date_new (y m d : Z) : result date :=
  if check_date_fields y m d then Ok (mkdate y m d) else Raise ValueError.

(** [datetime.datetime(y, m, d, h, mi, s, us)], the trailing arguments
    defaulting to 0: [ValueError] on a field out of range. *)
Definition datetime_new (y m d h mi s us : Z) : result datetime :=
  if check_date_fields y m d && check_time_fields h mi s us
  then Ok (mkdatetime (mkdate y m d) h mi s us)
  else Raise ValueError.

(** Called on [int] objects of any size, the constructors [datetime.date]
    and [datetime.datetime] convert each argument to a C [int] before they
    check the fields: [OverflowError] on a number that does not fit. *)
Definition c_int (v : Z) : result Z :=
  if (-2147483648 <=? v) && (v <=? 2147483647) then Ok v
  else Raise OverflowError.

(** [datetime.date(y, m, d)] *)
Definition date_of_ints (y m d : Z) : result date :=
  let* y := c_int y in
  let* m := c_int m in
  let* d := c_int d in
  date_new y m d.

(** [datetime.datetime(y, m, d, h)] *)
Definition datetime_of_ints (y m d h : Z) : result datetime :=
  let* y := c_int y in
  let* m := c_int m in
  let* d := c_int d in
  let* h := c_int h in
  datetime_new y m d h 0 0 0.

Definition valid_date (d : date) : bool :=
  check_date_fields (year d) (month d) (day d).

Definition valid_datetime (t : datetime) : bool :=
  valid_date (ddate t) &&
  check_time_fields (hour t) (minute t) (second t) (microsecond t).

(** Comparison of two datetimes is the comparison of their field tuples. *)
Fixpoint lex_compare (a b : list Z) : comparison :=
  match a, b with
  | [], [] => Eq
  | [], _ :: _ => Lt
  | _ :: _, [] => Gt
  | x :: a', y :: b' =>
      match x ?= y with
      | Eq => lex_compare a' b'
      | c => c
      end
  end.

Definition date_fields (d : date) : list Z := [year d; month d; day d].

Definition datetime_fields (t : datetime) : list Z :=
  date_fields (ddate t) ++ [hour t; minute t; second t; microsecond t].

Definition dt_compare (a b : datetime) : comparison :=
  lex_compare (datetime_fields a) (datetime_fields b).

Definition dt_le (a b : datetime) : bool :=
  match dt_compare a b with Gt => false | _ => true end.
Definition dt_lt (a b : datetime) : bool :=
  match dt_compare a b with Lt => true | _ => false end.
Definition dt_ge (a b : datetime) : bool := dt_le b a.
Definition dt_gt (a b : datetime) : bool := dt_lt b a.

(** [t + datetime.timedelta(hours = 1)]: the next hour on the calendar,
    [OverflowError] past the last representable day. *)
Definition next_day (d : date) : date :=
  if day d <? days_in_month (year d) (month d)
  then mkdate (year d) (month d) (day d + 1)
  else if month d <? 12
  then mkdate (year d) (month d + 1) 1
  else mkdate (year d + 1) 1 1.

Definition add_hour (t : datetime) : result datetime :=
  if hour t <? 23
  then Ok (mkdatetime (ddate t) (hour t + 1) (minute t) (second t) (microsecond t))
  else
    let d := next_day (ddate t) in
    if year d <=? MAXYEAR
    then Ok (mkdatetime d 0 (minute t) (second t) (microsecond t))
    else Raise OverflowError.

(** [datetime.date()] of a datetime, and the midnight of a date. *)
Definition date_of (t : datetime) : date := ddate t.

(** ** Strings: [%d] formatting, [int], [urljoin] *)

Definition digits (n : N) : string :=
  NilZero.string_of_uint (N.to_uint n).

Definition pad_left (c : ascii) (width : nat) (s : string) : string :=
  string_of_list_ascii (repeat c (width - String.length s)) +:+ s.

(** ["%0<width>d" % n] when [zero] is set, ["%<width>d" % n] otherwise. *)
Definition fmt_d (zero : bool) (width : nat) (n : Z) : string :=
  let body := digits (Z.abs_N n) in
  if n <? 0 then
    if zero then "-" +:+ pad_left "0" (width - 1) body
    else pad_left " " width ("-" +:+ body)
  else pad_left (if zero then "0" else " ") width body.

(** [\d] of a [str] pattern, on the characters below 256, and [[0-9]]. *)
Definition is_digit (c : ascii) : bool :=
  let n := N_of_ascii c in ((48 <=? n) && (n <=? 57))%N.

(** [\s] of a [str] pattern, on the characters below 256. *)
Definition is_space (c : ascii) : bool :=
  let n := N_of_ascii c in
  ((n =? 32) || ((9 <=? n) && (n <=? 13)) || ((28 <=? n) && (n <=? 31))
   || (n =? 133) || (n =? 160))%N.

(** [.]: any character except a newline. *)
Definition is_dot (c : ascii) : bool := negb (N_of_ascii c =? 10)%N.

Definition digit_value (c : ascii) : Z := Z.of_N (N_of_ascii c) - 48.

(** [sys.get_int_max_str_digits()], as the interpreter starts with. *)
Definition int_max_str_digits : nat := 4300.

(** [int(s)] on a string of decimal digits, as the patterns capture them:
    [ValueError] on more digits than the interpreter converts.  (On other
    strings the model answers [ValueError] too; the patterns capture none.) *)
Definition py_int (s : string) : result Z :=
  let l := list_ascii_of_string s in
  match l with
  | [] => Raise ValueError
  | _ :: _ =>
      if forallb is_digit l && (length l <=? int_max_str_digits)%nat
      then Ok (fold_left (fun acc c => 10 * acc + digit_value c) l 0)
      else Raise ValueError
  end.

(** [urllib.parse.urljoin(base, ref)] on the URLs of an archive: a [base] of
    the form scheme://host/path, its last slash in the path, and a reference
    that is a relative path, neither of them with a dot segment, a query, a
    fragment, or a tab, CR or LF.  There the library replaces what follows
    the last slash of the base by the reference, which is the model; on other
    strings it also resolves dot segments, strips tab, CR and LF, and keeps
    the host of a base that has no path, which the model does not follow. *)
Fixpoint drop_segment (rev_base : list ascii) : list ascii :=
  match rev_base with
  | [] => []
  | c :: r => if Ascii.eqb c "/" then rev_base else drop_segment r
  end.

Definition urljoin (base ref : string) : string :=
  string_of_list_ascii (rev (drop_segment (rev (list_ascii_of_string base))))
  +:+ ref.

(** ** Regular expressions ([re]): a backtracking matcher with groups *)

Inductive regex : Type :=
| Lit (c : ascii)
| Class (p : ascii -> bool)
| Cat (r1 r2 : regex)
| Star (greedy : bool) (r : regex)   (* [r*] and [r*?] *)
| Opt (r : regex)                    (* [r?] *)
| Count (n : nat) (r : regex)        (* [r{n}] *)
| Group (i : nat) (r : regex).       (* the [i]-th parenthesis *)

Definition captures : Type := list (nat * list ascii).
Definition cont : Type := list ascii -> captures -> option (list ascii * captures).

Definition orelse {A : Type} (x y : option A) : option A :=
  match x with Some _ => x | None => y end.

(** Iteration of [step]: a greedy star tries one more round first, a lazy one
    tries the rest of the pattern first.  A round that consumes nothing is not
    repeated. *)
Fixpoint star_loop (step : list ascii -> captures -> cont -> option (list ascii * captures))
    (greedy : bool) (n : nat) (s : list ascii) (cs : captures) (k : cont)
    : option (list ascii * captures) :=
  match n with
  | O => k s cs
  | S n' =>
      let more :=
        step s cs (fun s' cs' =>
          if (length s' <? length s)%nat
          then star_loop step greedy n' s' cs' k
          else None) in
      if greedy then orelse more (k s cs) else orelse (k s cs) more
  end.

Fixpoint rmatch (r : regex) (s : list ascii) (cs : captures) (k : cont)
    : option (list ascii * captures) :=
  match r with
  | Lit c =>
      match s with
      | x :: s' => if Ascii.eqb x c then k s' cs else None
      | [] => None
      end
  | Class p =>
      match s with
      | x :: s' => if p x then k s' cs else None
      | [] => None
      end
  | Cat r1 r2 => rmatch r1 s cs (fun s' cs' => rmatch r2 s' cs' k)
  | Star greedy r1 => star_loop (rmatch r1) greedy (length s) s cs k
  | Opt r1 => orelse (rmatch r1 s cs k) (k s cs)
  | Count n r1 =>
      (fix rep (n : nat) (s : list ascii) (cs : captures) :=
         match n with
         | O => k s cs
         | S n' => rmatch r1 s cs (fun s' cs' => rep n' s' cs')
         end) n s cs
  | Group i r1 =>
      rmatch r1 s cs (fun s' cs' =>
        k s' ((i, firstn (length s - length s') s) :: cs'))
  end.

(** A match object: [group(0)] is the whole match, [group(i)] the text of the
    [i]-th parenthesis, or [None] when it took no part in the match. *)
Record re_match : Type := mkmatch {
  whole : string;
  groups : list (nat * string)
}.

Fixpoint assoc {A : Type} (i : nat) (l : list (nat * A)) : option A :=
  match l with
  | [] => None
  | (j, a) :: l' => if Nat.eqb i j then Some a else assoc i l'
  end.

Definition group (m : re_match) (i : nat) : option string :=
  match i with
  | O => Some (whole m)
  | S _ => assoc i (groups m)
  end.

Definition match_here (r : regex) (s : list ascii) : option (list ascii * captures) :=
  rmatch r s [] (fun s' cs => Some (s', cs)).

Definition to_match (s s' : list ascii) (cs : captures) : re_match :=
  mkmatch (string_of_list_ascii (firstn (length s - length s') s))
          (map (fun ic => (ic.1, string_of_list_ascii ic.2)) cs).

(** [pattern.finditer(text)]: the non-overlapping matches from left to right;
    [skip] counts the characters still covered by the previous match. *)
Fixpoint finditer_at (r : regex) (skip : nat) (s : list ascii) : list re_match :=
  let here := match skip with O => match_here r s | S _ => None end in
  match s with
  | [] =>
      match here with
      | Some (s', cs) => [to_match s s' cs]
      | None => []
      end
  | _ :: t =>
      match here with
      | Some (s', cs) =>
          to_match s s' cs :: finditer_at r (length s - length s' - 1) t
      | None => finditer_at r (pred skip) t
      end
  end.

Definition finditer_str (r : regex) (text : string) : list re_match :=
  finditer_at r 0 (list_ascii_of_string text).

(** What a pattern is applied to: a [str] or a [bytes] object. *)
Inductive subject : Type :=
| Str (text : string)
| Bytes (content : string).

(** [pattern.finditer(subject)] for a pattern compiled from a [str], as
    [YEAR_RE] and [SNAPSHOT_RE] are: [re] refuses a [bytes] subject with
    [TypeError] (a string pattern cannot be used on a bytes-like object), and
    it does so when [finditer] is called, before anything is matched. *)
Definition finditer (r : regex) (s : subject) : result (list re_match) :=
  match s with
  | Str text => Ok (finditer_str r text)
  | Bytes _ => Raise TypeError
  end.

Definition lit (s : string) : regex :=
  match list_ascii_of_string s with
  | [] => Count 0 (Lit "a")
  | c :: l => fold_left (fun r x => Cat r (Lit x)) l (Lit c)
  end.

Definition seq (rs : list regex) : regex :=
  match rs with
  | [] => Count 0 (Lit "a")
  | r :: l => fold_left Cat l r
  end.

Definition ws : regex := Star true (Class is_space).
Definition dig (n : nat) : regex := Count n (Class is_digit).

(** The double quote character. *)
Definition dquote : ascii := ascii_of_N 34.

(** [YEAR_RE = href\s*=\s*Q\s*(([0-9]+)\s*(\/)?)\s*Q], with [Q] for the double
    quote. *)
Definition YEAR_RE : regex :=
  seq [lit "href"; ws; Lit "="; ws; Lit dquote; ws;
       Group 1 (seq [Group 2 (Cat (Class is_digit) (Star true (Class is_digit)));
                     ws; Opt (Group 3 (Lit "/"))]);
       ws; Lit dquote].

(** [SNAPSHOT_RE =
    href\s*=\s*Q\s*((\d{4})(\d{2})(\d{2})(\d{2})(\d{2})(\d{2})(\d{3})_(.*?)_snap\.fits)\s*(\/)?\s*Q],
    with [Q] for the double quote. *)
Definition SNAPSHOT_RE : regex :=
  seq [lit "href"; ws; Lit "="; ws; Lit dquote; ws;
       Group 1 (seq [Group 2 (dig 4); Group 3 (dig 2); Group 4 (dig 2);
                     Group 5 (dig 2); Group 6 (dig 2); Group 7 (dig 2);
                     Group 8 (dig 3); Lit "_";
                     Group 9 (Star false (Class is_dot)); lit "_snap.fits"]);
       ws; Opt (Group 10 (Lit "/")); ws; Lit dquote].

(** ** Values accepted as a time

    The three documented representations of a time: an [int] (a Unix
    timestamp), a [datetime.datetime] and a [datetime.date]. *)
Inductive pyval : Type :=
| PInt (n : Z)
| PDateTime (t : datetime)
| PDate (d : date).

(** A file of the repository, as [get_snapshots] yields it.  (The [connector]
    attribute, a reference back to the connector, is left out.) *)
Record SnapshotEntry : Type := mkentry {
  file_name : string;
  time : datetime;
  url : string
}.

(** ** The connector *)

Record HTTPConnector : Type := mkconn {
  base_url : string;
  station_name : string;
  connection : bool;                      (* [None], or an open connection *)
  existing_days : gset (date * string);
  existing_months : gset (date * string);
  existing_years : gset (Z * string);
  missing_days : gset (date * string);
  missing_months : gset (date * string);
  missing_years : gset (Z * string);
  sent : list string                      (* ghost: the URLs handed to
                                             [connection.request] so far *)
}.

(** [HTTPConnector(base_url, station_name)] *)
Definition __init__ (base_url station_name : string) : HTTPConnector :=
  mkconn base_url station_name false ∅ ∅ ∅ ∅ ∅ ∅ [].

Definition connect (self : HTTPConnector) : HTTPConnector :=
  mkconn (base_url self) (station_name self) true
         (existing_days self) (existing_months self) (existing_years self)
         (missing_days self) (missing_months self) (missing_years self)
         (sent self).

Definition close (self : HTTPConnector) : HTTPConnector :=
  if connection self then
    mkconn (base_url self) (station_name self) false
           (existing_days self) (existing_months self) (existing_years self)
           (missing_days self) (missing_months self) (missing_years self)
           (sent self)
  else self.

Definition record_sent (u : string) (self : HTTPConnector) : HTTPConnector :=
  mkconn (base_url self) (station_name self) (connection self)
         (existing_days self) (existing_months self) (existing_years self)
         (missing_days self) (missing_months self) (missing_years self)
         (sent self ++ [u]).

Definition set_existing_days (s : gset (date * string)) (self : HTTPConnector) :=
  mkconn (base_url self) (station_name self) (connection self)
         s (existing_months self) (existing_years self)
         (missing_days self) (missing_months self) (missing_years self)
         (sent self).

Definition set_existing_months (s : gset (date * string)) (self : HTTPConnector) :=
  mkconn (base_url self) (station_name self) (connection self)
         (existing_days self) s (existing_years self)
         (missing_days self) (missing_months self) (missing_years self)
         (sent self).

Definition set_existing_years (s : gset (Z * string)) (self : HTTPConnector) :=
  mkconn (base_url self) (station_name self) (connection self)
         (existing_days self) (existing_months self) s
         (missing_days self) (missing_months self) (missing_years self)
         (sent self).

Definition set_missing_days (s : gset (date * string)) (self : HTTPConnector) :=
  mkconn (base_url self) (station_name self) (connection self)
         (existing_days self) (existing_months self) (existing_years self)
         s (missing_months self) (missing_years self)
         (sent self).

Definition set_missing_months (s : gset (date * string)) (self : HTTPConnector) :=
  mkconn (base_url self) (station_name self) (connection self)
         (existing_days self) (existing_months self) (existing_years self)
         (missing_days self) s (missing_years self)
         (sent self).

Definition set_missing_years (s : gset (Z * string)) (self : HTTPConnector) :=
  mkconn (base_url self) (station_name self) (connection self)
         (existing_days self) (existing_months self) (existing_years self)
         (missing_days self) (missing_months self) s
         (sent self).

(** What no method of the connector undoes: the base URL and the connection
    stay, the records of missing years, months and days are kept, and the
    requests sent are not forgotten. *)
Record grows (self self' : HTTPConnector) : Prop := mkgrows {
  grows_base_url : base_url self' = base_url self;
  grows_connection : connection self' = connection self;
  grows_missing_years : missing_years self ⊆ missing_years self';
  grows_missing_months : missing_months self ⊆ missing_months self';
  grows_missing_days : missing_days self ⊆ missing_days self';
  grows_sent : sent self `prefix_of` sent self'
}.

(** The cache as [_probe_hour] fills it: a day is recorded missing only
    under a year and a month that are recorded existing. *)
Definition probed_cache (self : HTTPConnector) : Prop :=
  forall (d : date) (type : string),
    (d, type) ∈ missing_days self ->
    (year d, type) ∈ existing_years self /\
    (mkdate (year d) (month d) 1, type) ∈ existing_months self.

(** The records of existing years, months and days are kept. *)
Record keeps_existing (self self' : HTTPConnector) : Prop := mkkeeps {
  keeps_existing_years : existing_years self ⊆ existing_years self';
  keeps_existing_months : existing_months self ⊆ existing_months self';
  keeps_existing_days : existing_days self ⊆ existing_days self'
}.

(** No year, month or day is recorded both missing and existing. *)
Definition exclusive_cache (self : HTTPConnector) : Prop :=
  missing_years self ## existing_years self /\
  missing_months self ## existing_months self /\
  missing_days self ## existing_days self.

(** The cache decides a day: its year is recorded missing, or existing with
    its month recorded missing, or both existing with the day recorded. *)
Definition resolved_day (d : date) (type : string) (self : HTTPConnector) : Prop :=
  (year d, type) ∈ missing_years self \/
  ((year d, type) ∈ existing_years self /\
   ((mkdate (year d) (month d) 1, type) ∈ missing_months self \/
    ((mkdate (year d) (month d) 1, type) ∈ existing_months self /\
     ((d, type) ∈ missing_days self \/ (d, type) ∈ existing_days self)))).

(** A method call: the outcome and the connector afterwards. *)
Definition M (A : Type) : Type := HTTPConnector -> result A * HTTPConnector.

(** A generator run to its end. *)
Record run (A : Type) : Type := mkrun {
  yielded : list A;
  ending : option exn;
  final : HTTPConnector
}.
Arguments mkrun {A} yielded ending final.
Arguments yielded {A} r.
Arguments ending {A} r.
Arguments final {A} r.

Definition Gen (A : Type) : Type := HTTPConnector -> run A.

(** The values [first] yielded before the generator went on as [r]. *)
Definition prepend {A : Type} (first : list A) (r : run A) : run A :=
  mkrun (first ++ yielded r) (ending r) (final r).

(** How [_get_directory] turns a match into the value it yields:
    [value_group = None] with [value_fn(match, match_url)], or
    [value_fn(match.group(value_group))]. *)
Inductive value_spec (A : Type) : Type :=
| ByMatch (value_fn : re_match -> string -> result A)
| ByGroup (value_group : nat) (value_fn : string -> result A).
Arguments ByMatch {A} value_fn.
Arguments ByGroup {A} value_group value_fn.

(** [int(m.group(i))] *)
Definition int_group (m : re_match) (i : nat) : result Z :=
  match group m i with
  | Some s => py_int s
  | None => Raise TypeError
  end.

(** Hours are counted on a grid that is coarser than the calendar (every
    month 31 days long): it bounds the number of rounds of [_iter_hours]. *)
Definition grid (t : datetime) : Z :=
  ((year (ddate t) * 12 + (month (ddate t) - 1)) * 31 + (day (ddate t) - 1)) * 24
  + hour t.

Definition hours_budget (from_time to_time : datetime) : nat :=
  Z.to_nat (grid to_time - grid from_time + 1).

(** The hour that a time falls in, as [_get_hour] computes it. *)
Definition hour_floor (t : datetime) : datetime :=
  mkdatetime (ddate t) (hour t) 0 0 0.

(** What comes of [connection.request], [getresponse] and [read] for a URL
    that the connection accepts: a response with its status and its body (a
    [bytes] object), no valid status line ([BadStatusLine]), or another
    exception of [http.client] or of the socket under it. *)
Inductive answer : Type :=
| Response (status : Z) (body : string)
| NoStatusLine
| Failure (what : string).

(** What the program finds around it: [datetime.datetime.fromtimestamp] (the
    local time of a Unix timestamp), [datetime.datetime.now()], and the server
    at the other end of the connection, which answers a URL given the
    requests made before. *)
Record world : Type := mkworld {
  fromtimestamp : Z -> result datetime;
  now : datetime;
  server : list string -> string -> answer
}.

(** The URLs that [http.client] refuses before anything is sent:
    [putrequest] raises [InvalidURL] on a URL with a blank or a control
    character (a character up to 32, or 127), and it cannot encode a
    character that is not ASCII. *)
Definition disallowed_in_url (c : ascii) : bool :=
  let n := N_of_ascii c in ((n <=? 32) || (n =? 127))%N.

Definition not_ascii (c : ascii) : bool := (128 <=? N_of_ascii c)%N.

Section Bzpost.

Variable w : world.

(** *** Time normalisation *)

(** All three kinds of value are turned into a datetime, so the final
    [return value] of the source is not reached. *)
Definition normalize_time (value : pyval) (including : bool) : result datetime :=
  match value with
  | PInt n => fromtimestamp w n
  | PDateTime t => Ok t
  | PDate d =>
      if including
      then datetime_new (year d) (month d) (day d) 24 0 0 0
      else datetime_new (year d) (month d) (day d) 0 0 0 0
  end.

Definition normalize_date (value : pyval) : result date :=
  match value with
  | PInt n => let* t := fromtimestamp w n in Ok (date_of t)
  | PDateTime t => Ok (date_of t)
  | PDate d => Ok d
  end.

Definition normalize_year (value : pyval) : Z :=
  match value with
  | PDateTime t => year (ddate t)
  | PDate d => year d
  | PInt n => n
  end.

(** [datetime.date(value.year, value.month, 1)] of a date cannot fail. *)
Definition normalize_month (value : pyval) : result date :=
  let* value := normalize_date value in
  Ok (mkdate (year value) (month value) 1).

Definition normalize_day (value : pyval) : result date :=
  normalize_date value.

(** *** Requests *)

(** [connection.request(method, url, headers)], [connection.getresponse()]
    and [response.read()] on an open connection, after the requests [before]:
    the connection refuses the URL, or hands it to the server. *)
Definition exchange (before : list string) (url : string) : result (Z * string) :=
  if existsb disallowed_in_url (list_ascii_of_string url) then Raise InvalidURL
  else if existsb not_ascii (list_ascii_of_string url) then Raise UnicodeEncodeError
  else
    match server w before url with
    | Response status content => Ok (status, content)
    | NoStatusLine => Raise BadStatusLine
    | Failure what => Raise (TransportError what)
    end.

(** [request(url, throw = ...)].  With [throw] the source returns the body
    alone; the status is then 200.  [self.connection.request] is an attribute
    access on [None] when the connector is not connected. *)
Definition request (url : string) (throw : bool) : M (Z * string) := fun self =>
  if connection self then
    let self' := record_sent url self in
    match exchange (sent self) url with
    | Raise e => (Raise e, self')
    | Ok (status, content) =>
        if throw && negb (status =? 200)
        then (Raise (ConnectorException status), self')
        else (Ok (status, content), self')
    end
  else (Raise AttributeError, self).

(** *** The existence cache *)

Definition _is_day_missing (day : pyval) (type : string) (self : HTTPConnector)
    : result bool :=
  let* day := normalize_date day in
  if bool_decide ((year day, type) ∈ missing_years self) then Ok true
  else
    let* m := normalize_month (PDate day) in
    if bool_decide ((m, type) ∈ missing_months self) then Ok true
    else Ok (bool_decide ((day, type) ∈ missing_days self)).

(** A call [self._is_day_missing(...)] binds its arguments to the two
    parameters [day] and [type], neither of which has a default: [None]
    stands for an argument that the call does not pass. *)
Definition call_is_day_missing (day : option pyval) (type : option string)
    (self : HTTPConnector) : result bool :=
  match day, type with
  | Some day, Some type => _is_day_missing day type self
  | _, _ => Raise TypeError
  end.

Definition _is_hour_missing (hour : pyval) (type : string) (self : HTTPConnector)
    : result bool :=
  let* missing := call_is_day_missing (Some hour) None self in
  if missing then Ok true else Ok false.

Definition _add_missing_day (day : pyval) (type : string) : M unit := fun self =>
  match normalize_day day with
  | Ok day => (Ok tt, set_missing_days (missing_days self ∪ {[ (day, type) ]}) self)
  | Raise e => (Raise e, self)
  end.

Definition _add_missing_month (month : pyval) (type : string) : M unit := fun self =>
  match normalize_month month with
  | Ok month => (Ok tt, set_missing_months (missing_months self ∪ {[ (month, type) ]}) self)
  | Raise e => (Raise e, self)
  end.

Definition _add_missing_year (year : pyval) (type : string) : M unit := fun self =>
  (Ok tt, set_missing_years (missing_years self ∪ {[ (normalize_year year, type) ]}) self).

Definition _add_existing_day (day : pyval) (type : string) : M unit := fun self =>
  match normalize_day day with
  | Ok day => (Ok tt, set_existing_days (existing_days self ∪ {[ (day, type) ]}) self)
  | Raise e => (Raise e, self)
  end.

Definition _add_existing_month (month : pyval) (type : string) : M unit := fun self =>
  match normalize_month month with
  | Ok month => (Ok tt, set_existing_months (existing_months self ∪ {[ (month, type) ]}) self)
  | Raise e => (Raise e, self)
  end.

Definition _add_existing_year (year : pyval) (type : string) : M unit := fun self =>
  (Ok tt, set_existing_years (existing_years self ∪ {[ (normalize_year year, type) ]}) self).

(** *** URLs *)

Definition _get_year_url (y : Z) (type : string) (self : HTTPConnector) : string :=
  urljoin (base_url self) (type +:+ "/" +:+ fmt_d false 4 y +:+ "/").

Definition _get_month_url (a_month : date) (type : string) (self : HTTPConnector)
    : string :=
  urljoin (_get_year_url (year a_month) type self)
          (fmt_d true 2 (month a_month) +:+ "/").

Definition _get_day_url (a_day : date) (type : string) (self : HTTPConnector)
    : string :=
  urljoin (_get_month_url a_day type self) (fmt_d true 2 (day a_day) +:+ "/").

(** [_get_hour_url] calls itself on the same arguments.  [depth] is the
    number of frames the interpreter still allows. *)
Fixpoint _get_hour_url (depth : nat) (an_hour : datetime) (type : string)
    (self : HTTPConnector) : result string :=
  match depth with
  | O => Raise RecursionError
  | S depth' =>
      let* inner := _get_hour_url depth' an_hour type self in
      Ok (urljoin inner (fmt_d true 2 (hour an_hour) +:+ "/"))
  end.

(** The same method as a relation between a call and the value it returns:
    the only way to return is to have the inner call return first. *)
Inductive returns_hour_url (self : HTTPConnector) (an_hour : datetime)
    (type : string) : string -> Prop :=
| hour_url_return (inner : string) :
    returns_hour_url self an_hour type inner ->
    returns_hour_url self an_hour type
      (urljoin inner (fmt_d true 2 (hour an_hour) +:+ "/")).

(** *** Probing *)

(** One level of [_probe_hour]:
    [if key in missing: return / elif key not in existing: request the
    level's URL; on 200 record it existing, otherwise record it missing and
    return], then the levels below ([rest]). *)
Definition probe_level (known_missing known_existing : HTTPConnector -> bool)
    (level_url : HTTPConnector -> string)
    (add_existing add_missing : M unit) (rest : M unit) : M unit := fun self =>
  if known_missing self then (Ok tt, self)
  else if negb (known_existing self) then
    match request (level_url self) false self with
    | (Ok (status, _), self1) =>
        if status =? 200 then
          match add_existing self1 with
          | (Ok _, self2) => rest self2
          | (Raise e, self2) => (Raise e, self2)
          end
        else add_missing self1
    | (Raise e, self1) => (Raise e, self1)
    end
  else rest self.

(** The URLs are built with the default [type]; the month and the day cannot
    fail to normalise, [hour] being a datetime. *)
Definition _probe_hour (hour : datetime) (type : string) : M unit :=
  let the_year := normalize_year (PDateTime hour) in
  probe_level
    (fun self => bool_decide ((the_year, type) ∈ missing_years self))
    (fun self => bool_decide ((the_year, type) ∈ existing_years self))
    (_get_year_url (year (ddate hour)) "snapshots")
    (_add_existing_year (PInt (year (ddate hour))) type)
    (_add_missing_year (PInt (year (ddate hour))) type)
    (fun self =>
       match normalize_month (PDateTime hour) with
       | Raise e => (Raise e, self)
       | Ok month =>
         probe_level
           (fun self => bool_decide ((month, type) ∈ missing_months self))
           (fun self => bool_decide ((month, type) ∈ existing_months self))
           (_get_month_url (ddate hour) "snapshots")
           (_add_existing_month (PDateTime hour) type)
           (_add_missing_month (PDateTime hour) type)
           (fun self =>
              match normalize_day (PDateTime hour) with
              | Raise e => (Raise e, self)
              | Ok day =>
                probe_level
                  (fun self => bool_decide ((day, type) ∈ missing_days self))
                  (fun self => bool_decide ((day, type) ∈ existing_days self))
                  (_get_day_url (ddate hour) "snapshots")
                  (_add_existing_day (PDateTime hour) type)
                  (_add_missing_day (PDateTime hour) type)
                  (fun self => (Ok tt, self))
                  self
              end)
           self
       end).

(** *** Directory listings *)

(** The [for match in pattern.finditer(response)] loop of [_get_directory]:
    the pairs yielded, and the exception of a [value_fn] that ends it. *)
Fixpoint yield_matches {A : Type} (url : string) (url_group : nat)
    (spec : value_spec A) (matches : list re_match) : list (string * A) * option exn :=
  match matches with
  | [] => ([], None)
  | m :: rest =>
      let match_url :=
        match group m url_group with
        | Some ref => urljoin url ref
        | None => url
        end in
      let value :=
        match spec with
        | ByMatch value_fn => value_fn m match_url
        | ByGroup value_group value_fn =>
            match group m value_group with
            | Some text => value_fn text
            | None => Raise TypeError
            end
        end in
      match value with
      | Raise e => ([], Some e)
      | Ok v =>
          let (more, e) := yield_matches url url_group spec rest in
          ((match_url, v) :: more, e)
      end
  end.

(** [_get_directory]: [response] is the body that [request] returns, a
    [bytes] object. *)
Definition _get_directory {A : Type} (url : string) (pattern : regex)
    (url_group : nat) (spec : value_spec A) : Gen (string * A) := fun self =>
  match request url true self with
  | (Raise e, self1) => mkrun [] (Some e) self1
  | (Ok (_, response), self1) =>
      match finditer pattern (Bytes response) with
      | Raise e => mkrun [] (Some e) self1
      | Ok matches =>
          let (items, e) := yield_matches url url_group spec matches in
          mkrun items e self1
      end
  end.

Definition _get_hours (the_day : pyval) (type : string) : Gen (string * datetime) :=
  fun self =>
  match normalize_date the_day with
  | Raise e => mkrun [] (Some e) self
  | Ok a_day =>
      match _is_day_missing (PDate a_day) type self with
      | Raise e => mkrun [] (Some e) self
      | Ok true => mkrun [] None self
      | Ok false =>
          let url :=
            urljoin (base_url self)
              (type +:+ "/" +:+ fmt_d true 4 (year a_day) +:+ "/"
               +:+ fmt_d true 2 (month a_day) +:+ "/"
               +:+ fmt_d true 2 (day a_day) +:+ "/") in
          let r :=
            _get_directory url YEAR_RE 1
              (ByGroup 2 (fun v =>
                 let* h := py_int v in
                 datetime_of_ints (year a_day) (month a_day) (day a_day) h))
              self in
          match ending r with
          | Some (ConnectorException status) =>
              match _add_missing_day (PDate a_day) type (final r) with
              | (Ok _, self2) =>
                  mkrun (yielded r) (Some (ConnectorException status)) self2
              | (Raise e, self2) => mkrun (yielded r) (Some e) self2
              end
          | _ => r
          end
      end
  end.

(** [datetime.datetime(time.year, time.month, time.day, time.hour)] of a
    datetime cannot fail. *)
Definition _get_hour (time : pyval) : result datetime :=
  let* time := normalize_time time false in
  Ok (hour_floor time).

(** The [value_fn] of [_get_snapshots_in_hour]. *)
Definition snapshot_of_match (m : re_match) (u : string) : result SnapshotEntry :=
  match group m 1 with
  | None => Raise TypeError
  | Some name =>
      let* y := int_group m 2 in
      let* mo := int_group m 3 in
      let* d := int_group m 4 in
      let* h := int_group m 5 in
      let* mi := int_group m 6 in
      let* s := int_group m 7 in
      let* t := datetime_new y mo d h mi s 0 in
      Ok (mkentry name t u)
  end.

(** The URL of the listing of an hour, as [_get_snapshots_in_hour] builds it. *)
Definition hour_listing_url (an_hour : datetime) (self : HTTPConnector) : string :=
  urljoin (base_url self)
    ("snapshots/" +:+ fmt_d true 4 (year (ddate an_hour)) +:+ "/"
     +:+ fmt_d true 2 (month (ddate an_hour)) +:+ "/"
     +:+ fmt_d true 2 (day (ddate an_hour)) +:+ "/"
     +:+ fmt_d true 2 (hour an_hour) +:+ "/").

Definition _get_snapshots_in_hour (hour : pyval) : Gen SnapshotEntry := fun self =>
  match normalize_time hour false with
  | Raise e => mkrun [] (Some e) self
  | Ok hour =>
      match _is_day_missing (PDateTime hour) "snapshots" self with
      | Raise e => mkrun [] (Some e) self
      | Ok true => mkrun [] None self
      | Ok false =>
          let url := hour_listing_url hour self in
          let r := _get_directory url SNAPSHOT_RE 1 (ByMatch snapshot_of_match) self in
          let snapshots := map snd (yielded r) in
          match ending r with
          | Some (ConnectorException status) =>
              match _probe_hour hour "snapshots" (final r) with
              | (Ok _, self2) =>
                  mkrun snapshots (Some (ConnectorException status)) self2
              | (Raise e, self2) => mkrun snapshots (Some e) self2
              end
          | e => mkrun snapshots e (final r)
          end
      end
  end.

(** The [while current <= to_time] loop of [_iter_hours]. *)
Fixpoint _iter_hours_loop (budget : nat) (current to_time : datetime)
    : list datetime * option exn :=
  match budget with
  | O => if dt_le current to_time then ([], Some LoopBudget) else ([], None)
  | S budget' =>
      if dt_le current to_time then
        match add_hour current with
        | Ok next =>
            let (more, e) := _iter_hours_loop budget' next to_time in
            (current :: more, e)
        | Raise e => ([current], Some e)
        end
      else ([], None)
  end.

Definition _iter_hours (from_time to_time : pyval) : list datetime * option exn :=
  match _get_hour from_time with
  | Raise e => ([], Some e)
  | Ok from_time =>
      match _get_hour to_time with
      | Raise e => ([], Some e)
      | Ok to_time =>
          _iter_hours_loop (hours_budget from_time to_time) from_time to_time
      end
  end.

(** The [for hour in self._iter_hours(...)] loop of [get_snapshots]; [stop]
    is how the iteration over the hours itself ends. *)
Fixpoint for_hours (hours : list datetime) (stop : option exn) : Gen SnapshotEntry :=
  fun self =>
  match hours with
  | [] => mkrun [] stop self
  | hour :: rest =>
      let r := _get_snapshots_in_hour (PDateTime hour) self in
      match ending r with
      | None | Some (ConnectorException _) =>
          prepend (yielded r) (for_hours rest stop (final r))
      | Some _ => r
      end
  end.

(** [if to_date is None: to_date = datetime.datetime.now()] *)
Definition default_to (to_date : option pyval) : pyval :=
  match to_date with
  | None => PDateTime (now w)
  | Some to_date => to_date
  end.

Definition get_snapshots (from_date : pyval) (to_date : option pyval)
    : Gen SnapshotEntry := fun self =>
  let to_date := default_to to_date in
  match normalize_time from_date false with
  | Raise e => mkrun [] (Some e) self
  | Ok from_date =>
      match normalize_time to_date false with
      | Raise e => mkrun [] (Some e) self
      | Ok to_date =>
          if dt_ge from_date to_date then mkrun [] (Some ValueError) self
          else
            let (hours, stop) :=
              _iter_hours (PDateTime from_date) (PDateTime to_date) in
            for_hours hours stop self
      end
  end.

(** ** The collector ([bzbrowser.SnapshotCollection]) *)

(** [bounding_range] of the ranges [m]: the transposition [z] of [m] has the
    starts in [z[0]] and the ends in [z[1]]; [min] and [max], called with
    these as their arguments, need at least two of them. *)
Definition bounding_range (m : list (Z * Z)) : result (Z * Z) :=
  match m with
  | [] => Raise IndexError
  | [_] => Raise TypeError
  | p :: rest =>
      Ok (fold_left Z.min (map fst rest) p.1, fold_left Z.max (map snd rest) p.2)
  end.

Record SnapshotCollection : Type := mkcoll {
  source : HTTPConnector;
  sink : list SnapshotEntry;             (* what the sink has been called with *)
  covered_range : option (Z * Z);
  cover_reqs : list (Z * Z);             (* the queue, oldest first *)
  discovered : list (datetime * datetime)
                                         (* ghost: the calls of [get_snapshots] *)
}.

(** [cover(a, b)], on integers. *)
Definition cover (a b : Z) (c : SnapshotCollection) : SnapshotCollection :=
  mkcoll (source c) (sink c) (covered_range c) (cover_reqs c ++ [(a, b)])
         (discovered c).

Definition set_covered_range (r : option (Z * Z)) (c : SnapshotCollection)
    : SnapshotCollection :=
  mkcoll (source c) (sink c) r (cover_reqs c) (discovered c).

(** [_cover(a, b)]: the exception that leaves it, if any, and the collection
    afterwards. *)
Definition _cover (a b : Z) (c : SnapshotCollection)
    : option exn * SnapshotCollection :=
  if negb (a <? b) then (None, c)
  else
    match normalize_time (PInt a) false with
    | Raise e => (Some e, c)
    | Ok a =>
        match normalize_time (PInt b) false with
        | Raise e => (Some e, c)
        | Ok b =>
            let r := get_snapshots (PDateTime a) (Some (PDateTime b)) (source c) in
            let passed :=
              List.filter (fun ss => dt_gt b (time ss) && dt_ge (time ss) a)
                          (yielded r) in
            let discovered' := discovered c ++ [(a, b)] in
            match ending r with
            | Some BadStatusLine =>
                (None,
                 mkcoll (connect (close (final r))) (sink c ++ passed)
                        (covered_range c) (cover_reqs c) discovered')
            | e =>
                (e,
                 mkcoll (final r) (sink c ++ passed)
                        (covered_range c) (cover_reqs c) discovered')
            end
        end
    end.

(** One round of the [while True] loop of [async]: [None] while the queue is
    empty ([get] blocks); otherwise the queue is drained, its last request is
    served, and the exception that ends the thread, if any, is returned with
    the collection. *)
Definition async_round (c : SnapshotCollection)
    : option (option exn * SnapshotCollection) :=
  match cover_reqs c with
  | [] => None
  | first :: others =>
      let req := List.last others first in
      let c := mkcoll (source c) (sink c) (covered_range c) [] (discovered c) in
      Some
        match covered_range c with
        | None =>
            match _cover req.1 req.2 c with
            | (Some e, c1) => (Some e, c1)
            | (None, c1) => (None, set_covered_range (Some req) c1)
            end
        | Some covered =>
            match bounding_range [covered; req] with
            | Raise e => (Some e, c)
            | Ok new_range =>
                match _cover new_range.1 covered.1 c with
                | (Some e, c1) => (Some e, c1)
                | (None, c1) =>
                    match _cover covered.2 new_range.2 c1 with
                    | (Some e, c2) => (Some e, c2)
                    | (None, c2) =>
                        (None, set_covered_range (Some new_range) c2)
                    end
                end
            end
        end
  end.

(** The call of [get_snapshots] that [_cover(a, b)] makes: none for an empty
    range, and none when a bound has no local time. *)
Definition delta_call (a b : Z) : list (datetime * datetime) :=
  if a <? b then
    match normalize_time (PInt a) false, normalize_time (PInt b) false with
    | Ok a, Ok b => [(a, b)]
    | _, _ => []
    end
  else [].

End Bzpost.

(** ** The listings of years, months and days *)

Section Listings.

Variable w : world.

(** [url.endswith("/")] *)
Definition ends_with_slash (s : string) : bool :=
  match rev (list_ascii_of_string s) with
  | c :: _ => Ascii.eqb c "/"
  | [] => false
  end.

(** [_get_years]: the default [value_fn] of [_get_directory] is [int]. *)
Definition _get_years (type : string) : Gen (string * Z) := fun self =>
  let url := urljoin (base_url self) type in
  let url := if ends_with_slash url then url else url +:+ "/" in
  _get_directory w url YEAR_RE 1 (ByGroup 2 py_int) self.

Definition _get_months (a_year : Z) (type : string) : Gen (string * date) :=
  fun self =>
  let url :=
    urljoin (base_url self) (type +:+ "/" +:+ fmt_d false 4 a_year +:+ "/") in
  _get_directory w url YEAR_RE 1
    (ByGroup 2 (fun v => let* m := py_int v in date_of_ints a_year m 1))
    self.

Definition _get_days (a_month : pyval) (type : string) : Gen (string * date) :=
  fun self =>
  match normalize_date w a_month with
  | Raise e => mkrun [] (Some e) self
  | Ok a_month =>
      let url :=
        urljoin (base_url self)
          (type +:+ "/" +:+ fmt_d true 4 (year a_month) +:+ "/"
           +:+ fmt_d true 2 (month a_month) +:+ "/") in
      _get_directory w url YEAR_RE 1
        (ByGroup 2 (fun v =>
           let* d := py_int v in
           date_of_ints (year a_month) (month a_month) d))
        self
  end.

End Listings.

(** ** The outcomes of a request *)

(** The exceptions of the connection itself: those that [connection.request],
    [getresponse] and [read] raise. *)
Definition connection_exn (e : exn) : Prop :=
  e = InvalidURL \/ e = UnicodeEncodeError \/ e = BadStatusLine \/
  exists what, e = TransportError what.

(** A URL that [http.client] accepts. *)
Definition accepted_url (u : string) : Prop :=
  existsb disallowed_in_url (list_ascii_of_string u) = false /\
  existsb not_ascii (list_ascii_of_string u) = false.

(** A listing that does not complete: nothing yielded, at most one request
    made and the cache untouched, and an exception at the end, which is the
    status of a refused request, a failure of the connection, or the
    [TypeError] of a body that was received. *)
Definition listing_fails {A : Type} (self : HTTPConnector) (r : run A) : Prop :=
  yielded r = [] /\
  (final r = self \/ exists u, final r = record_sent u self) /\
  exists e,
    ending r = Some e /\
    ((exists status, e = ConnectorException status /\ status <> 200) \/
     e = AttributeError \/ connection_exn e \/ e = TypeError).

(** ** A fixture archive *)

(** [fromtimestamp] on a machine whose local time is UTC: the civil date of
    the day number, and the time of day. *)
Definition civil_from_days (days : Z) : Z * Z * Z :=
  let z := days + 719468 in
  let era := z / 146097 in
  let doe := z - era * 146097 in
  let yoe := (doe - doe / 1460 + doe / 36524 - doe / 146096) / 365 in
  let doy := doe - (365 * yoe + yoe / 4 - yoe / 100) in
  let mp := (5 * doy + 2) / 153 in
  let d := doy - (153 * mp + 2) / 5 + 1 in
  let m := if mp <? 10 then mp + 3 else mp - 9 in
  (yoe + era * 400 + (if m <=? 2 then 1 else 0), m, d).

Definition fromtimestamp_utc (n : Z) : result datetime :=
  let '(y, m, d) := civil_from_days (n / 86400) in
  let secs := n mod 86400 in
  datetime_new y m d (secs / 3600) (secs mod 3600 / 60) (secs mod 60) 0.

Definition fixture_base : string := "http://archive.example/station/".

Definition fixture_hour_dir : string :=
  "http://archive.example/station/snapshots/2015/01/04/03/".

Definition fixture_file : string := "20150104030000123_sta_snap.fits".

Definition quoted (s : string) : string :=
  String dquote (s +:+ String dquote EmptyString).

Definition fixture_listing : string :=
  "<html><body><a href=" +:+ quoted "../" +:+ ">..</a> " +:+
  "<a href=" +:+ quoted fixture_file +:+ ">" +:+ fixture_file +:+ "</a>" +:+
  "</body></html>".

(** The archive has one populated hour directory; the directories above it
    exist, everything else is absent. *)
Definition fixture_server (_ : list string) (u : string) : answer :=
  if String.eqb u fixture_hour_dir then Response 200 fixture_listing
  else if String.eqb u "http://archive.example/station/snapshots/2015/"
       || String.eqb u "http://archive.example/station/snapshots/2015/01/"
       || String.eqb u "http://archive.example/station/snapshots/2015/01/04/"
  then Response 200 "<html><body></body></html>"
  else Response 404 "Not Found".

Definition at_time (y m d h mi s us : Z) : datetime :=
  mkdatetime (mkdate y m d) h mi s us.

Definition fixture_world : world :=
  mkworld fromtimestamp_utc (at_time 2015 1 5 12 0 0 0) fixture_server.

Definition fixture_connector : HTTPConnector :=
  connect (__init__ fixture_base "<none>").

(** An archive that answers every request with 404. *)
Definition empty_world : world :=
  mkworld fromtimestamp_utc (at_time 2015 1 5 12 0 0 0)
          (fun _ _ => Response 404 "Not Found").

(** An archive that answers for the populated hour directory alone, not for
    the directories above it. *)
Definition bare_world : world :=
  mkworld fromtimestamp_utc (at_time 2015 1 5 12 0 0 0)
          (fun _ u =>
             if String.eqb u fixture_hour_dir then Response 200 fixture_listing
             else Response 404 "Not Found").

(** A server that never sends a valid status line. *)
Definition silent_world : world :=
  mkworld fromtimestamp_utc (at_time 2015 1 5 12 0 0 0) (fun _ _ => NoStatusLine).

(** A directory index with two numbered links, and a server that answers
    every request with it. *)
Definition index_listing : string :=
  "<html><body><a href=" +:+ quoted "03/" +:+ ">03/</a> " +:+
  "<a href=" +:+ quoted "25/" +:+ ">25/</a></body></html>".

Definition index_world : world :=
  mkworld fromtimestamp_utc (at_time 2015 1 5 12 0 0 0)
          (fun _ _ => Response 200 index_listing).

(** A collector on the fixture connector, nothing covered and nothing
    queued. *)
Definition fixture_collection : SnapshotCollection :=
  mkcoll fixture_connector [] None [] [].

(** The collection after one round of [async], if the round can start. *)
Definition after_round (w : world) (c : SnapshotCollection) : SnapshotCollection :=
  match async_round w c with
  | Some (_, c') => c'
  | None => c
  end.

(** * Properties *)

(** ** Time normalisation *)

Lemma datetime_new_hour_24 (y m d mi s us : Z) :
  datetime_new y m d 24 mi s us = Raise ValueError.
Proof.
  unfold datetime_new, check_time_fields.
  destruct (check_date_fields y m d); reflexivity.
Qed.

Lemma normalize_time_midnight (w : world) (d : date) :
  valid_date d = true ->
  normalize_time w (PDate d) false = Ok (mkdatetime d 0 0 0 0).
Proof.
  intros Hd. destruct d as [y m dd]. unfold valid_date in Hd. simpl in *.
  unfold datetime_new. rewrite Hd. reflexivity.
Qed.

(** C8.  [normalize_time] of a calendar date with [including] set does not
    return the 24:00 instant of that day: the datetime constructor refuses the
    hour 24, and the call raises [ValueError], whatever the date. *)
Theorem normalize_time_including_raises (w : world) (d : date) :
  normalize_time w (PDate d) true = Raise ValueError.
Proof.
  simpl. apply datetime_new_hour_24.
Qed.

(** ** The hour-level checks *)

(** C9.  [_is_hour_missing] calls the day-level check with the hour alone;
    the [type] it received is not passed on, the call cannot bind its second
    parameter, and [TypeError] is raised for every hour, type and connector. *)
Theorem _is_hour_missing_raises_TypeError
    (w : world) (hour : pyval) (type : string) (self : HTTPConnector) :
  _is_hour_missing w hour type self = Raise TypeError.
Proof.
  unfold _is_hour_missing, call_is_day_missing. reflexivity.
Qed.

Lemma _get_hour_url_raises (depth : nat) (hour : datetime) (type : string)
    (self : HTTPConnector) :
  _get_hour_url depth hour type self = Raise RecursionError.
Proof.
  induction depth as [|depth IH]; simpl.
  - reflexivity.
  - rewrite IH. reflexivity.
Qed.

Lemma returns_hour_url_empty (self : HTTPConnector) (hour : datetime)
    (type u : string) :
  ~ returns_hour_url self hour type u.
Proof.
  intros H. induction H as [inner _ IH]. exact IH.
Qed.

(** C10.  [_get_hour_url] returns no value on any input: with any number of
    frames left the recursion on the same arguments uses them up, and no
    derivation of a returned value exists, since each return needs the return
    of the inner, identical call. *)
Theorem _get_hour_url_never_returns :
  (forall (depth : nat) (hour : datetime) (type : string) (self : HTTPConnector)
          (u : string),
      _get_hour_url depth hour type self <> Ok u) /\
  (forall (self : HTTPConnector) (hour : datetime) (type u : string),
      ~ returns_hour_url self hour type u).
Proof.
  split.
  - intros depth hour type self u. rewrite _get_hour_url_raises. discriminate.
  - intros self hour type u. apply returns_hour_url_empty.
Qed.

(** ** The order of datetimes and the hours of a range *)

Lemma lex_compare_refl (a : list Z) : lex_compare a a = Eq.
Proof.
  induction a as [|x a IH]; simpl; [reflexivity|].
  rewrite Z.compare_refl. exact IH.
Qed.

Lemma lex_compare_le_trans (a b c : list Z) :
  lex_compare a b <> Gt -> lex_compare b c <> Gt -> lex_compare a c <> Gt.
Proof.
  revert b c. induction a as [|x a IH]; intros [|y b] [|z c]; simpl;
    try congruence.
  destruct (Z.compare_spec x y), (Z.compare_spec y z), (Z.compare_spec x z);
    try congruence; try lia.
  apply IH.
Qed.

Lemma lex_compare_antisym (a b : list Z) :
  lex_compare a b <> Gt -> lex_compare b a <> Gt -> lex_compare a b = Eq.
Proof.
  revert b. induction a as [|x a IH]; intros [|y b]; simpl; try congruence.
  destruct (Z.compare_spec x y), (Z.compare_spec y x); try congruence; try lia.
  apply IH.
Qed.

Lemma lex_compare_opp (a b : list Z) :
  lex_compare b a = CompOpp (lex_compare a b).
Proof.
  revert b. induction a as [|x a IH]; intros [|y b]; simpl; try reflexivity.
  rewrite (Z.compare_antisym x y).
  destruct (x ?= y); simpl; auto.
Qed.

Lemma dt_le_refl (a : datetime) : dt_le a a = true.
Proof. unfold dt_le, dt_compare. by rewrite lex_compare_refl. Qed.

Lemma dt_le_iff (a b : datetime) :
  dt_le a b = true <-> lex_compare (datetime_fields a) (datetime_fields b) <> Gt.
Proof.
  unfold dt_le, dt_compare.
  destruct (lex_compare (datetime_fields a) (datetime_fields b));
    split; congruence.
Qed.

Lemma dt_le_trans (a b c : datetime) :
  dt_le a b = true -> dt_le b c = true -> dt_le a c = true.
Proof.
  rewrite !dt_le_iff. apply lex_compare_le_trans.
Qed.

Lemma dt_lt_le (a b : datetime) : dt_lt a b = true -> dt_le a b = true.
Proof.
  unfold dt_lt, dt_le. destruct (dt_compare a b); congruence.
Qed.

Lemma dt_lt_not_ge (a b : datetime) : dt_lt a b = true -> dt_ge a b = false.
Proof.
  unfold dt_lt, dt_ge, dt_le, dt_compare.
  rewrite (lex_compare_opp (datetime_fields a) (datetime_fields b)).
  destruct (lex_compare (datetime_fields a) (datetime_fields b)); simpl; congruence.
Qed.

Ltac compare_fields :=
  unfold dt_le, dt_lt, dt_ge, dt_gt, dt_compare, datetime_fields, date_fields in *;
  simpl in *;
  repeat match goal with
         | |- context [?x ?= ?y] => destruct (Z.compare_spec x y)
         | H : context [?x ?= ?y] |- _ => destruct (Z.compare_spec x y)
         end;
  try congruence; try lia.

Lemma days_in_month_bounds (y m : Z) : 28 <= days_in_month y m <= 31.
Proof.
  unfold days_in_month.
  destruct (m =? 2); [destruct (is_leap y); lia|].
  destruct ((m =? 4) || (m =? 6) || (m =? 9) || (m =? 11)); lia.
Qed.

Lemma valid_datetime_bounds (t : datetime) :
  valid_datetime t = true <->
  (1 <= year (ddate t) <= 9999 /\ 1 <= month (ddate t) <= 12 /\
   1 <= day (ddate t) <= days_in_month (year (ddate t)) (month (ddate t))) /\
  (0 <= hour t <= 23 /\ 0 <= minute t <= 59 /\ 0 <= second t <= 59 /\
   0 <= microsecond t <= 999999).
Proof.
  unfold valid_datetime, valid_date, check_date_fields, check_time_fields,
    MINYEAR, MAXYEAR.
  rewrite !andb_true_iff, !Z.leb_le. tauto.
Qed.

Lemma hour_floor_valid (t : datetime) :
  valid_datetime t = true -> valid_datetime (hour_floor t) = true.
Proof.
  rewrite !valid_datetime_bounds. simpl. lia.
Qed.

Lemma next_day_later (d : date) :
  lex_compare (date_fields (next_day d)) (date_fields d) = Gt.
Proof.
  unfold next_day.
  destruct (Z.ltb_spec (day d) (days_in_month (year d) (month d)));
    [|destruct (Z.ltb_spec (month d) 12)]; compare_fields.
Qed.

Lemma add_hour_later (t t' : datetime) :
  add_hour t = Ok t' -> dt_lt t t' = true.
Proof.
  unfold add_hour.
  destruct (Z.ltb_spec (hour t) 23).
  - intros [= <-]. compare_fields.
  - destruct (year (next_day (ddate t)) <=? MAXYEAR); [|discriminate].
    intros [= <-]. pose proof (next_day_later (ddate t)) as Hn.
    unfold dt_lt, dt_compare, datetime_fields. simpl.
    unfold date_fields in Hn. simpl in Hn.
    destruct (year (ddate t) ?= year (next_day (ddate t))) eqn:Hy;
      rewrite Z.compare_antisym, Hy in Hn; simpl in Hn; try congruence.
    destruct (month (ddate t) ?= month (next_day (ddate t))) eqn:Hm;
      rewrite Z.compare_antisym, Hm in Hn; simpl in Hn; try congruence.
    destruct (day (ddate t) ?= day (next_day (ddate t))) eqn:Hd;
      rewrite Z.compare_antisym, Hd in Hn; simpl in Hn; congruence.
Qed.

Lemma add_hour_valid (t t' : datetime) :
  valid_datetime t = true -> add_hour t = Ok t' -> valid_datetime t' = true.
Proof.
  rewrite !valid_datetime_bounds. intros Hv. unfold add_hour, next_day.
  pose proof (days_in_month_bounds (year (ddate t)) (month (ddate t) + 1)).
  pose proof (days_in_month_bounds (year (ddate t) + 1) 1).
  destruct (Z.ltb_spec (hour t) 23).
  - intros [= <-]. simpl. lia.
  - destruct (Z.ltb_spec (day (ddate t))
                (days_in_month (year (ddate t)) (month (ddate t)))); simpl.
    + destruct (Z.leb_spec (year (ddate t)) MAXYEAR); [|discriminate].
      intros [= <-]. simpl. lia.
    + destruct (Z.ltb_spec (month (ddate t)) 12); simpl.
      * destruct (Z.leb_spec (year (ddate t)) MAXYEAR); [|discriminate].
        intros [= <-]. simpl. lia.
      * destruct (Z.leb_spec (year (ddate t) + 1) MAXYEAR); [|discriminate].
        intros [= <-]. simpl. unfold MAXYEAR in *. lia.
Qed.

Lemma add_hour_grid (t t' : datetime) :
  valid_datetime t = true -> add_hour t = Ok t' -> grid t < grid t'.
Proof.
  rewrite valid_datetime_bounds. intros Hv. unfold add_hour, next_day, grid.
  pose proof (days_in_month_bounds (year (ddate t)) (month (ddate t))).
  destruct (Z.ltb_spec (hour t) 23).
  - intros [= <-]. simpl. lia.
  - destruct (Z.ltb_spec (day (ddate t))
                (days_in_month (year (ddate t)) (month (ddate t)))); simpl.
    + destruct (year (ddate t) <=? MAXYEAR); [|discriminate].
      intros [= <-]. simpl. lia.
    + destruct (Z.ltb_spec (month (ddate t)) 12); simpl.
      * destruct (year (ddate t) <=? MAXYEAR); [|discriminate].
        intros [= <-]. simpl. lia.
      * destruct (year (ddate t) + 1 <=? MAXYEAR); [|discriminate].
        intros [= <-]. simpl. lia.
Qed.

Lemma dt_le_grid (a b : datetime) :
  valid_datetime a = true -> valid_datetime b = true ->
  dt_le a b = true -> grid a <= grid b.
Proof.
  rewrite !valid_datetime_bounds. intros Ha Hb.
  pose proof (days_in_month_bounds (year (ddate a)) (month (ddate a))).
  pose proof (days_in_month_bounds (year (ddate b)) (month (ddate b))).
  unfold grid. intros Hle. compare_fields.
Qed.

Lemma _iter_hours_loop_bounds (budget : nat) (current to_time : datetime) :
  Forall (fun h => dt_le current h = true /\ dt_le h to_time = true)
         (_iter_hours_loop budget current to_time).1.
Proof.
  revert current. induction budget as [|budget IH]; intros current; simpl.
  - destruct (dt_le current to_time); constructor.
  - destruct (dt_le current to_time) eqn:Hle; [|constructor].
    destruct (add_hour current) as [next|e] eqn:Hnext.
    + specialize (IH next).
      destruct (_iter_hours_loop budget next to_time) as [more e]. simpl in *.
      constructor; [split; [apply dt_le_refl | exact Hle]|].
      eapply Forall_impl; [exact IH|]. intros h [H1 H2]. split; [|exact H2].
      eapply dt_le_trans; [|exact H1].
      apply dt_lt_le, add_hour_later, Hnext.
    + simpl. repeat constructor; [apply dt_le_refl | exact Hle].
Qed.

Lemma _iter_hours_loop_stop (budget : nat) (current to_time : datetime) :
  let stop := (_iter_hours_loop budget current to_time).2 in
  stop = None \/ stop = Some OverflowError \/ stop = Some LoopBudget.
Proof.
  revert current. induction budget as [|budget IH]; intros current; simpl.
  - destruct (dt_le current to_time); simpl; auto.
  - destruct (dt_le current to_time); simpl; auto.
    destruct (add_hour current) as [next|e] eqn:Hnext.
    + specialize (IH next).
      destruct (_iter_hours_loop budget next to_time) as [more e]. exact IH.
    + simpl. right. left. f_equal.
      unfold add_hour in Hnext.
      destruct (hour current <? 23); [discriminate|].
      destruct (year (next_day (ddate current)) <=? MAXYEAR); congruence.
Qed.

(** The budget that [_iter_hours] gives its loop is never used up: on valid
    datetimes the loop is left through its condition or by the overflow of
    the last representable hour. *)
Lemma _iter_hours_loop_budget (budget : nat) (current to_time : datetime) :
  valid_datetime current = true -> valid_datetime to_time = true ->
  (Z.to_nat (grid to_time - grid current + 1) <= budget)%nat ->
  (_iter_hours_loop budget current to_time).2 <> Some LoopBudget.
Proof.
  revert current. induction budget as [|budget IH]; intros current Hc Ht Hb; simpl.
  - destruct (dt_le current to_time) eqn:Hle; simpl; [|discriminate].
    pose proof (dt_le_grid _ _ Hc Ht Hle). lia.
  - destruct (dt_le current to_time) eqn:Hle; simpl; [|discriminate].
    destruct (add_hour current) as [next|e] eqn:Hnext.
    + pose proof (add_hour_grid _ _ Hc Hnext).
      pose proof (dt_le_grid _ _ Hc Ht Hle).
      specialize (IH next (add_hour_valid _ _ Hc Hnext) Ht).
      destruct (_iter_hours_loop budget next to_time) as [more e]. simpl in *.
      apply IH. lia.
    + simpl. unfold add_hour in Hnext.
      destruct (hour current <? 23); [discriminate|].
      destruct (year (next_day (ddate current)) <=? MAXYEAR); congruence.
Qed.

Lemma dt_le_same_day_next (t to_time : datetime) :
  ddate t = ddate to_time ->
  dt_le (mkdatetime (next_day (ddate t)) 0 (minute t) (second t) (microsecond t))
        to_time = false.
Proof.
  intros Hd. pose proof (next_day_later (ddate t)) as Hn. rewrite Hd in *.
  unfold dt_le, dt_compare, datetime_fields. simpl.
  unfold date_fields in *. simpl in *.
  destruct (year (next_day (ddate to_time)) ?= year (ddate to_time));
    try congruence.
  destruct (month (next_day (ddate to_time)) ?= month (ddate to_time));
    try congruence.
  destruct (day (next_day (ddate to_time)) ?= day (ddate to_time));
    congruence.
Qed.

Lemma _iter_hours_loop_same_day (budget : nat) (current to_time : datetime) :
  ddate current = ddate to_time ->
  Forall (fun h => ddate h = ddate to_time)
         (_iter_hours_loop budget current to_time).1.
Proof.
  revert current. induction budget as [|budget IH]; intros current Hd; simpl.
  - destruct (dt_le current to_time); constructor.
  - destruct (dt_le current to_time) eqn:Hle; [|constructor].
    destruct (add_hour current) as [next|e] eqn:Hnext; [|repeat constructor; exact Hd].
    unfold add_hour in Hnext.
    destruct (hour current <? 23).
    + injection Hnext as <-.
      match goal with |- context [_iter_hours_loop budget ?n to_time] =>
        specialize (IH n Hd); destruct (_iter_hours_loop budget n to_time) end.
      simpl in *. constructor; assumption.
    + destruct (year (next_day (ddate current)) <=? MAXYEAR); [|discriminate].
      injection Hnext as <-.
      pose proof (dt_le_same_day_next current to_time Hd) as Hlate.
      destruct budget; simpl; rewrite Hlate; repeat constructor; exact Hd.
Qed.

Lemma _iter_hours_datetimes (w : world) (a b : datetime) :
  _iter_hours w (PDateTime a) (PDateTime b) =
  _iter_hours_loop (hours_budget (hour_floor a) (hour_floor b))
                   (hour_floor a) (hour_floor b).
Proof. reflexivity. Qed.


(** ** What the connector keeps *)

Lemma grows_refl (self : HTTPConnector) : grows self self.
Proof. split; reflexivity. Qed.

Lemma grows_trans (s1 s2 s3 : HTTPConnector) :
  grows s1 s2 -> grows s2 s3 -> grows s1 s3.
Proof.
  intros [] []. split; try congruence; etrans; eassumption.
Qed.

#[local] Hint Resolve grows_refl : core.

Lemma exchange_Raise (w : world) (before : list string) (u : string) (e : exn) :
  exchange w before u = Raise e -> connection_exn e.
Proof.
  unfold exchange, connection_exn.
  destruct (existsb disallowed_in_url _); [intros [= <-]; auto|].
  destruct (existsb not_ascii _); [intros [= <-]; auto|].
  destruct (server w before u); [discriminate | |]; intros [= <-]; eauto 6.
Qed.

Lemma exchange_Ok (w : world) (before : list string) (u : string)
    (status : Z) (body : string) :
  exchange w before u = Ok (status, body) <->
  accepted_url u /\ server w before u = Response status body.
Proof.
  unfold exchange, accepted_url.
  destruct (existsb disallowed_in_url _); [split; [discriminate | by intros [[] _]]|].
  destruct (existsb not_ascii _); [split; [discriminate | by intros [[] _]]|].
  destruct (server w before u); split; try discriminate;
    try (intros [_ [=]]; fail); [by intros [= -> ->] | by intros [_ [= -> ->]]].
Qed.

Lemma record_sent_grows (u : string) (self : HTTPConnector) :
  grows self (record_sent u self).
Proof. split; simpl; try reflexivity. by apply prefix_app_r. Qed.

Lemma request_grows (w : world) (u : string) (throw : bool) (self : HTTPConnector) :
  grows self (request w u throw self).2.
Proof.
  unfold request. destruct (connection self) eqn:Hc; [|apply grows_refl].
  pose proof (record_sent_grows u self).
  destruct (exchange w (sent self) u) as [[status content]|e]; [|assumption].
  destruct (throw && negb (status =? 200)); assumption.
Qed.

Lemma _add_missing_day_grows (w : world) (v : pyval) (type : string) (self : HTTPConnector) :
  grows self (_add_missing_day w v type self).2.
Proof.
  unfold _add_missing_day. destruct (normalize_day w v); [|apply grows_refl].
  split; simpl; try reflexivity. set_solver.
Qed.

Lemma _add_missing_month_grows (w : world) (v : pyval) (type : string) (self : HTTPConnector) :
  grows self (_add_missing_month w v type self).2.
Proof.
  unfold _add_missing_month. destruct (normalize_month w v); [|apply grows_refl].
  split; simpl; try reflexivity. set_solver.
Qed.

Lemma _add_missing_year_grows (v : pyval) (type : string) (self : HTTPConnector) :
  grows self (_add_missing_year v type self).2.
Proof.
  split; simpl; try reflexivity. set_solver.
Qed.

Lemma _add_existing_day_grows (w : world) (v : pyval) (type : string) (self : HTTPConnector) :
  grows self (_add_existing_day w v type self).2.
Proof.
  unfold _add_existing_day. destruct (normalize_day w v); [|apply grows_refl].
  split; simpl; reflexivity.
Qed.

Lemma _add_existing_month_grows (w : world) (v : pyval) (type : string) (self : HTTPConnector) :
  grows self (_add_existing_month w v type self).2.
Proof.
  unfold _add_existing_month. destruct (normalize_month w v); [|apply grows_refl].
  split; simpl; reflexivity.
Qed.

Lemma _add_existing_year_grows (v : pyval) (type : string) (self : HTTPConnector) :
  grows self (_add_existing_year v type self).2.
Proof.
  split; simpl; reflexivity.
Qed.

Lemma probe_level_grows (w : world)
    (known_missing known_existing : HTTPConnector -> bool)
    (level_url : HTTPConnector -> string)
    (add_existing add_missing rest : M unit) :
  (forall s, grows s (add_existing s).2) ->
  (forall s, grows s (add_missing s).2) ->
  (forall s, grows s (rest s).2) ->
  forall self,
    grows self
      (probe_level w known_missing known_existing level_url
         add_existing add_missing rest self).2.
Proof.
  intros Hex Hmi Hrest self. unfold probe_level.
  destruct (known_missing self); [apply grows_refl|].
  destruct (known_existing self); simpl; [apply Hrest|].
  pose proof (request_grows w (level_url self) false self) as Hreq.
  destruct (request w (level_url self) false self) as [[[status body]|e] self1];
    simpl in *; [|assumption].
  destruct (status =? 200).
  - pose proof (Hex self1) as H1.
    destruct (add_existing self1) as [[u|e] self2]; simpl in *.
    + eapply grows_trans; [eassumption|].
      eapply grows_trans; [eassumption|apply Hrest].
    + eapply grows_trans; eassumption.
  - eapply grows_trans; [eassumption|apply Hmi].
Qed.

Lemma _probe_hour_grows (w : world) (h : datetime) (type : string) (self : HTTPConnector) :
  grows self (_probe_hour w h type self).2.
Proof.
  unfold _probe_hour. simpl.
  apply probe_level_grows;
    [apply _add_existing_year_grows | apply _add_missing_year_grows |].
  intros s1. apply probe_level_grows;
    [apply _add_existing_month_grows | apply _add_missing_month_grows |].
  intros s2. apply probe_level_grows;
    [apply _add_existing_day_grows | apply _add_missing_day_grows |].
  intros s3. apply grows_refl.
Qed.

(** A listing never gets to its loop: [finditer] refuses the body. *)
Lemma _get_directory_run {A : Type} (w : world) (u : string) (pattern : regex)
    (url_group : nat) (spec : value_spec A) (self : HTTPConnector) :
  _get_directory w u pattern url_group spec self
  = match request w u true self with
    | (Raise e, self1) => mkrun [] (Some e) self1
    | (Ok _, self1) => mkrun [] (Some TypeError) self1
    end.
Proof.
  unfold _get_directory.
  by destruct (request w u true self) as [[[status body]|e] self1].
Qed.

Lemma _get_directory_yields {A : Type} (w : world) (u : string) (pattern : regex)
    (url_group : nat) (spec : value_spec A) (self : HTTPConnector) :
  yielded (_get_directory w u pattern url_group spec self) = [].
Proof.
  rewrite _get_directory_run.
  by destruct (request w u true self) as [[[status body]|e] self1].
Qed.

Lemma _get_directory_grows {A : Type} (w : world) (u : string) (pattern : regex)
    (url_group : nat) (spec : value_spec A) (self : HTTPConnector) :
  grows self (final (_get_directory w u pattern url_group spec self)).
Proof.
  rewrite _get_directory_run.
  pose proof (request_grows w u true self) as Hreq.
  destruct (request w u true self) as [[[status body]|e] self1]; assumption.
Qed.

Lemma _get_snapshots_in_hour_grows (w : world) (v : pyval) (self : HTTPConnector) :
  grows self (final (_get_snapshots_in_hour w v self)).
Proof.
  unfold _get_snapshots_in_hour.
  destruct (normalize_time w v false) as [h|e]; [|apply grows_refl].
  destruct (_is_day_missing w (PDateTime h) "snapshots" self) as [[|]|e];
    try apply grows_refl.
  pose proof (_get_directory_grows w (hour_listing_url h self) SNAPSHOT_RE 1
                (ByMatch snapshot_of_match) self) as Hdir.
  set (r := _get_directory w (hour_listing_url h self) SNAPSHOT_RE 1
              (ByMatch snapshot_of_match) self) in *.
  destruct (ending r) as [[]|]; simpl; try assumption.
  pose proof (_probe_hour_grows w h "snapshots" (final r)) as Hp.
  destruct (_probe_hour w h "snapshots" (final r)) as [[u|e] self2]; simpl in *;
    eapply grows_trans; eassumption.
Qed.

Lemma for_hours_grows (w : world) (hours : list datetime) (stop : option exn)
    (self : HTTPConnector) :
  grows self (final (for_hours w hours stop self)).
Proof.
  revert self. induction hours as [|h rest IH]; intros self; simpl.
  - apply grows_refl.
  - pose proof (_get_snapshots_in_hour_grows w (PDateTime h) self) as Hh.
    destruct (ending (_get_snapshots_in_hour w (PDateTime h) self)) as [[]|];
      simpl; try assumption;
      (eapply grows_trans; [exact Hh | apply IH]).
Qed.

Lemma get_snapshots_grows (w : world) (from_date : pyval) (to_date : option pyval)
    (self : HTTPConnector) :
  grows self (final (get_snapshots w from_date to_date self)).
Proof.
  unfold get_snapshots.
  destruct (normalize_time w from_date false) as [a|e]; [|apply grows_refl].
  destruct (normalize_time w (default_to w to_date) false) as [b|e];
    [|apply grows_refl].
  destruct (dt_ge a b); [apply grows_refl|].
  destruct (_iter_hours w (PDateTime a) (PDateTime b)) as [hours stop].
  apply for_hours_grows.
Qed.

Lemma _get_hours_grows (w : world) (v : pyval) (type : string) (self : HTTPConnector) :
  grows self (final (_get_hours w v type self)).
Proof.
  unfold _get_hours.
  destruct (normalize_date w v) as [d|e]; [|apply grows_refl].
  destruct (_is_day_missing w (PDate d) type self) as [[|]|e];
    try apply grows_refl.
  match goal with |- context [_get_directory w ?u ?p ?g ?s self] =>
    pose proof (_get_directory_grows w u p g s self) as Hdir;
    set (r := _get_directory w u p g s self) in * end.
  destruct (ending r) as [[]|]; try exact Hdir.
  pose proof (_add_missing_day_grows w (PDate d) type (final r)) as Ha.
  destruct (_add_missing_day w (PDate d) type (final r)) as [[?|?] self2];
    simpl in *; eapply grows_trans; eassumption.
Qed.

Lemma hour_listing_url_grows (h : datetime) (self self' : HTTPConnector) :
  grows self self' -> hour_listing_url h self' = hour_listing_url h self.
Proof.
  intros Hg. unfold hour_listing_url. by rewrite (grows_base_url _ _ Hg).
Qed.

(** ** The cache that probing builds *)

Lemma probed_cache_init (base station : string) :
  probed_cache (connect (__init__ base station)).
Proof. intros d type Hin. simpl in Hin. set_solver. Qed.

Lemma probe_level_inv (w : world) (I J Q : HTTPConnector -> Prop)
    (known_missing known_existing : HTTPConnector -> bool)
    (level_url : HTTPConnector -> string)
    (add_existing add_missing rest : M unit) :
  (forall s, I s -> Q s) ->
  (forall s u, I s -> I (record_sent u s)) ->
  (forall s, I s -> known_existing s = true -> J s) ->
  (forall s, I s -> match add_existing s with
                    | (Ok _, s') => J s'
                    | (Raise _, s') => Q s'
                    end) ->
  (forall s, I s -> Q (add_missing s).2) ->
  (forall s, J s -> Q (rest s).2) ->
  forall self, I self ->
    Q (probe_level w known_missing known_existing level_url
         add_existing add_missing rest self).2.
Proof.
  intros HIQ Hsent Hke Hae Ham Hrest self HI. unfold probe_level.
  destruct (known_missing self); [by apply HIQ|].
  destruct (known_existing self) eqn:Hk; simpl; [by apply Hrest, Hke|].
  unfold request. destruct (connection self); [|by apply HIQ].
  specialize (Hsent self (level_url self) HI).
  destruct (exchange w (sent self) (level_url self)) as [[status body]|?e]; simpl;
    [|by apply HIQ].
  destruct (status =? 200); [|by apply Ham].
  specialize (Hae _ Hsent).
  destruct (add_existing (record_sent (level_url self) self)) as [[?|?] s2];
    simpl; [by apply Hrest | exact Hae].
Qed.

Lemma _probe_hour_probed_cache (w : world) (h : datetime) (type : string)
    (self : HTTPConnector) :
  probed_cache self -> probed_cache (_probe_hour w h type self).2.
Proof.
  unfold _probe_hour. simpl. unfold date_of.
  set (y := year (ddate h)). set (m := mkdate y (month (ddate h)) 1).
  apply (probe_level_inv w probed_cache
           (fun s => probed_cache s /\ (y, type) ∈ existing_years s) probed_cache).
  - auto.
  - intros s u Hs. exact Hs.
  - intros s Hs Hk. split; [exact Hs | by apply bool_decide_eq_true_1 in Hk].
  - intros s Hs. simpl. split.
    + intros d t Hd. destruct (Hs d t Hd). simpl. split; [set_solver | done].
    + simpl. set_solver.
  - intros s Hs d t Hd. destruct (Hs d t Hd). auto.
  - intros s1. apply (probe_level_inv w
           (fun s => probed_cache s /\ (y, type) ∈ existing_years s)
           (fun s => (probed_cache s /\ (y, type) ∈ existing_years s) /\
                     (m, type) ∈ existing_months s) probed_cache).
    + tauto.
    + intros s u Hs. exact Hs.
    + intros s Hs Hk. split; [exact Hs | by apply bool_decide_eq_true_1 in Hk].
    + intros s [Hs Hy]. simpl. split_and!.
      * intros d t Hd. destruct (Hs d t Hd). simpl. split; [done | set_solver].
      * exact Hy.
      * simpl. set_solver.
    + intros s [Hs Hy] d t Hd. destruct (Hs d t Hd). auto.
    + intros s2. apply (probe_level_inv w
           (fun s => (probed_cache s /\ (y, type) ∈ existing_years s) /\
                     (m, type) ∈ existing_months s)
           probed_cache probed_cache).
      * tauto.
      * intros s u Hs. exact Hs.
      * tauto.
      * intros s [[Hs Hy] Hm]. simpl.
        intros d t Hd. destruct (Hs d t Hd). auto.
      * intros s [[Hs Hy] Hm]. simpl. intros d t Hd. simpl in Hd.
        apply elem_of_union in Hd as [Hd|Hd]; [by apply Hs|].
        apply elem_of_singleton in Hd as [= -> ->]. auto.
      * auto.
Qed.

Lemma _get_snapshots_in_hour_probed_cache (w : world) (h : datetime)
    (self : HTTPConnector) :
  probed_cache self ->
  probed_cache (final (_get_snapshots_in_hour w (PDateTime h) self)).
Proof.
  intros Hs. unfold _get_snapshots_in_hour. simpl.
  destruct (_is_day_missing w (PDateTime h) "snapshots" self) as [[|]|e];
    try exact Hs.
  assert (Hdir : probed_cache (final (_get_directory w (hour_listing_url h self)
                   SNAPSHOT_RE 1 (ByMatch snapshot_of_match) self))).
  { rewrite _get_directory_run. unfold request.
    destruct (connection self); [|exact Hs].
    destruct (exchange w (sent self) (hour_listing_url h self)) as [[st body]|?e];
      [|exact Hs].
    by destruct (true && negb (st =? 200)). }
  destruct (ending _) as [[]|]; simpl; try exact Hdir.
  pose proof (_probe_hour_probed_cache w h "snapshots" _ Hdir) as Hp.
  by destruct (_probe_hour w h "snapshots" _) as [[?|?] ?].
Qed.

Lemma for_hours_probed_cache (w : world) (hours : list datetime)
    (stop : option exn) (self : HTTPConnector) :
  probed_cache self -> probed_cache (final (for_hours w hours stop self)).
Proof.
  revert self. induction hours as [|h rest IH]; intros self Hs; simpl; [exact Hs|].
  pose proof (_get_snapshots_in_hour_probed_cache w h self Hs) as Hh.
  destruct (ending (_get_snapshots_in_hour w (PDateTime h) self)) as [[]|];
    simpl; try exact Hh; by apply IH.
Qed.

Lemma get_snapshots_probed_cache (w : world) (from_date : pyval)
    (to_date : option pyval) (self : HTTPConnector) :
  probed_cache self ->
  probed_cache (final (get_snapshots w from_date to_date self)).
Proof.
  intros Hs. unfold get_snapshots.
  destruct (normalize_time w from_date false) as [a|e]; [|exact Hs].
  destruct (normalize_time w (default_to w to_date) false) as [b|e]; [|exact Hs].
  destruct (dt_ge a b); [exact Hs|].
  destruct (_iter_hours w (PDateTime a) (PDateTime b)) as [hours stop].
  by apply for_hours_probed_cache.
Qed.

(** ** The range check of [get_snapshots] *)

(** C6.  When the normalised start is equal to or after the normalised end,
    [get_snapshots] raises [ValueError] with nothing yielded, no request sent
    and the connector untouched; and an omitted [to_date] stands for the
    current time. *)
Theorem get_snapshots_invalid_range
    (w : world) (from_date : pyval) (to_date : option pyval)
    (self : HTTPConnector) (from_time to_time : datetime)
    (Hfrom : normalize_time w from_date false = Ok from_time)
    (Hto : normalize_time w (default_to w to_date) false = Ok to_time)
    (Hrange : dt_ge from_time to_time = true) :
  get_snapshots w from_date to_date self = mkrun [] (Some ValueError) self /\
  get_snapshots w from_date None self =
    get_snapshots w from_date (Some (PDateTime (now w))) self.
Proof.
  split.
  - unfold get_snapshots. rewrite Hfrom, Hto, Hrange. reflexivity.
  - reflexivity.
Qed.

Lemma get_snapshots_invalid_range_witness :
  normalize_time fixture_world (PInt 1421000000) false
    = Ok (at_time 2015 1 11 18 13 20 0) /\
  normalize_time fixture_world (PDate (mkdate 2015 1 4)) false
    = Ok (at_time 2015 1 4 0 0 0 0) /\
  dt_ge (at_time 2015 1 11 18 13 20 0) (at_time 2015 1 4 0 0 0 0) = true /\
  get_snapshots fixture_world (PInt 1421000000) (Some (PDate (mkdate 2015 1 4)))
    fixture_connector
  = mkrun [] (Some ValueError) fixture_connector.
Proof.
  assert (Hfrom : normalize_time fixture_world (PInt 1421000000) false
                  = Ok (at_time 2015 1 11 18 13 20 0)) by reflexivity.
  assert (Hto : normalize_time fixture_world
                  (default_to fixture_world (Some (PDate (mkdate 2015 1 4)))) false
                = Ok (at_time 2015 1 4 0 0 0 0)) by reflexivity.
  assert (Hrange : dt_ge (at_time 2015 1 11 18 13 20 0) (at_time 2015 1 4 0 0 0 0)
                   = true) by reflexivity.
  split_and!; [exact Hfrom | exact Hto | exact Hrange |].
  exact (proj1 (get_snapshots_invalid_range fixture_world _ _ fixture_connector
                  _ _ Hfrom Hto Hrange)).
Defined.

(** ** The collector *)

Lemma _cover_sink (w : world) (a b : Z) (c : SnapshotCollection) :
  exists passed,
    sink (_cover w a b c).2 = sink c ++ passed /\
    forall ss, ss ∈ passed ->
      exists ta tb,
        normalize_time w (PInt a) false = Ok ta /\
        normalize_time w (PInt b) false = Ok tb /\
        dt_le ta (time ss) = true /\ dt_lt (time ss) tb = true.
Proof.
  unfold _cover.
  destruct (a <? b); simpl.
  2: { exists []. rewrite app_nil_r. split; [done|]. by intros ss ?%elem_of_nil. }
  destruct (fromtimestamp w a) as [ta|ea]; simpl.
  2: { exists []. rewrite app_nil_r. split; [done|]. by intros ss ?%elem_of_nil. }
  destruct (fromtimestamp w b) as [tb|eb]; simpl.
  2: { exists []. rewrite app_nil_r. split; [done|]. by intros ss ?%elem_of_nil. }
  set (r := get_snapshots w (PDateTime ta) (Some (PDateTime tb)) (source c)).
  exists (List.filter (fun ss => dt_gt tb (time ss) && dt_ge (time ss) ta)
                      (yielded r)).
  split.
  - destruct (ending r) as [[]|]; reflexivity.
  - intros ss Hin. apply list_elem_of_In, filter_In in Hin as [_ Hin].
    apply andb_true_iff in Hin as [Hb Ha].
    exists ta, tb. auto.
Qed.

Lemma _cover_spec (w : world) (a b : Z) (c : SnapshotCollection) :
  let (e, c') := _cover w a b c in
  covered_range c' = covered_range c /\
  cover_reqs c' = cover_reqs c /\
  exists calls,
    discovered c' = discovered c ++ calls /\
    calls `prefix_of` delta_call w a b /\
    (e = None -> calls = delta_call w a b).
Proof.
  unfold _cover, delta_call.
  destruct (a <? b); simpl.
  2: { split_and!; try reflexivity. exists []. rewrite app_nil_r. done. }
  destruct (fromtimestamp w a) as [ta|ea]; simpl.
  2: { split_and!; try reflexivity. exists []. rewrite app_nil_r. done. }
  destruct (fromtimestamp w b) as [tb|eb]; simpl.
  2: { split_and!; try reflexivity. exists []. rewrite app_nil_r. done. }
  destruct (ending (get_snapshots w (PDateTime ta) (Some (PDateTime tb)) (source c)))
    as [[]|]; simpl; (split_and!; try reflexivity); exists [(ta, tb)]; done.
Qed.

Lemma _cover_empty (w : world) (a b : Z) (c : SnapshotCollection) :
  b <= a -> _cover w a b c = (None, c).
Proof.
  intros H. unfold _cover.
  destruct (Z.ltb_spec a b) as [Hlt|_]; [lia | reflexivity].
Qed.

(** C7.  A request equal to the covered range changes nothing but the queue,
    which is drained: the covered range stays, [get_snapshots] is not called,
    the connector and the sink are as before, and the round ends normally. *)
Theorem async_round_same_range
    (w : world) (c : SnapshotCollection) (a b : Z)
    (first : Z * Z) (others : list (Z * Z))
    (Hcovered : covered_range c = Some (a, b))
    (Hqueue : cover_reqs c = first :: others)
    (Hlast : List.last others first = (a, b)) :
  async_round w c =
    Some (None, mkcoll (source c) (sink c) (Some (a, b)) [] (discovered c)).
Proof.
  unfold async_round. rewrite Hqueue, Hlast. simpl. rewrite Hcovered. simpl.
  rewrite Z.min_id, Z.max_id.
  rewrite !_cover_empty by lia. reflexivity.
Qed.

Lemma async_round_same_range_witness :
  let c := cover 10 20 (after_round empty_world (cover 10 20 fixture_collection)) in
  covered_range c = Some (10, 20) /\
  cover_reqs c = [(10, 20)] /\
  async_round empty_world c
  = Some (None, mkcoll (source c) (sink c) (Some (10, 20)) [] (discovered c)).
Proof.
  intros c.
  assert (Hcovered : covered_range c = Some (10, 20)) by (vm_compute; reflexivity).
  assert (Hqueue : cover_reqs c = [(10, 20)]) by (vm_compute; reflexivity).
  split_and!; [exact Hcovered | exact Hqueue |].
  exact (async_round_same_range empty_world c 10 20 (10, 20) [] Hcovered Hqueue
           eq_refl).
Defined.

(** C3.  With [(oldA, oldB)] covered, a round that serves [(a, b)] calls
    [get_snapshots] on the two deltas [(newA, oldA)] and [(oldB, newB)] of the
    bounding range and on nothing else, each only if it is not empty; what it
    hands to the sink lies before [oldA] or not before [oldB], so nothing of
    the interior is fetched again; and, when no exception ends the round, it
    leaves the bounding range [(min a oldA, max b oldB)] covered. *)
Theorem async_round_covers_deltas
    (w : world) (c c' : SnapshotCollection) (oldA oldB a b : Z)
    (first : Z * Z) (others : list (Z * Z)) (e : option exn)
    (Hcovered : covered_range c = Some (oldA, oldB))
    (Hqueue : cover_reqs c = first :: others)
    (Hlast : List.last others first = (a, b))
    (Hround : async_round w c = Some (e, c')) :
  let newA := Z.min a oldA in
  let newB := Z.max b oldB in
  (exists calls,
      discovered c' = discovered c ++ calls /\
      calls `prefix_of` (delta_call w newA oldA ++ delta_call w oldB newB)) /\
  (exists passed,
      sink c' = sink c ++ passed /\
      forall ss, ss ∈ passed ->
        (exists t, normalize_time w (PInt oldA) false = Ok t /\
                   dt_lt (time ss) t = true) \/
        (exists t, normalize_time w (PInt oldB) false = Ok t /\
                   dt_le t (time ss) = true)) /\
  (e = None ->
   covered_range c' = Some (newA, newB) /\
   discovered c' =
     discovered c ++ delta_call w newA oldA ++ delta_call w oldB newB).
Proof.
  intros newA newB. subst newA newB.
  rewrite (Z.min_comm a oldA), (Z.max_comm b oldB).
  unfold async_round in Hround. rewrite Hqueue, Hlast in Hround.
  simpl in Hround. rewrite Hcovered in Hround. simpl in Hround.
  set (c0 := mkcoll (source c) (sink c) (Some (oldA, oldB)) [] (discovered c)) in *.
  pose proof (_cover_spec w (Z.min oldA a) oldA c0) as H1.
  pose proof (_cover_sink w (Z.min oldA a) oldA c0) as (passed1 & Hs1 & Hin1).
  destruct (_cover w (Z.min oldA a) oldA c0) as [e1 c1].
  destruct H1 as (Hr1 & Hq1 & calls1 & Hd1 & Hp1 & Hall1). simpl in Hs1.
  assert (Hleft : forall ss, ss ∈ passed1 ->
            (exists t, normalize_time w (PInt oldA) false = Ok t /\
                       dt_lt (time ss) t = true) \/
            (exists t, normalize_time w (PInt oldB) false = Ok t /\
                       dt_le t (time ss) = true)).
  { intros ss (ta & tb & _ & Hb & _ & Hlt)%Hin1. left. by exists tb. }
  destruct e1 as [x1|].
  { inversion Hround; subst. split_and!; [| |discriminate].
    - exists calls1. split; [exact Hd1 | by apply prefix_app_r].
    - by exists passed1. }
  specialize (Hall1 eq_refl). subst calls1.
  pose proof (_cover_spec w oldB (Z.max oldB b) c1) as H2.
  pose proof (_cover_sink w oldB (Z.max oldB b) c1) as (passed2 & Hs2 & Hin2).
  destruct (_cover w oldB (Z.max oldB b) c1) as [e2 c2].
  destruct H2 as (Hr2 & Hq2 & calls2 & Hd2 & Hp2 & Hall2). simpl in Hs2.
  rewrite Hd1 in Hd2. simpl in Hd2. rewrite <- app_assoc in Hd2.
  rewrite Hs1 in Hs2. simpl in Hs2. rewrite <- app_assoc in Hs2.
  assert (Hboth : forall ss, ss ∈ passed1 ++ passed2 ->
            (exists t, normalize_time w (PInt oldA) false = Ok t /\
                       dt_lt (time ss) t = true) \/
            (exists t, normalize_time w (PInt oldB) false = Ok t /\
                       dt_le t (time ss) = true)).
  { intros ss [Hin|Hin]%elem_of_app; [by apply Hleft|].
    apply Hin2 in Hin as (ta & tb & Ha & _ & Hle & _). right. by exists ta. }
  destruct e2 as [x2|].
  { inversion Hround; subst. split_and!; [| |discriminate].
    - eexists. split; [exact Hd2 | by apply prefix_app].
    - by exists (passed1 ++ passed2). }
  specialize (Hall2 eq_refl). subst calls2.
  inversion Hround; subst. simpl. split_and!.
  - eexists. split; [exact Hd2 | reflexivity].
  - by exists (passed1 ++ passed2).
  - intros _. split; [reflexivity | exact Hd2].
Qed.

Lemma async_round_covers_deltas_witness :
  let c := cover 8 15 (after_round empty_world (cover 5 10 fixture_collection)) in
  let c' := after_round empty_world c in
  covered_range c = Some (5, 10) /\
  cover_reqs c = [(8, 15)] /\
  async_round empty_world c = Some (None, c') /\
  covered_range c' = Some (5, 15) /\
  discovered c'
  = discovered c ++ [(at_time 1970 1 1 0 0 10 0, at_time 1970 1 1 0 0 15 0)].
Proof.
  intros c c'.
  assert (Hcovered : covered_range c = Some (5, 10)) by (vm_compute; reflexivity).
  assert (Hqueue : cover_reqs c = [(8, 15)]) by (vm_compute; reflexivity).
  assert (Hround : async_round empty_world c = Some (None, c'))
    by (vm_compute; reflexivity).
  split_and!; [exact Hcovered | exact Hqueue | exact Hround | |];
    apply (proj2 (proj2 (async_round_covers_deltas empty_world c c' 5 10 8 15
                           (8, 15) [] None Hcovered Hqueue eq_refl Hround))
             eq_refl).
Defined.

(** ** What [get_snapshots] yields *)

Lemma _get_snapshots_in_hour_yields (w : world) (v : pyval) (self : HTTPConnector) :
  yielded (_get_snapshots_in_hour w v self) = [].
Proof.
  unfold _get_snapshots_in_hour.
  destruct (normalize_time w v false) as [h|e]; [|done].
  destruct (_is_day_missing w (PDateTime h) "snapshots" self) as [[|]|e];
    try done.
  cbv zeta. rewrite _get_directory_yields.
  destruct (ending _) as [[]|]; try done.
  by destruct (_probe_hour w h "snapshots" _) as [[] ?].
Qed.

Lemma for_hours_yields (w : world) (hours : list datetime) (stop : option exn)
    (self : HTTPConnector) :
  yielded (for_hours w hours stop self) = [].
Proof.
  revert self. induction hours as [|h rest IH]; intros self; [done|].
  cbn [for_hours].
  pose proof (_get_snapshots_in_hour_yields w (PDateTime h) self) as Hh.
  destruct (ending (_get_snapshots_in_hour w (PDateTime h) self)) as [[]|];
    try exact Hh; cbn [prepend yielded]; by rewrite Hh, IH.
Qed.

(** No call of [get_snapshots] yields an entry: the listing of an hour is
    refused, which ends the hour, or it is answered with a body that
    [finditer] refuses, which ends the call. *)
Lemma get_snapshots_yields (w : world) (from_date : pyval)
    (to_date : option pyval) (self : HTTPConnector) :
  yielded (get_snapshots w from_date to_date self) = [].
Proof.
  unfold get_snapshots.
  destruct (normalize_time w from_date false) as [a|e]; [|done].
  destruct (normalize_time w (default_to w to_date) false) as [b|e]; [|done].
  destruct (dt_ge a b); [done|].
  destruct (_iter_hours w (PDateTime a) (PDateTime b)) as [hours stop].
  apply for_hours_yields.
Qed.



(** ** The exceptions that leave [get_snapshots] *)

Lemma connection_exn_not_ConnectorException (status : Z) :
  ~ connection_exn (ConnectorException status).
Proof. intros [H|[H|[H|[what H]]]]; discriminate. Qed.

Lemma request_raises (w : world) (u : string) (throw : bool)
    (self : HTTPConnector) (e : exn) :
  (request w u throw self).1 = Raise e ->
  e = AttributeError \/ connection_exn e \/
  (throw = true /\ exists status, e = ConnectorException status).
Proof.
  unfold request. destruct (connection self); [|intros [= <-]; auto].
  destruct (exchange w (sent self) u) as [[status body]|e'] eqn:Hex; cbn [fst].
  - destruct throw; cbn [andb]; [|discriminate].
    destruct (negb (status =? 200)); [|discriminate].
    intros [= <-]. right. right. eauto.
  - intros [= <-]. right. left. eapply exchange_Raise, Hex.
Qed.







(** ** The fixture archive *)

Lemma snapshot_of_match_ok (m : re_match) (u : string) (ss : SnapshotEntry) :
  snapshot_of_match m u = Ok ss ->
  group m 1 = Some (file_name ss) /\ url ss = u /\
  microsecond (time ss) = 0 /\ valid_datetime (time ss) = true.
Proof.
  unfold snapshot_of_match.
  destruct (group m 1) as [name|]; [|discriminate].
  destruct (int_group m 2) as [y|]; [|discriminate].
  destruct (int_group m 3) as [mo|]; [|discriminate].
  destruct (int_group m 4) as [d|]; [|discriminate].
  destruct (int_group m 5) as [h|]; [|discriminate].
  destruct (int_group m 6) as [mi|]; [|discriminate].
  destruct (int_group m 7) as [s|]; [|discriminate].
  simpl. unfold datetime_new.
  destruct (check_date_fields y mo d && check_time_fields h mi s 0) eqn:Hv;
    [|discriminate].
  simpl. intros [= <-]. simpl. repeat split. exact Hv.
Qed.

(** C2, as stated, fails: over 00:00 to 06:00 of 2015-01-04 the fixture does
    not yield a single entry with the time 03:00:00.123, and the entry that
    the loop of [_get_directory] builds from the link of the listing does not
    have this time either. *)
Lemma fixture_snapshot_has_no_milliseconds :
  yielded (get_snapshots fixture_world
             (PDateTime (at_time 2015 1 4 0 0 0 0))
             (Some (PDateTime (at_time 2015 1 4 6 0 0 0)))
             fixture_connector)
  <> [mkentry fixture_file (at_time 2015 1 4 3 0 0 123000)
              (urljoin fixture_hour_dir fixture_file)] /\
  map snd (yield_matches fixture_hour_dir 1 (ByMatch snapshot_of_match)
             (finditer_str SNAPSHOT_RE fixture_listing)).1
  <> [mkentry fixture_file (at_time 2015 1 4 3 0 0 123000)
              (urljoin fixture_hour_dir fixture_file)].
Proof.
  split; vm_compute; discriminate.
Qed.

(** C2, as the code has it.  The URL that [_get_snapshots_in_hour] lists for
    the hour 03 of 2015-01-04 is the hour directory of the fixture.  In the
    text of its listing the file-name pattern finds one link, that of the
    fixture file, with the three digits after the seconds in its group 8; the
    loop of [_get_directory] builds one entry from it, with the file name of
    the fixture, the time 03:00:00 with no sub-second part, and the URL of
    the hour directory joined with the file name.  The three digits are not
    used: every entry built from a match has microsecond 0. *)
Theorem fixture_entry_has_no_milliseconds :
  hour_listing_url (at_time 2015 1 4 3 0 0 0) fixture_connector = fixture_hour_dir /\
  map (fun m => (group m 1, group m 8)) (finditer_str SNAPSHOT_RE fixture_listing)
  = [(Some fixture_file, Some "123")] /\
  yield_matches fixture_hour_dir 1 (ByMatch snapshot_of_match)
    (finditer_str SNAPSHOT_RE fixture_listing)
  = ([(urljoin fixture_hour_dir fixture_file,
       mkentry fixture_file (at_time 2015 1 4 3 0 0 0)
               (urljoin fixture_hour_dir fixture_file))], None) /\
  (forall (m : re_match) (u : string),
      match snapshot_of_match m u with
      | Ok ss => microsecond (time ss) = 0
      | Raise _ => True
      end).
Proof.
  split_and!; [vm_compute; reflexivity | vm_compute; reflexivity
              | vm_compute; reflexivity |].
  intros m u. destruct (snapshot_of_match m u) as [ss|e] eqn:Hss; [|exact I].
  by apply snapshot_of_match_ok in Hss as (_ & _ & Hus & _).
Qed.

(** What the call itself does on the fixture: the hours 00, 01 and 02 are
    refused (after the first the year, the month and the day are probed and
    recorded), the listing of the hour 03 is answered, and [finditer] ends
    the call with [TypeError], nothing yielded. *)
Lemma fixture_get_snapshots :
  let r := get_snapshots fixture_world
             (PDateTime (at_time 2015 1 4 0 0 0 0))
             (Some (PDateTime (at_time 2015 1 4 6 0 0 0)))
             fixture_connector in
  yielded r = [] /\ ending r = Some TypeError /\
  sent (final r) = ["http://archive.example/station/snapshots/2015/01/04/00/";
                    "http://archive.example/station/snapshots/2015/";
                    "http://archive.example/station/snapshots/2015/01/";
                    "http://archive.example/station/snapshots/2015/01/04/";
                    "http://archive.example/station/snapshots/2015/01/04/01/";
                    "http://archive.example/station/snapshots/2015/01/04/02/";
                    fixture_hour_dir].
Proof.
  split_and!; vm_compute; reflexivity.
Qed.

(** The scenario depends on the directories above the hour answering 200:
    when they do not, the probe after the failed hour 00 records the year
    missing and the populated hour 03 is never requested. *)
Lemma bare_fixture_yields_nothing :
  let r := get_snapshots bare_world
             (PDateTime (at_time 2015 1 4 0 0 0 0))
             (Some (PDateTime (at_time 2015 1 4 6 0 0 0)))
             fixture_connector in
  yielded r = [] /\ ending r = None /\
  sent (final r) = ["http://archive.example/station/snapshots/2015/01/04/00/";
                    "http://archive.example/station/snapshots/2015/"].
Proof.
  split_and!; vm_compute; reflexivity.
Qed.

(** ** Days recorded missing *)

Lemma _is_day_missing_recorded (w : world) (h : datetime) (type : string)
    (self : HTTPConnector) :
  (ddate h, type) ∈ missing_days self ->
  _is_day_missing w (PDateTime h) type self = Ok true.
Proof.
  intros Hm. unfold _is_day_missing. simpl. unfold date_of.
  destruct (bool_decide ((year (ddate h), type) ∈ missing_years self));
    [reflexivity|].
  destruct (bool_decide (({| year := year (ddate h); month := month (ddate h);
                             day := 1 |}, type) ∈ missing_months self));
    [reflexivity|].
  by rewrite bool_decide_eq_true_2.
Qed.

Lemma _get_snapshots_in_hour_missing_day (w : world) (h : datetime)
    (self : HTTPConnector) :
  (ddate h, "snapshots") ∈ missing_days self ->
  _get_snapshots_in_hour w (PDateTime h) self = mkrun [] None self.
Proof.
  intros Hm. unfold _get_snapshots_in_hour. simpl.
  by rewrite (_is_day_missing_recorded w h "snapshots" self Hm).
Qed.

Lemma for_hours_missing_day (w : world) (d : date) (hours : list datetime)
    (stop : option exn) (self : HTTPConnector) :
  (d, "snapshots") ∈ missing_days self ->
  Forall (fun h => ddate h = d) hours ->
  for_hours w hours stop self = mkrun [] stop self.
Proof.
  intros Hm Hd. induction Hd as [|h rest Hh _ IH]; simpl; [reflexivity|].
  subst d. rewrite (_get_snapshots_in_hour_missing_day w h self Hm). simpl.
  rewrite IH. reflexivity.
Qed.

Lemma get_snapshots_missing_day (w : world) (a b : datetime) (self : HTTPConnector) :
  (ddate a, "snapshots") ∈ missing_days self ->
  ddate b = ddate a ->
  exists stop,
    get_snapshots w (PDateTime a) (Some (PDateTime b)) self = mkrun [] stop self.
Proof.
  intros Hm Hd. unfold get_snapshots. simpl.
  destruct (dt_ge a b); [by eexists|].
  rewrite _iter_hours_datetimes.
  pose proof (_iter_hours_loop_same_day
                (hours_budget (hour_floor a) (hour_floor b))
                (hour_floor a) (hour_floor b)) as Hs.
  destruct (_iter_hours_loop _ (hour_floor a) (hour_floor b)) as [hours stop].
  exists stop. apply (for_hours_missing_day w (ddate a)); [exact Hm|].
  simpl in Hs. rewrite Hd in Hs. by apply Hs.
Qed.

Lemma _probe_hour_resolved (w : world) (h : datetime) (type : string)
    (self : HTTPConnector) :
  (year (ddate h), type) ∈ missing_years self ∪ existing_years self ->
  (mkdate (year (ddate h)) (month (ddate h)) 1, type)
    ∈ missing_months self ∪ existing_months self ->
  (ddate h, type) ∈ missing_days self ->
  _probe_hour w h type self = (Ok tt, self).
Proof.
  intros Hy Hmo Hd. unfold _probe_hour, probe_level. simpl. unfold date_of.
  destruct (bool_decide_reflect ((year (ddate h), type) ∈ missing_years self));
    [reflexivity|].
  apply elem_of_union in Hy as [Hy|Hy]; [contradiction|].
  rewrite (bool_decide_eq_true_2 _ Hy). simpl.
  destruct (bool_decide_reflect
              (({| year := year (ddate h); month := month (ddate h); day := 1 |},
                type) ∈ missing_months self)); [reflexivity|].
  apply elem_of_union in Hmo as [Hmo|Hmo]; [contradiction|].
  rewrite (bool_decide_eq_true_2 _ Hmo). simpl.
  by rewrite bool_decide_eq_true_2.
Qed.

(** C5, as stated, fails for the probe: after [_get_hours] has recorded
    2015-01-05 missing in a new connector, [_probe_hour] for an hour of that
    day still requests the year and the month directories. *)
Lemma _probe_hour_fetches_with_day_missing :
  let self := final (_get_hours fixture_world (PDate (mkdate 2015 1 5))
                       "snapshots" fixture_connector) in
  (mkdate 2015 1 5, "snapshots") ∈ missing_days self /\
  sent (_probe_hour fixture_world (at_time 2015 1 5 3 0 0 0) "snapshots" self).2
  = sent self ++ ["http://archive.example/station/snapshots/2015/";
                  "http://archive.example/station/snapshots/2015/01/"].
Proof.
  split.
  - apply (bool_decide_unpack _). vm_compute. exact I.
  - vm_compute. reflexivity.
Qed.

(** C5, as the code has it.  A day recorded missing for a kind stays
    recorded: [_probe_hour], [get_snapshots] and [_get_hours] keep it.  While
    it is recorded, the day-missing check answers [True] for every hour of the
    day, and a [get_snapshots] call whose start and end fall in that day (kind
    ["snapshots"]) yields nothing and sends no request, the connector being
    left as it was.  [_probe_hour] sends no request for an hour of the day
    once the year and the month of the day are resolved (recorded existing or
    missing); they are in every cache that [_probe_hour] and [get_snapshots]
    build from a new connector, where a day is recorded missing only under a
    year and a month recorded existing. *)
Theorem missing_day_stops_fetches
    (w : world) (self : HTTPConnector) (d : date) (type : string)
    (Hmissing : (d, type) ∈ missing_days self) :
  (forall h, ddate h = d -> _is_day_missing w (PDateTime h) type self = Ok true) /\
  (type = "snapshots" ->
   forall a b, ddate a = d -> ddate b = d ->
     exists stop,
       get_snapshots w (PDateTime a) (Some (PDateTime b)) self
       = mkrun [] stop self) /\
  (forall h, ddate h = d ->
     (year d, type) ∈ missing_years self ∪ existing_years self ->
     (mkdate (year d) (month d) 1, type)
       ∈ missing_months self ∪ existing_months self ->
     _probe_hour w h type self = (Ok tt, self)) /\
  (probed_cache self ->
   forall h, ddate h = d -> _probe_hour w h type self = (Ok tt, self)) /\
  ((forall h t, (d, type) ∈ missing_days (_probe_hour w h t self).2) /\
   (forall a b, (d, type) ∈ missing_days (final (get_snapshots w a b self))) /\
   (forall v t, (d, type) ∈ missing_days (final (_get_hours w v t self)))) /\
  (forall base station, probed_cache (connect (__init__ base station))) /\
  (probed_cache self ->
   (forall h t, probed_cache (_probe_hour w h t self).2) /\
   (forall a b, probed_cache (final (get_snapshots w a b self)))).
Proof.
  split_and!.
  - intros h <-. by apply _is_day_missing_recorded.
  - intros -> a b Ha Hb. subst d. by apply get_snapshots_missing_day.
  - intros h <- Hy Hm. by apply _probe_hour_resolved.
  - intros Hcache h <-. destruct (Hcache _ _ Hmissing) as [Hy Hm].
    apply _probe_hour_resolved; [set_solver | set_solver | done].
  - intros h t. by apply (grows_missing_days _ _ (_probe_hour_grows w h t self)).
  - intros a b. by apply (grows_missing_days _ _ (get_snapshots_grows w a b self)).
  - intros v t. by apply (grows_missing_days _ _ (_get_hours_grows w v t self)).
  - apply probed_cache_init.
  - intros Hcache. split.
    + intros h t. by apply _probe_hour_probed_cache.
    + intros a b. by apply get_snapshots_probed_cache.
Qed.

Lemma missing_day_stops_fetches_witness :
  let self := final (_get_hours fixture_world (PDate (mkdate 2015 1 5))
                       "snapshots" fixture_connector) in
  (mkdate 2015 1 5, "snapshots") ∈ missing_days self /\
  exists stop,
    get_snapshots fixture_world
      (PDateTime (at_time 2015 1 5 1 0 0 0))
      (Some (PDateTime (at_time 2015 1 5 4 30 0 0))) self
    = mkrun [] stop self.
Proof.
  intros self.
  assert (Hmissing : (mkdate 2015 1 5, "snapshots") ∈ missing_days self)
    by (apply (bool_decide_unpack _); vm_compute; exact I).
  split; [exact Hmissing|].
  exact (proj1 (proj2 (missing_day_stops_fetches fixture_world self
                         (mkdate 2015 1 5) "snapshots" Hmissing))
           eq_refl (at_time 2015 1 5 1 0 0 0) (at_time 2015 1 5 4 30 0 0)
           eq_refl eq_refl).
Defined.

(** ** A failed hour *)

Lemma _probe_hour_no_ConnectorException (w : world) (h : datetime) (type : string)
    (self : HTTPConnector) (status : Z) :
  (_probe_hour w h type self).1 <> Raise (ConnectorException status).
Proof.
  assert (Hreq : forall u s, (request w u false s).1 <> Raise (ConnectorException status)).
  { intros u s Hr.
    apply request_raises in Hr as [Hr|[Hr|[Hr _]]];
      [discriminate | by apply connection_exn_not_ConnectorException in Hr
      | discriminate]. }
  assert (Hlevel : forall km ke lu (ae am rest : M unit),
             (forall s, (ae s).1 <> Raise (ConnectorException status)) ->
             (forall s, (am s).1 <> Raise (ConnectorException status)) ->
             (forall s, (rest s).1 <> Raise (ConnectorException status)) ->
             forall s, (probe_level w km ke lu ae am rest s).1
                       <> Raise (ConnectorException status)).
  { intros km ke lu ae am rest Hae Ham Hrest s. unfold probe_level.
    destruct (km s); [discriminate|].
    destruct (ke s); simpl; [apply Hrest|].
    specialize (Hreq (lu s) s).
    destruct (request w (lu s) false s) as [[[st body]|e] s1]; simpl in *;
      [|intros [= ->]; by apply Hreq].
    destruct (st =? 200); [|apply Ham].
    specialize (Hae s1). destruct (ae s1) as [[?|?] s2]; simpl in *;
      [apply Hrest | exact Hae]. }
  unfold _probe_hour. simpl.
  apply Hlevel; try (intros s; discriminate).
  intros s1. apply Hlevel; try (intros s; discriminate).
  intros s2. apply Hlevel; try (intros s; discriminate).
Qed.

Lemma _get_snapshots_in_hour_fetch_failure
    (w : world) (h : datetime) (self : HTTPConnector) (status : Z) (body : string) :
  connection self = true ->
  _is_day_missing w (PDateTime h) "snapshots" self = Ok false ->
  exchange w (sent self) (hour_listing_url h self) = Ok (status, body) ->
  status <> 200 ->
  _get_snapshots_in_hour w (PDateTime h) self
  = let p := _probe_hour w h "snapshots"
               (record_sent (hour_listing_url h self) self) in
    mkrun []
      (Some match p.1 with
            | Ok _ => ConnectorException status
            | Raise e => e
            end)
      p.2.
Proof.
  intros Hc Hday Hfetch Hst.
  unfold _get_snapshots_in_hour. simpl. rewrite Hday.
  rewrite _get_directory_run. unfold request. rewrite Hc, Hfetch. simpl.
  destruct (Z.eqb_spec status 200) as [|_]; [contradiction|]. simpl.
  destruct (_probe_hour w h "snapshots"
              (record_sent (hour_listing_url h self) self)) as [[[]|e] self2];
    reflexivity.
Qed.

Lemma for_hours_no_ConnectorException (w : world) (hours : list datetime)
    (stop : option exn) (self : HTTPConnector) (status : Z) :
  ending (for_hours w hours stop self) = Some (ConnectorException status) ->
  stop = Some (ConnectorException status).
Proof.
  revert self. induction hours as [|h rest IH]; intros self; simpl; [done|].
  destruct (ending (_get_snapshots_in_hour w (PDateTime h) self)) as [[]|] eqn:He;
    simpl; try apply IH; rewrite He; discriminate.
Qed.

Lemma get_snapshots_no_ConnectorException (w : world) (a b : datetime)
    (self : HTTPConnector) (status : Z) :
  ending (get_snapshots w (PDateTime a) (Some (PDateTime b)) self)
  <> Some (ConnectorException status).
Proof.
  unfold get_snapshots. simpl.
  destruct (dt_ge a b); [discriminate|].
  rewrite _iter_hours_datetimes.
  pose proof (_iter_hours_loop_stop
                (hours_budget (hour_floor a) (hour_floor b))
                (hour_floor a) (hour_floor b)) as Hs.
  destruct (_iter_hours_loop _ (hour_floor a) (hour_floor b)) as [hours stop].
  simpl in Hs. intros He%for_hours_no_ConnectorException.
  destruct Hs as [->| [->| ->]]; discriminate.
Qed.

(** The listing of an hour that is answered ends the hour, and the call,
    with [TypeError]. *)
Lemma _get_snapshots_in_hour_answered
    (w : world) (h : datetime) (self : HTTPConnector) (body : string) :
  connection self = true ->
  _is_day_missing w (PDateTime h) "snapshots" self = Ok false ->
  exchange w (sent self) (hour_listing_url h self) = Ok (200, body) ->
  _get_snapshots_in_hour w (PDateTime h) self
  = mkrun [] (Some TypeError) (record_sent (hour_listing_url h self) self).
Proof.
  intros Hc Hday Hfetch.
  unfold _get_snapshots_in_hour. simpl. rewrite Hday.
  rewrite _get_directory_run. unfold request. by rewrite Hc, Hfetch.
Qed.

(** C4.  The fixture archive refuses the listing of the hour 02 of
    2015-01-04 and answers that of the hour 03, which holds the fixture file.
    [get_snapshots] from 02:00 to 03:30 recovers from the refusal as claimed:
    the hour 02 yields nothing, the probe requests the year, the month and
    the day and records them existing, and the call goes on to the hour 03
    without an exception.  It then does not yield the entry of the hour 03:
    [finditer] refuses the body of the listing, and the call ends with
    [TypeError], nothing yielded. *)
Theorem get_snapshots_failed_hour_then_TypeError :
  let r := get_snapshots fixture_world
             (PDateTime (at_time 2015 1 4 2 0 0 0))
             (Some (PDateTime (at_time 2015 1 4 3 30 0 0)))
             fixture_connector in
  (forall before,
     server fixture_world before
       (hour_listing_url (at_time 2015 1 4 2 0 0 0) fixture_connector)
     = Response 404 "Not Found" /\
     server fixture_world before
       (hour_listing_url (at_time 2015 1 4 3 0 0 0) fixture_connector)
     = Response 200 fixture_listing) /\
  yielded r = [] /\
  ending r = Some TypeError /\
  sent (final r) = ["http://archive.example/station/snapshots/2015/01/04/02/";
                    "http://archive.example/station/snapshots/2015/";
                    "http://archive.example/station/snapshots/2015/01/";
                    "http://archive.example/station/snapshots/2015/01/04/";
                    "http://archive.example/station/snapshots/2015/01/04/03/"] /\
  (2015, "snapshots") ∈ existing_years (final r) /\
  (mkdate 2015 1 1, "snapshots") ∈ existing_months (final r) /\
  (mkdate 2015 1 4, "snapshots") ∈ existing_days (final r).
Proof.
  split_and!;
    [intros before; split; vm_compute; reflexivity
    | vm_compute; reflexivity | vm_compute; reflexivity | vm_compute; reflexivity
    | apply (bool_decide_unpack _); vm_compute; exact I
    | apply (bool_decide_unpack _); vm_compute; exact I
    | apply (bool_decide_unpack _); vm_compute; exact I].
Qed.

(** * Further properties *)

(** ** Time normalisation, continued *)

(** The date of a value is the date of its time: whenever [normalize_time]
    gives a datetime, [normalize_date] gives its date, [normalize_month] the
    first day of its month, and [_get_hour] its hour with minutes and seconds
    cleared; and the month of a month is that month again. *)
Theorem normalize_date_agrees_with_time
    (w : world) (value : pyval) (t : datetime)
    (Htime : normalize_time w value false = Ok t) :
  normalize_date w value = Ok (ddate t) /\
  normalize_month w value = Ok (mkdate (year (ddate t)) (month (ddate t)) 1) /\
  normalize_month w (PDate (mkdate (year (ddate t)) (month (ddate t)) 1))
    = Ok (mkdate (year (ddate t)) (month (ddate t)) 1) /\
  _get_hour w value = Ok (hour_floor t) /\
  _get_hour w (PDateTime (hour_floor t)) = Ok (hour_floor t).
Proof.
  assert (Hdate : normalize_date w value = Ok (ddate t)).
  { destruct value as [n|t'|d]; simpl in *.
    - by rewrite Htime.
    - by injection Htime as ->.
    - unfold datetime_new in Htime.
      destruct (check_date_fields _ _ _ && _); [|discriminate].
      injection Htime as <-. by destruct d. }
  split_and!; try done.
  - unfold normalize_month. by rewrite Hdate.
  - unfold _get_hour. by rewrite Htime.
Qed.

Lemma normalize_date_agrees_with_time_witness :
  normalize_time fixture_world (PInt 1421000000) false
    = Ok (at_time 2015 1 11 18 13 20 0) /\
  normalize_date fixture_world (PInt 1421000000) = Ok (mkdate 2015 1 11) /\
  _get_hour fixture_world (PInt 1421000000) = Ok (at_time 2015 1 11 18 0 0 0).
Proof.
  assert (Htime : normalize_time fixture_world (PInt 1421000000) false
                  = Ok (at_time 2015 1 11 18 13 20 0)) by reflexivity.
  pose proof (normalize_date_agrees_with_time fixture_world _ _ Htime)
    as (Hd & _ & _ & Hh & _).
  split_and!; [exact Htime | exact Hd | exact Hh].
Defined.

(** ** The collector, continued *)

Lemma fold_left_min_le (l : list Z) (x : Z) :
  fold_left Z.min l x <= x /\
  (forall y, y ∈ l -> fold_left Z.min l x <= y) /\
  fold_left Z.min l x ∈ x :: l.
Proof.
  revert x. induction l as [|z l IH]; intros x; simpl.
  - split_and!; [lia | by intros y ?%elem_of_nil | left].
  - destruct (IH (Z.min x z)) as (H1 & H2 & H3). split_and!.
    + lia.
    + intros y [->|Hy]%elem_of_cons; [lia | by apply H2].
    + apply elem_of_cons in H3 as [->|H3].
      * destruct (Z.min_spec x z) as [[_ ->]|[_ ->]]; [left | right; left].
      * right. by right.
Qed.

Lemma fold_left_max_ge (l : list Z) (x : Z) :
  x <= fold_left Z.max l x /\
  (forall y, y ∈ l -> y <= fold_left Z.max l x) /\
  fold_left Z.max l x ∈ x :: l.
Proof.
  revert x. induction l as [|z l IH]; intros x; simpl.
  - split_and!; [lia | by intros y ?%elem_of_nil | left].
  - destruct (IH (Z.max x z)) as (H1 & H2 & H3). split_and!.
    + lia.
    + intros y [->|Hy]%elem_of_cons; [lia | by apply H2].
    + apply elem_of_cons in H3 as [->|H3].
      * destruct (Z.max_spec x z) as [[_ ->]|[_ ->]]; [right; left | left].
      * right. by right.
Qed.

(** [bounding_range] answers only for two ranges or more, and then with the
    least start and the greatest end: its result starts no later and ends no
    earlier than any of the ranges, and its start and its end are the start
    of one of them and the end of one of them. *)
Theorem bounding_range_bounds (m : list (Z * Z)) (lo hi : Z)
    (Hrange : bounding_range m = Ok (lo, hi)) :
  (2 <= length m)%nat /\
  (forall r, r ∈ m -> lo <= r.1 /\ r.2 <= hi) /\
  (exists r, r ∈ m /\ r.1 = lo) /\
  (exists r, r ∈ m /\ r.2 = hi).
Proof.
  destruct m as [|p [|q rest]]; try discriminate.
  unfold bounding_range in Hrange. injection Hrange as <- <-.
  destruct (fold_left_min_le (map fst (q :: rest)) p.1) as (Hl1 & Hl2 & Hl3).
  destruct (fold_left_max_ge (map snd (q :: rest)) p.2) as (Hh1 & Hh2 & Hh3).
  split_and!.
  - simpl. lia.
  - intros r [->|Hr]%elem_of_cons; [done|]. split.
    + apply Hl2. by apply list_elem_of_fmap_2.
    + apply Hh2. by apply list_elem_of_fmap_2.
  - apply elem_of_cons in Hl3 as [Hl3|Hl3].
    + exists p. split; [left | done].
    + apply list_elem_of_fmap in Hl3 as (r & Hr & Hin). exists r. split; [by right | done].
  - apply elem_of_cons in Hh3 as [Hh3|Hh3].
    + exists p. split; [left | done].
    + apply list_elem_of_fmap in Hh3 as (r & Hr & Hin). exists r. split; [by right | done].
Qed.

Lemma bounding_range_bounds_witness :
  bounding_range [(5, 10); (8, 15); (2, 7)] = Ok (2, 15) /\
  forall r, r ∈ [(5, 10); (8, 15); (2, 7)] -> 2 <= r.1 /\ r.2 <= 15.
Proof.
  assert (H : bounding_range [(5, 10); (8, 15); (2, 7)] = Ok (2, 15)) by reflexivity.
  split; [exact H|].
  exact (proj1 (proj2 (bounding_range_bounds _ 2 15 H))).
Defined.


(** A connection that breaks in the middle of a discovery does not end
    [_cover]: when [get_snapshots] ends with [BadStatusLine], [_cover]
    returns normally, the connector is closed and connected again, and its
    cache and the record of its requests are those that the discovery
    left. *)
Theorem _cover_reconnects
    (w : world) (a b : Z) (c : SnapshotCollection) (ta tb : datetime)
    (Hrange : a < b)
    (Ha : normalize_time w (PInt a) false = Ok ta)
    (Hb : normalize_time w (PInt b) false = Ok tb)
    (Hbroken : ending (get_snapshots w (PDateTime ta) (Some (PDateTime tb))
                         (source c)) = Some BadStatusLine) :
  let r := get_snapshots w (PDateTime ta) (Some (PDateTime tb)) (source c) in
  (_cover w a b c).1 = None /\
  connection (source (_cover w a b c).2) = true /\
  missing_years (source (_cover w a b c).2) = missing_years (final r) /\
  missing_months (source (_cover w a b c).2) = missing_months (final r) /\
  missing_days (source (_cover w a b c).2) = missing_days (final r) /\
  existing_years (source (_cover w a b c).2) = existing_years (final r) /\
  existing_months (source (_cover w a b c).2) = existing_months (final r) /\
  existing_days (source (_cover w a b c).2) = existing_days (final r) /\
  sent (source (_cover w a b c).2) = sent (final r).
Proof.
  intros r. unfold _cover.
  rewrite (proj2 (Z.ltb_lt a b) Hrange), Ha, Hb. cbn [negb].
  rewrite Hbroken. fold r.
  unfold close. destruct (connection (final r)); simpl; done.
Qed.

Lemma _cover_reconnects_witness :
  ending (get_snapshots silent_world
            (PDateTime (at_time 1970 1 1 0 0 5 0))
            (Some (PDateTime (at_time 1970 1 1 0 0 10 0)))
            (source fixture_collection)) = Some BadStatusLine /\
  (_cover silent_world 5 10 fixture_collection).1 = None /\
  connection (source (_cover silent_world 5 10 fixture_collection).2) = true.
Proof.
  assert (Hrange : 5 < 10) by lia.
  assert (Ha : normalize_time silent_world (PInt 5) false
               = Ok (at_time 1970 1 1 0 0 5 0)) by reflexivity.
  assert (Hb : normalize_time silent_world (PInt 10) false
               = Ok (at_time 1970 1 1 0 0 10 0)) by reflexivity.
  assert (Hbroken : ending (get_snapshots silent_world
                              (PDateTime (at_time 1970 1 1 0 0 5 0))
                              (Some (PDateTime (at_time 1970 1 1 0 0 10 0)))
                              (source fixture_collection)) = Some BadStatusLine)
    by (vm_compute; reflexivity).
  pose proof (_cover_reconnects silent_world 5 10 fixture_collection _ _
                Hrange Ha Hb Hbroken) as (H1 & H2 & _).
  split_and!; [exact Hbroken | exact H1 | exact H2].
Defined.

(** The first request: with nothing covered yet, a round that is not ended
    by an exception records the request itself as the covered range, after
    one call of [get_snapshots] on it; a request whose end is not after its
    start is recorded as covered too, without any call.  A round that an
    exception ends leaves the covered range as it was, whether something was
    covered or not. *)
Theorem async_round_first_request
    (w : world) (c c' : SnapshotCollection) (a b : Z)
    (first : Z * Z) (others : list (Z * Z)) (e : option exn)
    (Hqueue : cover_reqs c = first :: others)
    (Hlast : List.last others first = (a, b))
    (Hround : async_round w c = Some (e, c')) :
  (covered_range c = None -> e = None ->
   covered_range c' = Some (a, b) /\
   discovered c' = discovered c ++ delta_call w a b) /\
  (covered_range c = None -> b <= a ->
   e = None /\ c' = mkcoll (source c) (sink c) (Some (a, b)) [] (discovered c)) /\
  (e <> None -> covered_range c' = covered_range c).
Proof.
  unfold async_round in Hround. rewrite Hqueue, Hlast in Hround. simpl in Hround.
  set (c0 := mkcoll (source c) (sink c) (covered_range c) [] (discovered c)) in *.
  split_and!.
  - intros Hnone ->. rewrite Hnone in Hround. simpl in Hround.
    pose proof (_cover_spec w a b c0) as H1.
    destruct (_cover w a b c0) as [e1 c1].
    destruct H1 as (_ & _ & calls & Hd & _ & Hall).
    destruct e1; [discriminate|]. injection Hround as <-. simpl.
    split; [done|]. by rewrite Hd, (Hall eq_refl).
  - intros Hnone Hle. rewrite Hnone in Hround. simpl in Hround.
    rewrite (_cover_empty w a b c0 Hle) in Hround.
    injection Hround as <- <-. subst c0. by rewrite Hnone.
  - intros He. destruct (covered_range c) as [[oldA oldB]|] eqn:Hc.
    + simpl in Hround.
      pose proof (_cover_spec w (Z.min oldA a) oldA c0) as H1.
      destruct (_cover w (Z.min oldA a) oldA c0) as [e1 c1].
      destruct H1 as (Hr1 & _).
      destruct e1; [injection Hround as <- <-; by rewrite Hr1|].
      pose proof (_cover_spec w oldB (Z.max oldB b) c1) as H2.
      destruct (_cover w oldB (Z.max oldB b) c1) as [e2 c2].
      destruct H2 as (Hr2 & _).
      destruct e2; injection Hround as <- <-; [|done].
      by rewrite Hr2, Hr1.
    + pose proof (_cover_spec w a b c0) as H1.
      destruct (_cover w a b c0) as [e1 c1].
      destruct H1 as (Hr1 & _).
      destruct e1; injection Hround as <- <-; [|done]. by rewrite Hr1.
Qed.

Lemma async_round_first_request_witness :
  let c := cover 20 10 fixture_collection in
  cover_reqs c = [(20, 10)] /\
  async_round empty_world c
  = Some (None, mkcoll (source c) (sink c) (Some (20, 10)) [] (discovered c)).
Proof.
  intros c.
  assert (Hqueue : cover_reqs c = (20, 10) :: []) by reflexivity.
  assert (Hround : async_round empty_world c
                   = Some (None, after_round empty_world c))
    by (vm_compute; reflexivity).
  split; [exact Hqueue|].
  destruct (proj1 (proj2 (async_round_first_request empty_world c _ 20 10 _ _ _
                            Hqueue eq_refl Hround)) eq_refl) as [_ Hc]; [lia|].
  rewrite Hround. by rewrite Hc.
Defined.

(** ** Probing, continued *)

Lemma probe_level_rel (w : world) (R : HTTPConnector -> HTTPConnector -> Prop)
    (known_missing known_existing : HTTPConnector -> bool)
    (level_url : HTTPConnector -> string)
    (add_existing add_missing rest : M unit) :
  (forall s, R s s) ->
  (forall s1 s2 s3, R s1 s2 -> R s2 s3 -> R s1 s3) ->
  (forall s u, R s (record_sent u s)) ->
  (forall s, R s (add_existing s).2) ->
  (forall s, R s (add_missing s).2) ->
  (forall s, R s (rest s).2) ->
  forall self,
    R self (probe_level w known_missing known_existing level_url
              add_existing add_missing rest self).2.
Proof.
  intros Hrefl Htrans Hsent Hex Hmi Hrest self. unfold probe_level.
  destruct (known_missing self); [apply Hrefl|].
  destruct (known_existing self); simpl; [apply Hrest|].
  unfold request. destruct (connection self); [|apply Hrefl].
  destruct (exchange w (sent self) (level_url self)) as [[status body]|?e]; simpl;
    [|apply Hsent].
  destruct (status =? 200).
  - pose proof (Hex (record_sent (level_url self) self)) as H1.
    destruct (add_existing (record_sent (level_url self) self)) as [[u|e] s2];
      simpl in *.
    + eapply Htrans; [apply Hsent|]. eapply Htrans; [exact H1 | apply Hrest].
    + eapply Htrans; [apply Hsent | exact H1].
  - eapply Htrans; [apply Hsent | apply Hmi].
Qed.

Lemma keeps_existing_refl (s : HTTPConnector) : keeps_existing s s.
Proof. split; reflexivity. Qed.

Lemma keeps_existing_trans (s1 s2 s3 : HTTPConnector) :
  keeps_existing s1 s2 -> keeps_existing s2 s3 -> keeps_existing s1 s3.
Proof. intros [] []. split; etrans; eassumption. Qed.

Lemma _probe_hour_keeps_existing (w : world) (h : datetime) (type : string)
    (self : HTTPConnector) :
  keeps_existing self (_probe_hour w h type self).2.
Proof.
  assert (Hsent : forall s u, keeps_existing s (record_sent u s))
    by (intros; split; reflexivity).
  unfold _probe_hour. simpl.
  apply probe_level_rel;
    [apply keeps_existing_refl | apply keeps_existing_trans | exact Hsent
    | intros s; split; simpl; set_solver
    | intros s; split; simpl; set_solver |].
  intros s1. apply probe_level_rel;
    [apply keeps_existing_refl | apply keeps_existing_trans | exact Hsent
    | intros s; split; simpl; set_solver
    | intros s; split; simpl; set_solver |].
  intros s2. apply probe_level_rel;
    [apply keeps_existing_refl | apply keeps_existing_trans | exact Hsent
    | intros s; split; simpl; set_solver
    | intros s; split; simpl; set_solver |].
  intros s3. apply keeps_existing_refl.
Qed.

Lemma probe_level_settled (w : world) {K : Type} `{Countable K} (k : K)
    (Mset Eset : HTTPConnector -> gset K)
    (level_url : HTTPConnector -> string)
    (add_existing add_missing rest : M unit) :
  (forall s s', add_existing s = (Ok tt, s') -> k ∈ Eset s') ->
  (forall s s', add_missing s = (Ok tt, s') -> k ∈ Mset s') ->
  (forall s s', rest s = (Ok tt, s') ->
                rest s' = (Ok tt, s') /\ (k ∈ Eset s -> k ∈ Eset s')) ->
  forall s s1,
    probe_level w (fun s => bool_decide (k ∈ Mset s))
      (fun s => bool_decide (k ∈ Eset s)) level_url
      add_existing add_missing rest s = (Ok tt, s1) ->
    probe_level w (fun s => bool_decide (k ∈ Mset s))
      (fun s => bool_decide (k ∈ Eset s)) level_url
      add_existing add_missing rest s1 = (Ok tt, s1).
Proof.
  intros Hae Ham Hrest s s1.
  assert (Hquiet : forall t, k ∈ Mset t \/ (k ∈ Eset t /\ rest t = (Ok tt, t)) ->
            probe_level w (fun s => bool_decide (k ∈ Mset s))
              (fun s => bool_decide (k ∈ Eset s)) level_url
              add_existing add_missing rest t = (Ok tt, t)).
  { intros t Ht. unfold probe_level.
    destruct (bool_decide_reflect (k ∈ Mset t)) as [|Hm]; [done|].
    destruct Ht as [|[He Hr]]; [done|].
    by rewrite (bool_decide_eq_true_2 _ He). }
  unfold probe_level at 1.
  destruct (bool_decide_reflect (k ∈ Mset s)) as [Hm|Hm].
  { intros [= <-]. apply Hquiet. by left. }
  destruct (bool_decide_reflect (k ∈ Eset s)) as [He|He]; simpl.
  { intros Hr. destruct (Hrest _ _ Hr) as [Hq Hk]. apply Hquiet. right. auto. }
  destruct (request w (level_url s) false s) as [[[status body]|e] s'];
    [|discriminate].
  destruct (status =? 200).
  - destruct (add_existing s') as [[[]|e] s2] eqn:Hadd; [|discriminate].
    intros Hr. destruct (Hrest _ _ Hr) as [Hq Hk].
    apply Hquiet. right. split; [|done]. apply Hk. by eapply Hae.
  - intros Hadd. apply Hquiet. left. by eapply Ham.
Qed.

(** Probing an hour a second time costs nothing: after a probe that came to
    its end, the same probe on the connector it left sends no request and
    changes nothing; every level it would look at is recorded. *)
Theorem _probe_hour_settled
    (w : world) (h : datetime) (type : string) (self self1 : HTTPConnector)
    (Hprobe : _probe_hour w h type self = (Ok tt, self1)) :
  _probe_hour w h type self1 = (Ok tt, self1).
Proof.
  revert self self1 Hprobe. unfold _probe_hour. simpl. unfold date_of.
  apply probe_level_settled.
  - intros s s' [= <-]. simpl. set_solver.
  - intros s s' [= <-]. simpl. set_solver.
  - intros s s' Hr. split.
    + revert s s' Hr. apply probe_level_settled.
      * intros s s' [= <-]. simpl. set_solver.
      * intros s s' [= <-]. simpl. set_solver.
      * intros s s' Hr. split.
        -- revert s s' Hr. apply probe_level_settled.
           ++ intros s s' [= <-]. simpl. set_solver.
           ++ intros s s' [= <-]. simpl. set_solver.
           ++ intros s s' [= <-]. done.
        -- intros Hk.
           match type of Hr with ?p s = _ =>
             assert (Hkeep : keeps_existing s (p s).2) end.
           { apply probe_level_rel;
               [apply keeps_existing_refl | apply keeps_existing_trans
               | intros; split; reflexivity
               | intros t; split; simpl; set_solver
               | intros t; split; simpl; set_solver
               | intros t; apply keeps_existing_refl]. }
           rewrite Hr in Hkeep. by apply (keeps_existing_months _ _ Hkeep).
    + intros Hk.
      match type of Hr with ?p s = _ =>
        assert (Hkeep : keeps_existing s (p s).2) end.
      { apply probe_level_rel;
          [apply keeps_existing_refl | apply keeps_existing_trans
          | intros; split; reflexivity
          | intros t; split; simpl; set_solver
          | intros t; split; simpl; set_solver |].
        intros t. apply probe_level_rel;
          [apply keeps_existing_refl | apply keeps_existing_trans
          | intros; split; reflexivity
          | intros t'; split; simpl; set_solver
          | intros t'; split; simpl; set_solver
          | intros t'; apply keeps_existing_refl]. }
      rewrite Hr in Hkeep. by apply (keeps_existing_years _ _ Hkeep).
Qed.

Lemma _probe_hour_settled_witness :
  let h := at_time 2015 1 5 3 0 0 0 in
  let self1 := (_probe_hour fixture_world h "snapshots" fixture_connector).2 in
  _probe_hour fixture_world h "snapshots" fixture_connector = (Ok tt, self1) /\
  length (sent self1) = 3%nat /\
  _probe_hour fixture_world h "snapshots" self1 = (Ok tt, self1).
Proof.
  intros h self1.
  assert (Hprobe : _probe_hour fixture_world h "snapshots" fixture_connector
                   = (Ok tt, self1)) by (vm_compute; reflexivity).
  split_and!; [exact Hprobe | vm_compute; reflexivity |].
  exact (_probe_hour_settled fixture_world h "snapshots" fixture_connector self1
           Hprobe).
Defined.

Lemma probe_level_sent (w : world) (base : string)
    (known_missing known_existing : HTTPConnector -> bool)
    (level_url : HTTPConnector -> string) (u : string) (below : list string)
    (add_existing add_missing rest : M unit) :
  (forall s, base_url s = base -> level_url s = u) ->
  (forall s, sent (add_existing s).2 = sent s /\
             base_url (add_existing s).2 = base_url s) ->
  (forall s, sent (add_missing s).2 = sent s) ->
  (forall s, base_url s = base ->
             exists l, sent (rest s).2 = sent s ++ l /\ l `sublist_of` below) ->
  forall self, base_url self = base ->
    exists l,
      sent (probe_level w known_missing known_existing level_url
              add_existing add_missing rest self).2 = sent self ++ l /\
      l `sublist_of` u :: below.
Proof.
  intros Hurl Hae Ham Hrest self Hbase. unfold probe_level.
  assert (Hnone : exists l, sent self = sent self ++ l /\ l `sublist_of` u :: below).
  { exists []. rewrite app_nil_r. split; [done | apply sublist_nil_l]. }
  assert (Hone : exists l, sent self ++ [u] = sent self ++ l /\
                           l `sublist_of` u :: below).
  { exists [u]. split; [done|]. apply sublist_skip, sublist_nil_l. }
  destruct (known_missing self); [exact Hnone|].
  destruct (known_existing self); simpl.
  { destruct (Hrest self Hbase) as (l & Hl & Hsub).
    exists l. split; [done | by apply sublist_cons]. }
  unfold request. destruct (connection self); [|exact Hnone].
  rewrite (Hurl self Hbase).
  destruct (exchange w (sent self) u) as [[status body]|?e]; simpl; [|exact Hone].
  destruct (status =? 200).
  - destruct (Hae (record_sent u self)) as [Hs Hb].
    destruct (add_existing (record_sent u self)) as [[?|?] s2]; simpl in *.
    + destruct (Hrest s2) as (l & Hl & Hsub); [by rewrite Hb|].
      exists (u :: l). rewrite Hl, Hs, <- app_assoc. split; [done|].
      by apply sublist_skip.
    + by rewrite Hs.
  - by rewrite Ham.
Qed.

(** A probe sends at most three requests, and only on the directories of the
    year, the month and the day of the hour, in this order, coarsest first;
    the URLs are those of the kind ["snapshots"] whatever kind is probed. *)
Theorem _probe_hour_requests
    (w : world) (h : datetime) (type : string) (self : HTTPConnector) :
  exists l,
    sent (_probe_hour w h type self).2 = sent self ++ l /\
    l `sublist_of` [_get_year_url (year (ddate h)) "snapshots" self;
                    _get_month_url (ddate h) "snapshots" self;
                    _get_day_url (ddate h) "snapshots" self].
Proof.
  assert (Hadd : forall (f : M unit),
             (forall s, sent (f s).2 = sent s /\ base_url (f s).2 = base_url s) ->
             forall s, sent (f s).2 = sent s).
  { intros f Hf s. apply Hf. }
  unfold _probe_hour. simpl.
  apply (probe_level_sent w (base_url self)); try done.
  - intros s Hb. unfold _get_year_url. by rewrite Hb.
  - intros s1 Hb1.
    apply (probe_level_sent w (base_url self)); try done.
    + intros s Hb. unfold _get_month_url, _get_year_url. by rewrite Hb.
    + intros s2 Hb2.
      apply (probe_level_sent w (base_url self)); try done.
      * intros s Hb. unfold _get_day_url, _get_month_url, _get_year_url.
        by rewrite Hb.
      * intros s3 Hb3. exists []. rewrite app_nil_r.
        split; [done | apply sublist_nil_l].
Qed.

Lemma probe_level_raises_connection (w : world) (conn : bool) (P : exn -> Prop)
    (known_missing known_existing : HTTPConnector -> bool)
    (level_url : HTTPConnector -> string)
    (add_existing add_missing rest : M unit) :
  (conn = false -> P AttributeError) ->
  (conn = true -> forall e, connection_exn e -> P e) ->
  (forall s, connection (add_existing s).2 = connection s) ->
  (forall s e, (add_existing s).1 = Raise e -> P e) ->
  (forall s e, (add_missing s).1 = Raise e -> P e) ->
  (forall s e, connection s = conn -> (rest s).1 = Raise e -> P e) ->
  forall self e, connection self = conn ->
    (probe_level w known_missing known_existing level_url
       add_existing add_missing rest self).1 = Raise e -> P e.
Proof.
  intros Hattr Hbad Hconn Hae Ham Hrest self e Hc. unfold probe_level.
  destruct (known_missing self); [discriminate|].
  destruct (known_existing self); simpl; [by apply Hrest|].
  unfold request. rewrite Hc. destruct conn.
  - destruct (exchange w (sent self) (level_url self)) as [[status body]|e0]
      eqn:Hex; simpl.
    + destruct (status =? 200); [|apply Ham].
      pose proof (Hconn (record_sent (level_url self) self)) as Hk.
      pose proof (Hae (record_sent (level_url self) self)) as Hr.
      destruct (add_existing (record_sent (level_url self) self)) as [[?|e'] s2];
        simpl in *.
      * apply Hrest. by rewrite Hk.
      * intros [= <-]. by apply Hr.
    + intros [= <-]. apply Hbad; [done | eapply exchange_Raise, Hex].
  - simpl. intros [= <-]. by apply Hattr.
Qed.



(** ** Invariants of the cache *)

Lemma probe_level_guarded (w : world) (I J Q : HTTPConnector -> Prop)
    (known_missing known_existing : HTTPConnector -> bool)
    (level_url : HTTPConnector -> string)
    (add_existing add_missing rest : M unit) :
  (forall s, I s -> Q s) ->
  (forall s u, I s -> I (record_sent u s)) ->
  (forall s u, known_missing (record_sent u s) = known_missing s /\
               known_existing (record_sent u s) = known_existing s) ->
  (forall s, I s -> known_missing s = false -> known_existing s = true -> J s) ->
  (forall s, I s -> known_missing s = false -> known_existing s = false ->
             match add_existing s with
             | (Ok _, s') => J s'
             | (Raise _, s') => Q s'
             end) ->
  (forall s, I s -> known_missing s = false -> known_existing s = false ->
             Q (add_missing s).2) ->
  (forall s, J s -> Q (rest s).2) ->
  forall self, I self ->
    Q (probe_level w known_missing known_existing level_url
         add_existing add_missing rest self).2.
Proof.
  intros HIQ Hsent Hk Hke Hae Ham Hrest self HI. unfold probe_level.
  destruct (known_missing self) eqn:Hm; [by apply HIQ|].
  destruct (known_existing self) eqn:He; simpl; [by apply Hrest, Hke|].
  unfold request. destruct (connection self); [|by apply HIQ].
  destruct (Hk self (level_url self)) as [Hm' He'].
  rewrite <- Hm' in Hm. rewrite <- He' in He.
  specialize (Hsent self (level_url self) HI).
  destruct (exchange w (sent self) (level_url self)) as [[status body]|?e]; simpl;
    [|by apply HIQ].
  destruct (status =? 200); [|by apply Ham].
  specialize (Hae _ Hsent Hm He).
  destruct (add_existing (record_sent (level_url self) self)) as [[?|?] s2];
    simpl; [by apply Hrest | exact Hae].
Qed.

Lemma _probe_hour_exclusive_cache (w : world) (h : datetime) (type : string)
    (self : HTTPConnector) :
  exclusive_cache self -> exclusive_cache (_probe_hour w h type self).2.
Proof.
  unfold _probe_hour. simpl. unfold date_of.
  apply (probe_level_guarded w exclusive_cache exclusive_cache exclusive_cache);
    try done.
  - intros s (Hy & Hm & Hd) Hk%bool_decide_eq_false_1 _. simpl.
    split_and!; simpl; set_solver.
  - intros s (Hy & Hm & Hd) _ Hk%bool_decide_eq_false_1.
    split_and!; simpl; set_solver.
  - intros s1.
    apply (probe_level_guarded w exclusive_cache exclusive_cache exclusive_cache);
      try done.
    + intros s (Hy & Hm & Hd) Hk%bool_decide_eq_false_1 _. simpl.
      split_and!; simpl; set_solver.
    + intros s (Hy & Hm & Hd) _ Hk%bool_decide_eq_false_1.
      split_and!; simpl; set_solver.
    + intros s2.
      apply (probe_level_guarded w exclusive_cache exclusive_cache exclusive_cache);
        try done.
      * intros s (Hy & Hm & Hd) Hk%bool_decide_eq_false_1 _. simpl.
        split_and!; simpl; set_solver.
      * intros s (Hy & Hm & Hd) _ Hk%bool_decide_eq_false_1.
        split_and!; simpl; set_solver.
Qed.

(** What a probe keeps, [get_snapshots] keeps: the cache is touched by its
    probes alone. *)
Lemma get_snapshots_invariant (w : world) (Inv : HTTPConnector -> Prop) :
  (forall s u, Inv s -> Inv (record_sent u s)) ->
  (forall s h, Inv s -> Inv (_probe_hour w h "snapshots" s).2) ->
  forall from_date to_date self,
    Inv self -> Inv (final (get_snapshots w from_date to_date self)).
Proof.
  intros Hsent Hprobe.
  assert (Hhour : forall h s, Inv s ->
            Inv (final (_get_snapshots_in_hour w (PDateTime h) s))).
  { intros h s Hs. unfold _get_snapshots_in_hour. simpl.
    destruct (_is_day_missing w (PDateTime h) "snapshots" s) as [[|]|e];
      try exact Hs.
    assert (Hdir : Inv (final (_get_directory w (hour_listing_url h s)
                     SNAPSHOT_RE 1 (ByMatch snapshot_of_match) s))).
    { rewrite _get_directory_run. unfold request.
      destruct (connection s); [|exact Hs].
      destruct (exchange w (sent s) (hour_listing_url h s)) as [[st body]|?e];
        [|by apply Hsent].
      destruct (true && negb (st =? 200)); by apply Hsent. }
    destruct (ending _) as [[]|]; simpl; try exact Hdir.
    pose proof (Hprobe _ h Hdir) as Hp.
    by destruct (_probe_hour w h "snapshots" _) as [[?|?] ?]. }
  assert (Hfor : forall hours stop s, Inv s -> Inv (final (for_hours w hours stop s))).
  { intros hours stop. induction hours as [|h rest IH]; intros s Hs; simpl;
      [exact Hs|].
    pose proof (Hhour h s Hs) as Hh.
    destruct (ending (_get_snapshots_in_hour w (PDateTime h) s)) as [[]|];
      simpl; try exact Hh; by apply IH. }
  intros from_date to_date self Hs. unfold get_snapshots.
  destruct (normalize_time w from_date false) as [a|e]; [|exact Hs].
  destruct (normalize_time w (default_to w to_date) false) as [b|e]; [|exact Hs].
  destruct (dt_ge a b); [exact Hs|].
  destruct (_iter_hours w (PDateTime a) (PDateTime b)) as [hours stop].
  by apply Hfor.
Qed.

(** Probing never records a year, a month or a day both missing and
    existing: the two records of each level are disjoint in a new connector,
    and [_probe_hour] and [get_snapshots] keep them so. *)
Theorem probing_keeps_cache_exclusive
    (w : world) (self : HTTPConnector) (Hexclusive : exclusive_cache self) :
  (forall base station, exclusive_cache (connect (__init__ base station))) /\
  (forall h type, exclusive_cache (_probe_hour w h type self).2) /\
  (forall from_date to_date,
      exclusive_cache (final (get_snapshots w from_date to_date self))).
Proof.
  split_and!.
  - intros base station. split_and!; simpl; set_solver.
  - intros h type. by apply _probe_hour_exclusive_cache.
  - intros from_date to_date.
    apply (get_snapshots_invariant w exclusive_cache); try done.
    intros s h. apply _probe_hour_exclusive_cache.
Qed.

Lemma probing_keeps_cache_exclusive_witness :
  exclusive_cache fixture_connector /\
  exclusive_cache
    (final (get_snapshots fixture_world
              (PDateTime (at_time 2015 1 4 0 0 0 0))
              (Some (PDateTime (at_time 2015 1 6 0 0 0 0)))
              fixture_connector)).
Proof.
  assert (H : exclusive_cache fixture_connector)
    by (split_and!; simpl; set_solver).
  split; [exact H|].
  exact (proj2 (proj2 (probing_keeps_cache_exclusive fixture_world _ H)) _ _).
Defined.

(** ** The hours of a range, continued *)

Lemma dt_compare_eq (a b : datetime) : dt_compare a b = Eq -> a = b.
Proof.
  destruct a as [[ya ma da] ha mia sa ua], b as [[yb mb db] hb mib sb ub].
  unfold dt_compare, datetime_fields, date_fields. simpl.
  repeat match goal with
         | |- context [?x ?= ?y] => destruct (Z.compare_spec x y)
         end; try discriminate.
  intros _. congruence.
Qed.

Lemma dt_le_cases (a b : datetime) :
  dt_le a b = true -> a = b \/ dt_lt a b = true.
Proof.
  unfold dt_le, dt_lt. destruct (dt_compare a b) eqn:Hc; try discriminate.
  - left. by apply dt_compare_eq.
  - by right.
Qed.

Lemma dt_lt_irrefl_le (a b : datetime) :
  dt_lt a b = true -> dt_le b a = false.
Proof. apply dt_lt_not_ge. Qed.

Lemma hour_floor_mono (a b : datetime) :
  dt_lt a b = true -> dt_le (hour_floor a) (hour_floor b) = true.
Proof.
  destruct a as [[ya ma da] ha mia sa ua], b as [[yb mb db] hb mib sb ub].
  unfold hour_floor. intros Hlt. compare_fields.
Qed.

Ltac compare_aligned :=
  unfold dt_le, dt_lt, dt_ge, dt_gt, dt_compare, datetime_fields, date_fields in *;
  cbn [lex_compare app ddate year month day hour minute second microsecond] in *;
  repeat match goal with
         | |- context [?x ?= ?y] => destruct (Z.compare_spec x y)
         | H : context [?x ?= ?y] |- _ => destruct (Z.compare_spec x y)
         end;
  try congruence; try lia; try (subst; lia).

Lemma add_hour_within (t to_time : datetime) :
  valid_datetime t = true -> valid_datetime to_time = true ->
  minute t = 0 -> second t = 0 -> microsecond t = 0 ->
  minute to_time = 0 -> second to_time = 0 -> microsecond to_time = 0 ->
  dt_lt t to_time = true ->
  exists next, add_hour t = Ok next /\ dt_le next to_time = true /\
               minute next = 0 /\ second next = 0 /\ microsecond next = 0.
Proof.
  rewrite !valid_datetime_bounds.
  destruct t as [[y m d] h mi s us], to_time as [[y' m' d'] h' mi' s' us'].
  cbn [ddate year month day hour minute second microsecond].
  intros Hv Hv' -> -> -> -> -> -> Hlt.
  pose proof (days_in_month_bounds y m).
  pose proof (days_in_month_bounds y' m').
  unfold add_hour, next_day.
  cbn [ddate year month day hour minute second microsecond].
  destruct (Z.ltb_spec h 23).
  { eexists. split; [reflexivity|]. split; [|done]. compare_aligned. }
  destruct (Z.ltb_spec d (days_in_month y m));
    cbn [ddate year month day hour minute second microsecond].
  { destruct (Z.leb_spec y MAXYEAR); [|unfold MAXYEAR in *; lia].
    eexists. split; [reflexivity|]. split; [|done]. compare_aligned. }
  destruct (Z.ltb_spec m 12);
    cbn [ddate year month day hour minute second microsecond].
  { destruct (Z.leb_spec y MAXYEAR); [|unfold MAXYEAR in *; lia].
    eexists. split; [reflexivity|]. split; [|done]. compare_aligned. }
  assert (y < y') by compare_aligned.
  destruct (Z.leb_spec (y + 1) MAXYEAR); [|unfold MAXYEAR in *; lia].
  eexists. split; [reflexivity|]. split; [|done]. compare_aligned.
Qed.

Lemma _iter_hours_loop_reaches (budget : nat) (current to_time : datetime) :
  valid_datetime current = true -> valid_datetime to_time = true ->
  minute current = 0 -> second current = 0 -> microsecond current = 0 ->
  minute to_time = 0 -> second to_time = 0 -> microsecond to_time = 0 ->
  dt_le current to_time = true ->
  (Z.to_nat (grid to_time - grid current + 1) <= budget)%nat ->
  head (_iter_hours_loop budget current to_time).1 = Some current /\
  last (_iter_hours_loop budget current to_time).1 = Some to_time.
Proof.
  revert current. induction budget as [|budget IH];
    intros current Hc Ht Hmi Hs Hus Hmi' Hs' Hus' Hle Hb.
  { pose proof (dt_le_grid _ _ Hc Ht Hle). lia. }
  simpl. rewrite Hle.
  destruct (dt_le_cases _ _ Hle) as [->|Hlt].
  - destruct (add_hour to_time) as [next|e] eqn:Hnext; [|done].
    pose proof (dt_lt_not_ge _ _ (add_hour_later _ _ Hnext)) as Hgt.
    unfold dt_ge in Hgt.
    destruct budget; simpl; rewrite Hgt; done.
  - destruct (add_hour_within current to_time Hc Ht Hmi Hs Hus Hmi' Hs' Hus' Hlt)
      as (next & Hnext & Hle' & Hmi2 & Hs2 & Hus2).
    rewrite Hnext.
    pose proof (add_hour_grid _ _ Hc Hnext).
    destruct (IH next (add_hour_valid _ _ Hc Hnext) Ht Hmi2 Hs2 Hus2
                Hmi' Hs' Hus' Hle') as [Hhead Hlast]; [lia|].
    destruct (_iter_hours_loop budget next to_time) as [more e]. simpl in *.
    split; [done|]. destruct more; [discriminate|]. exact Hlast.
Qed.

Lemma _iter_hours_loop_chain (budget : nat) (current to_time : datetime) :
  forall (i : nat) (h h' : datetime),
    (_iter_hours_loop budget current to_time).1 !! i = Some h ->
    (_iter_hours_loop budget current to_time).1 !! S i = Some h' ->
    add_hour h = Ok h'.
Proof.
  revert current. induction budget as [|budget IH]; intros current i h h'; simpl.
  { destruct (dt_le current to_time); discriminate. }
  destruct (dt_le current to_time); [|discriminate].
  destruct (add_hour current) as [next|e] eqn:Hnext.
  - specialize (IH next).
    assert (Hhd : forall x, (_iter_hours_loop budget next to_time).1 !! 0%nat = Some x ->
                            x = next).
    { intros x. destruct budget; simpl.
      - destruct (dt_le next to_time); discriminate.
      - destruct (dt_le next to_time); [|discriminate].
        destruct (add_hour next) as [n2|?].
        + destruct (_iter_hours_loop budget n2 to_time). simpl. congruence.
        + simpl. congruence. }
    destruct (_iter_hours_loop budget next to_time) as [more e]. simpl in *.
    destruct i as [|i]; simpl.
    + intros [= <-] Hx. by rewrite (Hhd _ Hx).
    + apply IH.
  - simpl. destruct i; simpl; discriminate.
Qed.

(** The hours that [get_snapshots] walks: on valid datetimes whose hours are
    in order, [_iter_hours] gives the hour of the start first and the hour of
    the end last, each hour being the hour after the one before it, and ends
    normally, or by the overflow after the last hour of the year 9999. *)
Theorem _iter_hours_covers_range
    (w : world) (a b : datetime) (hours : list datetime) (stop : option exn)
    (Ha : valid_datetime a = true) (Hb : valid_datetime b = true)
    (Horder : dt_le (hour_floor a) (hour_floor b) = true)
    (Hiter : _iter_hours w (PDateTime a) (PDateTime b) = (hours, stop)) :
  head hours = Some (hour_floor a) /\
  last hours = Some (hour_floor b) /\
  (forall i h h', hours !! i = Some h -> hours !! S i = Some h' ->
                  add_hour h = Ok h') /\
  (stop = None \/ stop = Some OverflowError).
Proof.
  rewrite _iter_hours_datetimes in Hiter.
  pose proof (_iter_hours_loop_reaches
                (hours_budget (hour_floor a) (hour_floor b))
                (hour_floor a) (hour_floor b)
                (hour_floor_valid a Ha) (hour_floor_valid b Hb)
                eq_refl eq_refl eq_refl eq_refl eq_refl eq_refl Horder
                (Nat.le_refl _)) as [Hhead Hlast].
  pose proof (_iter_hours_loop_chain
                (hours_budget (hour_floor a) (hour_floor b))
                (hour_floor a) (hour_floor b)) as Hchain.
  pose proof (_iter_hours_loop_stop
                (hours_budget (hour_floor a) (hour_floor b))
                (hour_floor a) (hour_floor b)) as Hstop.
  pose proof (_iter_hours_loop_budget
                (hours_budget (hour_floor a) (hour_floor b))
                (hour_floor a) (hour_floor b)
                (hour_floor_valid a Ha) (hour_floor_valid b Hb)
                (Nat.le_refl _)) as Hbudget.
  rewrite Hiter in *. simpl in *.
  split_and!; try done.
  destruct Hstop as [?|[?|?]]; auto. contradiction.
Qed.

Lemma _iter_hours_covers_range_witness :
  let a := at_time 2015 12 31 22 30 0 0 in
  let b := at_time 2016 1 1 1 15 0 0 in
  _iter_hours fixture_world (PDateTime a) (PDateTime b)
  = ([at_time 2015 12 31 22 0 0 0; at_time 2015 12 31 23 0 0 0;
      at_time 2016 1 1 0 0 0 0; at_time 2016 1 1 1 0 0 0], None) /\
  last [at_time 2015 12 31 22 0 0 0; at_time 2015 12 31 23 0 0 0;
        at_time 2016 1 1 0 0 0 0; at_time 2016 1 1 1 0 0 0]
  = Some (hour_floor b).
Proof.
  intros a b.
  assert (Hiter : _iter_hours fixture_world (PDateTime a) (PDateTime b)
                  = ([at_time 2015 12 31 22 0 0 0; at_time 2015 12 31 23 0 0 0;
                      at_time 2016 1 1 0 0 0 0; at_time 2016 1 1 1 0 0 0], None))
    by (vm_compute; reflexivity).
  split; [exact Hiter|].
  exact (proj1 (proj2 (_iter_hours_covers_range fixture_world a b _ _
                         eq_refl eq_refl eq_refl Hiter))).
Defined.

(** ** Years and months recorded missing *)

Lemma dt_between_year (lo h hi : datetime) :
  dt_le lo h = true -> dt_le h hi = true ->
  year (ddate lo) = year (ddate hi) ->
  year (ddate h) = year (ddate lo).
Proof. intros H1 H2 Hy. compare_aligned. Qed.

Lemma dt_between_month (lo h hi : datetime) :
  dt_le lo h = true -> dt_le h hi = true ->
  year (ddate lo) = year (ddate hi) ->
  month (ddate lo) = month (ddate hi) ->
  year (ddate h) = year (ddate lo) /\ month (ddate h) = month (ddate lo).
Proof. intros H1 H2 Hy Hm. compare_aligned. Qed.

Lemma for_hours_all_missing (w : world) (hours : list datetime)
    (stop : option exn) (self : HTTPConnector) :
  Forall (fun h => _is_day_missing w (PDateTime h) "snapshots" self = Ok true)
         hours ->
  for_hours w hours stop self = mkrun [] stop self.
Proof.
  intros Hall. induction Hall as [|h rest Hh _ IH]; simpl; [reflexivity|].
  unfold _get_snapshots_in_hour. simpl. rewrite Hh. simpl. by rewrite IH.
Qed.

(** A year or a month recorded missing is not asked for again: a
    [get_snapshots] call whose start and end lie in a year (or a month of the
    same year) that is recorded missing for ["snapshots"] yields nothing and
    sends no request, the connector being left as it was. *)
Theorem get_snapshots_skips_missing_year_or_month
    (w : world) (a b : datetime) (self : HTTPConnector)
    (Hyear : year (ddate b) = year (ddate a))
    (Hmissing :
       (year (ddate a), "snapshots") ∈ missing_years self \/
       (month (ddate b) = month (ddate a) /\
        (mkdate (year (ddate a)) (month (ddate a)) 1, "snapshots")
          ∈ missing_months self)) :
  exists stop,
    get_snapshots w (PDateTime a) (Some (PDateTime b)) self = mkrun [] stop self.
Proof.
  unfold get_snapshots. simpl.
  destruct (dt_ge a b); [by eexists|].
  rewrite _iter_hours_datetimes.
  pose proof (_iter_hours_loop_bounds
                (hours_budget (hour_floor a) (hour_floor b))
                (hour_floor a) (hour_floor b)) as Hb.
  destruct (_iter_hours_loop _ (hour_floor a) (hour_floor b)) as [hours stop].
  exists stop. apply for_hours_all_missing. simpl in Hb.
  eapply Forall_impl; [exact Hb|]. intros h [H1 H2]. simpl in *.
  unfold _is_day_missing. simpl. unfold date_of.
  destruct Hmissing as [Hy|[Hmo Hm]].
  - pose proof (dt_between_year _ _ _ H1 H2 (eq_sym Hyear)) as Hyh. simpl in Hyh.
    rewrite Hyh. by rewrite (bool_decide_eq_true_2 _ Hy).
  - destruct (dt_between_month _ _ _ H1 H2 (eq_sym Hyear) (eq_sym Hmo))
      as [Hyh Hmh]. simpl in Hyh, Hmh. rewrite Hyh, Hmh.
    destruct (bool_decide _); [done|].
    by rewrite (bool_decide_eq_true_2 _ Hm).
Qed.

Lemma get_snapshots_skips_missing_year_or_month_witness :
  let self := (_probe_hour empty_world (at_time 2015 1 4 0 0 0 0) "snapshots"
                 fixture_connector).2 in
  (2015, "snapshots") ∈ missing_years self /\
  exists stop,
    get_snapshots empty_world
      (PDateTime (at_time 2015 3 1 0 0 0 0))
      (Some (PDateTime (at_time 2015 11 30 12 0 0 0))) self
    = mkrun [] stop self.
Proof.
  intros self.
  assert (Hy : (2015, "snapshots") ∈ missing_years self)
    by (apply (bool_decide_unpack _); vm_compute; exact I).
  split; [exact Hy|].
  exact (get_snapshots_skips_missing_year_or_month empty_world
           (at_time 2015 3 1 0 0 0 0) (at_time 2015 11 30 12 0 0 0) self
           eq_refl (or_introl Hy)).
Defined.

(** ** The exceptions of a discovery *)



(** ** A listing that is answered *)

(** No discovery yields an entry, and the first listing that the server
    answers ends it: when [get_snapshots(a, b)], on valid datetimes with
    [a < b], is called on a connected connector whose cache does not record
    the day of [a] missing, and the listing of the hour of [a] is answered
    with the status 200, the call ends with [TypeError] after this one
    request, whatever the body holds. *)
Theorem get_snapshots_ends_at_answered_listing
    (w : world) (a b : datetime) (self : HTTPConnector) (body : string)
    (Ha : valid_datetime a = true) (Hb : valid_datetime b = true)
    (Hrange : dt_lt a b = true)
    (Hconnected : connection self = true)
    (Hday : _is_day_missing w (PDateTime a) "snapshots" self = Ok false)
    (Hurl : accepted_url (hour_listing_url (hour_floor a) self))
    (Hanswer : server w (sent self) (hour_listing_url (hour_floor a) self)
               = Response 200 body) :
  (forall from_date to_date s, yielded (get_snapshots w from_date to_date s) = []) /\
  get_snapshots w (PDateTime a) (Some (PDateTime b)) self
  = mkrun [] (Some TypeError)
          (record_sent (hour_listing_url (hour_floor a) self) self).
Proof.
  split; [intros; apply get_snapshots_yields|].
  unfold get_snapshots. cbn [default_to normalize_time].
  rewrite (dt_lt_not_ge a b Hrange), _iter_hours_datetimes.
  pose proof (_iter_hours_loop_reaches
                (hours_budget (hour_floor a) (hour_floor b))
                (hour_floor a) (hour_floor b)
                (hour_floor_valid a Ha) (hour_floor_valid b Hb)
                eq_refl eq_refl eq_refl eq_refl eq_refl eq_refl
                (hour_floor_mono a b Hrange) (Nat.le_refl _)) as [Hhead _].
  destruct (_iter_hours_loop _ (hour_floor a) (hour_floor b))
    as [[|h rest] stop]; [discriminate|].
  injection Hhead as ->. cbn [for_hours].
  rewrite (_get_snapshots_in_hour_answered w (hour_floor a) self body);
    [reflexivity | exact Hconnected | exact Hday |].
  by apply exchange_Ok.
Qed.

Lemma get_snapshots_ends_at_answered_listing_witness :
  let self := final (get_snapshots fixture_world
                       (PDateTime (at_time 2015 1 4 2 0 0 0))
                       (Some (PDateTime (at_time 2015 1 4 2 30 0 0)))
                       fixture_connector) in
  get_snapshots fixture_world (PDateTime (at_time 2015 1 4 3 30 0 0))
    (Some (PDateTime (at_time 2015 1 4 3 45 0 0))) self
  = mkrun [] (Some TypeError) (record_sent fixture_hour_dir self).
Proof.
  intros self.
  assert (Hday : _is_day_missing fixture_world
                   (PDateTime (at_time 2015 1 4 3 30 0 0)) "snapshots" self
                 = Ok false) by (vm_compute; reflexivity).
  assert (Hurl : accepted_url
                   (hour_listing_url (hour_floor (at_time 2015 1 4 3 30 0 0)) self))
    by (split; vm_compute; reflexivity).
  exact (proj2 (get_snapshots_ends_at_answered_listing fixture_world
                  (at_time 2015 1 4 3 30 0 0) (at_time 2015 1 4 3 45 0 0)
                  self fixture_listing eq_refl eq_refl eq_refl eq_refl
                  Hday Hurl eq_refl)).
Defined.

(** ** The listings of years, months, days and hours *)

Lemma _get_directory_fails {A : Type} (w : world) (u : string) (pattern : regex)
    (url_group : nat) (spec : value_spec A) (self : HTTPConnector) :
  listing_fails self (_get_directory w u pattern url_group spec self).
Proof.
  unfold listing_fails. rewrite _get_directory_run. unfold request.
  destruct (connection self); [|split_and!; eauto 6].
  destruct (exchange w (sent self) u) as [[status body]|e] eqn:Hex.
  - cbn [andb]. destruct (Z.eqb_spec status 200) as [->|Hst]; cbn [negb];
      split_and!; eauto 10.
  - split_and!; eauto. exists e. split; [done|].
    right. right. left. eapply exchange_Raise, Hex.
Qed.

Lemma _is_day_missing_normalized (w : world) (the_day : pyval) (d : date)
    (type : string) (self : HTTPConnector) :
  normalize_date w the_day = Ok d ->
  _is_day_missing w the_day type self = _is_day_missing w (PDate d) type self.
Proof. intros Hd. unfold _is_day_missing. by rewrite Hd. Qed.

Lemma _is_day_missing_date (w : world) (d : date) (type : string)
    (self : HTTPConnector) :
  exists answer, _is_day_missing w (PDate d) type self = Ok answer.
Proof.
  unfold _is_day_missing, normalize_month. simpl.
  repeat case_bool_decide; eauto.
Qed.

Lemma _get_hours_yields (w : world) (the_day : pyval) (type : string)
    (self : HTTPConnector) :
  yielded (_get_hours w the_day type self) = [].
Proof.
  unfold _get_hours.
  destruct (normalize_date w the_day) as [d|e]; [|done].
  destruct (_is_day_missing w (PDate d) type self) as [[|]|e]; try done.
  cbv zeta.
  match goal with
  | |- context [_get_directory w ?u ?p ?g ?f self] =>
      pose proof (_get_directory_yields w u p g f self) as Hy;
      set (r := _get_directory w u p g f self) in *
  end.
  destruct (ending r) as [[]|]; exact Hy.
Qed.

(** The listings never complete.  [_get_years], [_get_months] and
    [_get_days] yield nothing, make at most one request, leave the cache as
    it was, and end with an exception: the status of a refused request, a
    failure of the connection, or, when the server answers the request,
    [TypeError], the body being refused by [finditer]; [_get_hours] yields
    nothing either. *)
Theorem listings_never_complete
    (w : world) (self : HTTPConnector) (type : string) (a_year : Z)
    (a_month : pyval) (d : date)
    (Hmonth : normalize_date w a_month = Ok d) :
  listing_fails self (_get_years w type self) /\
  listing_fails self (_get_months w a_year type self) /\
  listing_fails self (_get_days w a_month type self) /\
  yielded (_get_hours w a_month type self) = [].
Proof.
  split_and!.
  - unfold _get_years. cbv zeta. apply _get_directory_fails.
  - unfold _get_months. cbv zeta. apply _get_directory_fails.
  - unfold _get_days. rewrite Hmonth. cbv zeta. apply _get_directory_fails.
  - apply _get_hours_yields.
Qed.

Lemma listings_never_complete_witness :
  ending (_get_years index_world "snapshots" fixture_connector) = Some TypeError /\
  ending (_get_months index_world 2015 "snapshots" fixture_connector)
    = Some TypeError /\
  ending (_get_days index_world (PInt 1421000000) "snapshots" fixture_connector)
    = Some TypeError /\
  ending (_get_months empty_world 2015 "snapshots" fixture_connector)
    = Some (ConnectorException 404) /\
  listing_fails fixture_connector
    (_get_days index_world (PInt 1421000000) "snapshots" fixture_connector).
Proof.
  assert (Hmonth : normalize_date index_world (PInt 1421000000)
                   = Ok (mkdate 2015 1 11)) by reflexivity.
  split_and!; try (vm_compute; reflexivity).
  exact (proj1 (proj2 (proj2
    (listings_never_complete index_world fixture_connector "snapshots" 2015
       (PInt 1421000000) _ Hmonth)))).
Defined.

Lemma _get_directory_ConnectorException {A : Type} (w : world) (u : string)
    (pattern : regex) (url_group : nat) (spec : value_spec A)
    (self : HTTPConnector) (status : Z) :
  ending (_get_directory w u pattern url_group spec self)
    = Some (ConnectorException status) ->
  yielded (_get_directory w u pattern url_group spec self) = [] /\
  final (_get_directory w u pattern url_group spec self) = record_sent u self.
Proof.
  rewrite _get_directory_run. unfold request.
  destruct (connection self); cbn [ending yielded final]; [|discriminate].
  destruct (exchange w (sent self) u) as [[st body]|e] eqn:Hex.
  - destruct (true && negb (st =? 200)); [done | discriminate].
  - cbn [ending]. intros [= ->]. apply exchange_Raise in Hex.
    by apply connection_exn_not_ConnectorException in Hex.
Qed.

(** [_get_hours] remembers a day whose listing the server refuses: when the
    call ends with [ConnectorException] it has yielded nothing and has
    recorded the day missing, so that [_is_day_missing] answers true, and the
    same call made again yields nothing, ends normally and sends no request,
    leaving the connector as it is. *)
Theorem _get_hours_remembers_failure (w : world) (the_day : pyval) (d : date)
    (type : string) (self : HTTPConnector) (status : Z)
    (Hday : normalize_date w the_day = Ok d)
    (Hend : ending (_get_hours w the_day type self)
            = Some (ConnectorException status)) :
  let self' := final (_get_hours w the_day type self) in
  yielded (_get_hours w the_day type self) = [] /\
  (d, type) ∈ missing_days self' /\
  _is_day_missing w the_day type self' = Ok true /\
  _get_hours w the_day type self' = mkrun [] None self'.
Proof.
  cbv zeta.
  assert (Hagain : forall s, _is_day_missing w the_day type s = Ok true ->
                             _get_hours w the_day type s = mkrun [] None s).
  { intros s Hs. unfold _get_hours. rewrite Hday.
    by rewrite <- (_is_day_missing_normalized w the_day d type s Hday), Hs. }
  assert (Hmiss : forall s, (d, type) ∈ missing_days s ->
                            _is_day_missing w the_day type s = Ok true).
  { intros s Hs. rewrite (_is_day_missing_normalized w the_day d type s Hday).
    unfold _is_day_missing, normalize_month. cbn [normalize_date bind].
    repeat case_bool_decide; done. }
  set (R := _get_hours w the_day type self) in *.
  assert (Hshape : yielded R = [] /\ (d, type) ∈ missing_days (final R)).
  { revert Hend. subst R. unfold _get_hours. rewrite Hday.
    destruct (_is_day_missing_date w d type self) as [[|] ->];
      [discriminate|]. cbv zeta.
    match goal with
    | |- context [_get_directory w ?u YEAR_RE 1 ?f self] =>
        pose proof (_get_directory_ConnectorException w u YEAR_RE 1 f self)
          as Hdir;
        set (r := _get_directory w u YEAR_RE 1 f self) in *
    end.
    destruct (ending r) as [e|] eqn:Hr;
      [|intros Hend; cbv beta iota in Hend; congruence].
    destruct e; try (intros Hend; cbv beta iota in Hend; congruence).
    match type of Hr with
    | _ = Some (ConnectorException ?st) =>
        destruct (Hdir st eq_refl) as (Hnone & Hfinal)
    end.
    rewrite Hfinal. unfold _add_missing_day, normalize_day.
    cbn [normalize_date ending yielded final]. intros _.
    split; [exact Hnone|].
    cbn [set_missing_days missing_days record_sent]. set_solver. }
  destruct Hshape as [Hnone Hin].
  split_and!; [exact Hnone | exact Hin | by apply Hmiss | by apply Hagain, Hmiss].
Qed.

Lemma _get_hours_remembers_failure_witness :
  ending (_get_hours empty_world (PInt 1421000000) "snapshots" fixture_connector)
    = Some (ConnectorException 404) /\
  let self' :=
    final (_get_hours empty_world (PInt 1421000000) "snapshots"
             fixture_connector) in
  _get_hours empty_world (PInt 1421000000) "snapshots" self'
    = mkrun [] None self'.
Proof.
  assert (Hday : normalize_date empty_world (PInt 1421000000)
                 = Ok (mkdate 2015 1 11)) by reflexivity.
  assert (Hend : ending (_get_hours empty_world (PInt 1421000000) "snapshots"
                           fixture_connector)
                 = Some (ConnectorException 404)) by (vm_compute; reflexivity).
  split; [exact Hend|].
  exact (proj2 (proj2 (proj2
    (_get_hours_remembers_failure empty_world _ _ "snapshots"
       fixture_connector 404 Hday Hend)))).
Defined.

(** ** The URLs of the probe and of the listings *)

Lemma list_ascii_of_string_app (s1 s2 : string) :
  list_ascii_of_string (s1 +:+ s2)
  = list_ascii_of_string s1 ++ list_ascii_of_string s2.
Proof.
  induction s1 as [|c s1 IH]; [reflexivity|].
  change (c :: list_ascii_of_string (s1 +:+ s2)
          = c :: (list_ascii_of_string s1 ++ list_ascii_of_string s2)).
  by rewrite IH.
Qed.

Lemma append_assoc (s1 s2 s3 : string) :
  (s1 +:+ s2) +:+ s3 = s1 +:+ (s2 +:+ s3).
Proof.
  induction s1 as [|c s1 IH]; [reflexivity|].
  change (String c ((s1 +:+ s2) +:+ s3) = String c (s1 +:+ (s2 +:+ s3))).
  by rewrite IH.
Qed.

(** Joining a reference to a directory URL, one that ends with a slash,
    appends it. *)
Lemma urljoin_under_dir (b p q : string) :
  urljoin (urljoin b (p +:+ "/")) q = urljoin b ((p +:+ "/") +:+ q).
Proof.
  unfold urljoin.
  set (X := string_of_list_ascii
              (rev (drop_segment (rev (list_ascii_of_string b))))).
  rewrite <- (append_assoc X (p +:+ "/") q). f_equal.
  rewrite <- (append_assoc X p "/").
  rewrite (list_ascii_of_string_app (X +:+ p) "/").
  rewrite rev_app_distr. cbn [list_ascii_of_string rev app drop_segment].
  change (Ascii.eqb "/" "/") with true. cbv iota.
  change ("/"%char :: rev (list_ascii_of_string (X +:+ p)))
    with (rev ["/"%char] ++ rev (list_ascii_of_string (X +:+ p))).
  rewrite <- rev_app_distr, rev_involutive.
  change ["/"%char] with (list_ascii_of_string "/").
  by rewrite <- list_ascii_of_string_app, string_of_list_ascii_of_string.
Qed.

(** [%4d] and [%04d] print a year of four digits alike. *)
Lemma fmt_d_four_digits (y : Z) :
  1000 <= y <= 9999 -> fmt_d false 4 y = fmt_d true 4 y.
Proof.
  intros Hy.
  assert (Hall : forallb (fun n => String.eqb (fmt_d false 4 (Z.of_nat n))
                                              (fmt_d true 4 (Z.of_nat n)))
                   (List.seq (Z.to_nat 1000) (Z.to_nat 9000)) = true)
    by (vm_compute; reflexivity).
  rewrite forallb_forall in Hall.
  specialize (Hall (Z.to_nat y)). rewrite Z2Nat.id in Hall by lia.
  apply String.eqb_eq, Hall, in_seq. lia.
Qed.

(** The directory that [_get_snapshots_in_hour] lists is a directory of the
    day that [_probe_hour] probes after the listing has failed: for a year
    of four digits, the URL of the listing of an hour is the URL of its day,
    as [_get_day_url] builds it level by level, joined with the two digits
    of the hour. *)
Theorem hour_listing_url_under_day_url (h : datetime) (self : HTTPConnector)
    (Hyear : 1000 <= year (ddate h) <= 9999) :
  hour_listing_url h self
  = urljoin (_get_day_url (ddate h) "snapshots" self)
            (fmt_d true 2 (hour h) +:+ "/").
Proof.
  unfold hour_listing_url, _get_day_url, _get_month_url, _get_year_url.
  rewrite (fmt_d_four_digits _ Hyear).
  rewrite (urljoin_under_dir _ (fmt_d true 2 (day (ddate h)))).
  rewrite (urljoin_under_dir _ (fmt_d true 2 (month (ddate h)))).
  replace ("snapshots" +:+ "/" +:+ fmt_d true 4 (year (ddate h)) +:+ "/")
    with (("snapshots/" +:+ fmt_d true 4 (year (ddate h))) +:+ "/")
    by reflexivity.
  rewrite urljoin_under_dir. f_equal.
  rewrite !append_assoc. reflexivity.
Qed.

Lemma hour_listing_url_under_day_url_witness :
  hour_listing_url (at_time 2015 1 4 3 0 0 0) fixture_connector
    = fixture_hour_dir /\
  _get_day_url (mkdate 2015 1 4) "snapshots" fixture_connector
    = "http://archive.example/station/snapshots/2015/01/04/" /\
  hour_listing_url (at_time 2015 1 4 3 0 0 0) fixture_connector
    = urljoin (_get_day_url (mkdate 2015 1 4) "snapshots" fixture_connector)
              (fmt_d true 2 3 +:+ "/").
Proof.
  assert (Hyear : 1000 <= year (ddate (at_time 2015 1 4 3 0 0 0)) <= 9999)
    by (simpl; lia).
  split_and!; [vm_compute; reflexivity | vm_compute; reflexivity |].
  exact (hour_listing_url_under_day_url (at_time 2015 1 4 3 0 0 0)
           fixture_connector Hyear).
Defined.

(** ** A connector that is not connected *)

Lemma _get_snapshots_in_hour_not_connected (w : world) (h : datetime)
    (self : HTTPConnector) :
  connection self = false ->
  _get_snapshots_in_hour w (PDateTime h) self
  = mkrun [] (match _is_day_missing w (PDateTime h) "snapshots" self with
              | Ok true => None
              | Ok false => Some AttributeError
              | Raise e => Some e
              end) self.
Proof.
  intros Hconn. unfold _get_snapshots_in_hour. cbn [normalize_time].
  destruct (_is_day_missing w (PDateTime h) "snapshots" self) as [[|]|e];
    try reflexivity.
  unfold _get_directory, request. rewrite Hconn. reflexivity.
Qed.

Lemma for_hours_not_connected (w : world) (hours : list datetime)
    (stop : option exn) (self : HTTPConnector) :
  connection self = false ->
  yielded (for_hours w hours stop self) = [] /\
  final (for_hours w hours stop self) = self.
Proof.
  intros Hconn. induction hours as [|h rest [IHy IHf]]; [done|].
  cbn [for_hours]. rewrite (_get_snapshots_in_hour_not_connected w h self Hconn).
  rewrite (_is_day_missing_normalized w (PDateTime h) (ddate h) "snapshots" self
             eq_refl).
  destruct (_is_day_missing_date w (ddate h) "snapshots" self) as [[|] ->];
    cbn [ending yielded final prepend app]; done.
Qed.

(** [connect] has to come first: on a connector that is not connected, one
    that was never connected or has been closed, [get_snapshots] yields
    nothing and leaves the connector as it is, no request sent and nothing
    recorded; and on a valid range whose first day is not recorded missing
    it ends with [AttributeError], raised at the first hour. *)
Theorem get_snapshots_not_connected (w : world) (self : HTTPConnector)
    (Hconn : connection self = false) :
  (forall from_date to_date,
     yielded (get_snapshots w from_date to_date self) = [] /\
     final (get_snapshots w from_date to_date self) = self) /\
  (forall a b,
     valid_datetime a = true -> valid_datetime b = true ->
     dt_lt a b = true ->
     _is_day_missing w (PDateTime a) "snapshots" self = Ok false ->
     get_snapshots w (PDateTime a) (Some (PDateTime b)) self
     = mkrun [] (Some AttributeError) self).
Proof.
  split.
  - intros from_date to_date. unfold get_snapshots.
    destruct (normalize_time w from_date false) as [a|e]; [|done].
    destruct (normalize_time w (default_to w to_date) false) as [b|e]; [|done].
    destruct (dt_ge a b); [done|].
    destruct (_iter_hours w (PDateTime a) (PDateTime b)) as [hours stop].
    by apply for_hours_not_connected.
  - intros a b Ha Hb Hlt Hday. unfold get_snapshots.
    cbn [default_to normalize_time]. rewrite (dt_lt_not_ge a b Hlt).
    rewrite _iter_hours_datetimes.
    pose proof (_iter_hours_loop_reaches
                  (hours_budget (hour_floor a) (hour_floor b))
                  (hour_floor a) (hour_floor b)
                  (hour_floor_valid a Ha) (hour_floor_valid b Hb)
                  eq_refl eq_refl eq_refl eq_refl eq_refl eq_refl
                  (hour_floor_mono a b Hlt) (Nat.le_refl _)) as [Hhead _].
    destruct (_iter_hours_loop _ (hour_floor a) (hour_floor b))
      as [[|h rest] stop]; [discriminate|].
    injection Hhead as ->. cbn [for_hours].
    rewrite (_get_snapshots_in_hour_not_connected w (hour_floor a) self Hconn).
    change (_is_day_missing w (PDateTime (hour_floor a)) "snapshots" self)
      with (_is_day_missing w (PDateTime a) "snapshots" self).
    rewrite Hday. reflexivity.
Qed.

Lemma get_snapshots_not_connected_witness :
  get_snapshots fixture_world (PDateTime (at_time 2015 1 4 0 0 0 0))
    (Some (PDateTime (at_time 2015 1 4 6 0 0 0))) (close fixture_connector)
  = mkrun [] (Some AttributeError) (close fixture_connector).
Proof.
  assert (Hconn : connection (close fixture_connector) = false) by reflexivity.
  assert (Hday : _is_day_missing fixture_world
                   (PDateTime (at_time 2015 1 4 0 0 0 0)) "snapshots"
                   (close fixture_connector) = Ok false)
    by (vm_compute; reflexivity).
  exact (proj2 (get_snapshots_not_connected fixture_world
                  (close fixture_connector) Hconn)
           (at_time 2015 1 4 0 0 0 0) (at_time 2015 1 4 6 0 0 0)
           eq_refl eq_refl eq_refl Hday).
Defined.

(** ** A refused hour *)

Lemma _iter_hours_loop_enough (b1 b2 : nat) (current to_time : datetime) :
  valid_datetime current = true -> valid_datetime to_time = true ->
  (Z.to_nat (grid to_time - grid current + 1) <= b1)%nat ->
  (Z.to_nat (grid to_time - grid current + 1) <= b2)%nat ->
  _iter_hours_loop b1 current to_time = _iter_hours_loop b2 current to_time.
Proof.
  revert b2 current.
  induction b1 as [|b1 IH]; intros b2 current Hc Ht H1 H2.
  - cbn [_iter_hours_loop].
    destruct (dt_le current to_time) eqn:Hle.
    + pose proof (dt_le_grid _ _ Hc Ht Hle). lia.
    + destruct b2; cbn [_iter_hours_loop]; by rewrite Hle.
  - destruct b2 as [|b2]; cbn [_iter_hours_loop];
      destruct (dt_le current to_time) eqn:Hle; try reflexivity.
    + pose proof (dt_le_grid _ _ Hc Ht Hle). lia.
    + destruct (add_hour current) as [next|e] eqn:Hnext; [|reflexivity].
      pose proof (add_hour_grid _ _ Hc Hnext).
      pose proof (dt_le_grid _ _ Hc Ht Hle).
      rewrite (IH b2 next (add_hour_valid _ _ Hc Hnext) Ht); [reflexivity | lia | lia].
Qed.

Lemma add_hour_hour_floor (a next : datetime) :
  add_hour (hour_floor a) = Ok next ->
  dt_lt a next = true /\ hour_floor next = next.
Proof.
  unfold add_hour, hour_floor. cbn [hour ddate minute second microsecond].
  destruct (hour a <? 23) eqn:Hh.
  - intros [= <-]. split; [|reflexivity].
    destruct a as [[ya ma da] ha mia sa ua]. compare_fields.
  - destruct (year (next_day (ddate a)) <=? MAXYEAR); [|discriminate].
    intros [= <-]. split; [|reflexivity].
    pose proof (next_day_later (ddate a)) as Hd.
    destruct a as [[ya ma da] ha mia sa ua].
    destruct (next_day _) as [yn mn dn]. compare_fields.
Qed.

Lemma prepend_nil {A : Type} (r : run A) : prepend [] r = r.
Proof. by destruct r. Qed.

Lemma _probe_hour_raises_connected (w : world) (h : datetime) (type : string)
    (self : HTTPConnector) (e : exn) :
  connection self = true ->
  (_probe_hour w h type self).1 = Raise e -> connection_exn e.
Proof.
  revert self e. unfold _probe_hour. simpl.
  apply (probe_level_raises_connection w true); auto;
    try (intros s e; discriminate); try discriminate.
  intros s1. apply (probe_level_raises_connection w true); auto;
    try (intros s e; discriminate); try discriminate.
  intros s2. apply (probe_level_raises_connection w true); auto;
    try (intros s e; discriminate); try discriminate.
Qed.

Lemma _probe_hour_sent (w : world) (h : datetime) (type : string)
    (self : HTTPConnector) :
  exists l,
    sent (_probe_hour w h type self).2 = sent self ++ l /\
    l `sublist_of` [_get_year_url (year (ddate h)) "snapshots" self;
                    _get_month_url (ddate h) "snapshots" self;
                    _get_day_url (ddate h) "snapshots" self].
Proof.
  unfold _probe_hour. simpl.
  apply (probe_level_sent w (base_url self)); try done.
  - intros s Hb. unfold _get_year_url. by rewrite Hb.
  - intros s1 Hb1.
    apply (probe_level_sent w (base_url self)); try done.
    + intros s Hb. unfold _get_month_url, _get_year_url. by rewrite Hb.
    + intros s2 Hb2.
      apply (probe_level_sent w (base_url self)); try done.
      * intros s Hb. unfold _get_day_url, _get_month_url, _get_year_url.
        by rewrite Hb.
      * intros s3 Hb3. exists []. rewrite app_nil_r.
        split; [done | apply sublist_nil_l].
Qed.

(** One level of a probe that returns has left its key recorded: missing,
    or existing with what the levels below have established. *)
Lemma probe_level_returns (w : world) {K : Type} `{Countable K} (k : K)
    (missing existing : HTTPConnector -> gset K) (Below : HTTPConnector -> Prop)
    (level_url : HTTPConnector -> string)
    (add_existing add_missing rest : M unit) :
  (forall s u, missing (record_sent u s) = missing s /\
               existing (record_sent u s) = existing s) ->
  (forall s, (add_existing s).1 = Ok tt -> k ∈ existing (add_existing s).2) ->
  (forall s, k ∈ missing (add_missing s).2) ->
  (forall s, k ∈ existing s -> (rest s).1 = Ok tt ->
             k ∈ existing (rest s).2 /\ Below (rest s).2) ->
  forall self,
    (probe_level w (fun s => bool_decide (k ∈ missing s))
       (fun s => bool_decide (k ∈ existing s)) level_url
       add_existing add_missing rest self).1 = Ok tt ->
    let s' := (probe_level w (fun s => bool_decide (k ∈ missing s))
                 (fun s => bool_decide (k ∈ existing s)) level_url
                 add_existing add_missing rest self).2 in
    k ∈ missing s' \/ (k ∈ existing s' /\ Below s').
Proof.
  intros Hsent Hae Ham Hrest self. unfold probe_level.
  case_bool_decide as Hm; [intros _; by left|].
  case_bool_decide as He; cbn [negb].
  { intros Hr. right. by apply Hrest. }
  unfold request. destruct (connection self); [|discriminate].
  destruct (exchange w (sent self) (level_url self)) as [[status body]|e];
    cbn [andb]; [|discriminate].
  destruct (status =? 200).
  - pose proof (Hae (record_sent (level_url self) self)) as Hk.
    destruct (add_existing (record_sent (level_url self) self)) as [[[]|e] s2];
      cbn [fst snd] in *; [|discriminate].
    intros Hr. right. apply Hrest; [by apply Hk | exact Hr].
  - intros _. left. apply Ham.
Qed.

Lemma probe_level_keeps_existing (w : world)
    (known_missing known_existing : HTTPConnector -> bool)
    (level_url : HTTPConnector -> string)
    (add_existing add_missing rest : M unit) :
  (forall s, keeps_existing s (add_existing s).2) ->
  (forall s, keeps_existing s (add_missing s).2) ->
  (forall s, keeps_existing s (rest s).2) ->
  forall self,
    keeps_existing self
      (probe_level w known_missing known_existing level_url
         add_existing add_missing rest self).2.
Proof.
  intros Hae Ham Hrest.
  apply (probe_level_rel w keeps_existing);
    [apply keeps_existing_refl | apply keeps_existing_trans | | exact Hae
    | exact Ham | exact Hrest].
  intros s u. split; reflexivity.
Qed.

Lemma _add_day_keeps_existing (w : world) (v : pyval) (type : string)
    (s : HTTPConnector) :
  keeps_existing s (_add_existing_day w v type s).2 /\
  keeps_existing s (_add_missing_day w v type s).2.
Proof.
  unfold _add_existing_day, _add_missing_day.
  destruct (normalize_day w v); split; split; cbn; set_solver.
Qed.

Lemma _add_month_keeps_existing (w : world) (v : pyval) (type : string)
    (s : HTTPConnector) :
  keeps_existing s (_add_existing_month w v type s).2 /\
  keeps_existing s (_add_missing_month w v type s).2.
Proof.
  unfold _add_existing_month, _add_missing_month.
  destruct (normalize_month w v); split; split; cbn; set_solver.
Qed.

Lemma _probe_hour_resolves (w : world) (h : datetime) (type : string)
    (self : HTTPConnector) :
  (_probe_hour w h type self).1 = Ok tt ->
  resolved_day (ddate h) type (_probe_hour w h type self).2.
Proof.
  unfold _probe_hour, resolved_day. cbn [normalize_year normalize_month
    normalize_day normalize_date bind date_of].
  set (y := year (ddate h)).
  set (m := mkdate y (month (ddate h)) 1).
  assert (Hday : forall s, keeps_existing s
            (probe_level w
               (fun self => bool_decide ((ddate h, type) ∈ missing_days self))
               (fun self => bool_decide ((ddate h, type) ∈ existing_days self))
               (_get_day_url (ddate h) "snapshots")
               (_add_existing_day w (PDateTime h) type)
               (_add_missing_day w (PDateTime h) type)
               (fun self => (Ok tt, self)) s).2).
  { apply probe_level_keeps_existing;
      [intros s; apply _add_day_keeps_existing
      | intros s; apply _add_day_keeps_existing
      | intros s; apply keeps_existing_refl]. }
  apply (probe_level_returns w (y, type) missing_years existing_years
           (fun s => (m, type) ∈ missing_months s \/
                     ((m, type) ∈ existing_months s /\
                      ((ddate h, type) ∈ missing_days s \/
                       (ddate h, type) ∈ existing_days s)))).
  - done.
  - intros s _. cbn. set_solver.
  - intros s. cbn. set_solver.
  - intros s1 Hy Hr1. split.
    { eapply keeps_existing_years; [|exact Hy].
      apply probe_level_keeps_existing;
        [intros s; apply _add_month_keeps_existing
        | intros s; apply _add_month_keeps_existing
        | exact Hday]. }
    revert Hr1.
    apply (probe_level_returns w (m, type) missing_months existing_months
             (fun s => (ddate h, type) ∈ missing_days s \/
                       (ddate h, type) ∈ existing_days s)).
    + done.
    + intros s _. cbn. set_solver.
    + intros s. cbn. set_solver.
    + intros s2 Hm Hr2. split.
      { eapply keeps_existing_months; [|exact Hm]. apply Hday. }
      revert Hr2.
      intros [Hd|[Hd _]]%(probe_level_returns w (ddate h, type)
                             missing_days existing_days (fun _ => True));
        auto; try done.
      * intros s _. cbn. set_solver.
      * intros s. cbn. set_solver.
Qed.

(** A refused hour, in general.  When [get_snapshots(a, b)] finds the
    listing of its first hour refused with a status other than 200, it
    requests after the listing at most the directories of the year, the month
    and the day of [a], in this order.  If the connection does not fail these
    requests, the cache then decides the day of [a], and the call goes on as
    the call from the next hour would on the connector so left: the refusal
    is not raised.  If the connection fails one of them, its exception ends
    the call. *)
Theorem get_snapshots_skips_refused_hour
    (w : world) (a b next : datetime) (self : HTTPConnector)
    (status : Z) (body : string)
    (Ha : valid_datetime a = true) (Hb : valid_datetime b = true)
    (Hnext : add_hour (hour_floor a) = Ok next)
    (Hrange : dt_lt next b = true)
    (Hconnected : connection self = true)
    (Hday : _is_day_missing w (PDateTime a) "snapshots" self = Ok false)
    (Hurl : accepted_url (hour_listing_url (hour_floor a) self))
    (Hanswer : server w (sent self) (hour_listing_url (hour_floor a) self)
               = Response status body)
    (Hstatus : status <> 200) :
  exists (self' : HTTPConnector) (probes : list string),
    sent self' = sent self ++ hour_listing_url (hour_floor a) self :: probes /\
    probes `sublist_of` [_get_year_url (year (ddate a)) "snapshots" self;
                         _get_month_url (ddate a) "snapshots" self;
                         _get_day_url (ddate a) "snapshots" self] /\
    ((resolved_day (ddate a) "snapshots" self' /\
      get_snapshots w (PDateTime a) (Some (PDateTime b)) self
      = get_snapshots w (PDateTime next) (Some (PDateTime b)) self') \/
     (exists e, connection_exn e /\
        get_snapshots w (PDateTime a) (Some (PDateTime b)) self
        = mkrun [] (Some e) self')).
Proof.
  set (u := hour_listing_url (hour_floor a) self).
  set (p := _probe_hour w (hour_floor a) "snapshots" (record_sent u self)).
  destruct (add_hour_hour_floor a next Hnext) as [Hlt Hfloor].
  assert (Hvn : valid_datetime next = true)
    by (eapply add_hour_valid; [apply hour_floor_valid, Ha | exact Hnext]).
  assert (Hab : dt_lt a b = true).
  { apply dt_lt_le in Hlt. revert Hlt Hrange. clear.
    destruct a as [[ya ma da] ha mia sa ua], b as [[yb mb db] hb mib sb ub],
      next as [[yn mn dn] hn min sn un]. compare_fields. }
  assert (Hhour : _get_snapshots_in_hour w (PDateTime (hour_floor a)) self
                  = mkrun [] (Some match p.1 with
                                   | Ok _ => ConnectorException status
                                   | Raise e => e
                                   end) p.2).
  { apply (_get_snapshots_in_hour_fetch_failure w (hour_floor a) self status body);
      [exact Hconnected | exact Hday | by apply exchange_Ok | exact Hstatus]. }
  destruct (_probe_hour_sent w (hour_floor a) "snapshots" (record_sent u self))
    as (probes & Hsent & Hsub).
  fold p in Hsent. exists p.2, probes. split_and!.
  - rewrite Hsent. cbn [sent record_sent]. by rewrite <- app_assoc.
  - exact Hsub.
  - assert (Hloop : _iter_hours w (PDateTime a) (PDateTime b)
                    = (hour_floor a :: (_iter_hours w (PDateTime next) (PDateTime b)).1,
                       (_iter_hours w (PDateTime next) (PDateTime b)).2)).
    { rewrite !_iter_hours_datetimes, Hfloor.
      assert (Hle : dt_le next (hour_floor b) = true).
      { rewrite <- Hfloor. by apply hour_floor_mono. }
      assert (Hle0 : dt_le (hour_floor a) (hour_floor b) = true)
        by (by apply hour_floor_mono).
      pose proof (dt_le_grid _ _ (hour_floor_valid a Ha) (hour_floor_valid b Hb) Hle0).
      pose proof (add_hour_grid _ _ (hour_floor_valid a Ha) Hnext).
      unfold hours_budget at 1.
      destruct (Z.to_nat (grid (hour_floor b) - grid (hour_floor a) + 1))
        as [|n] eqn:Hn; [lia|].
      cbn [_iter_hours_loop]. rewrite Hle0, Hnext.
      rewrite (_iter_hours_loop_enough n (hours_budget next (hour_floor b))
                 next (hour_floor b) Hvn (hour_floor_valid b Hb));
        [| lia | unfold hours_budget; lia].
      by destruct (_iter_hours_loop _ next (hour_floor b)). }
    unfold get_snapshots. cbn [default_to normalize_time].
    rewrite (dt_lt_not_ge a b Hab), (dt_lt_not_ge next b Hrange), Hloop.
    destruct (_iter_hours w (PDateTime next) (PDateTime b)) as [hours stop].
    cbn [fst snd for_hours]. rewrite Hhour. cbn [ending yielded final].
    destruct (p.1) as [[]|e] eqn:Hp.
    + left. split; [|by rewrite prepend_nil].
      by apply (_probe_hour_resolves w (hour_floor a) "snapshots").
    + right. exists e.
      assert (He : connection_exn e).
      { eapply (_probe_hour_raises_connected w (hour_floor a) "snapshots"
                  (record_sent u self)); [exact Hconnected | exact Hp]. }
      split; [exact He|].
      destruct e; try reflexivity.
      by apply connection_exn_not_ConnectorException in He.
Qed.

Lemma get_snapshots_skips_refused_hour_witness :
  exists (self' : HTTPConnector) (probes : list string),
    sent self' = "http://archive.example/station/snapshots/2015/01/04/02/" :: probes /\
    ((resolved_day (mkdate 2015 1 4) "snapshots" self' /\
      get_snapshots fixture_world (PDateTime (at_time 2015 1 4 2 10 0 0))
        (Some (PDateTime (at_time 2015 1 4 3 30 0 0))) fixture_connector
      = get_snapshots fixture_world (PDateTime (at_time 2015 1 4 3 0 0 0))
          (Some (PDateTime (at_time 2015 1 4 3 30 0 0))) self') \/
     (exists e, connection_exn e /\
        get_snapshots fixture_world (PDateTime (at_time 2015 1 4 2 10 0 0))
          (Some (PDateTime (at_time 2015 1 4 3 30 0 0))) fixture_connector
        = mkrun [] (Some e) self')).
Proof.
  assert (Hday : _is_day_missing fixture_world
                   (PDateTime (at_time 2015 1 4 2 10 0 0)) "snapshots"
                   fixture_connector = Ok false) by (vm_compute; reflexivity).
  assert (Hurl : accepted_url
                   (hour_listing_url (hour_floor (at_time 2015 1 4 2 10 0 0))
                      fixture_connector))
    by (split; vm_compute; reflexivity).
  assert (Hstatus : 404 <> 200) by discriminate.
  destruct (get_snapshots_skips_refused_hour fixture_world
              (at_time 2015 1 4 2 10 0 0) (at_time 2015 1 4 3 30 0 0)
              (at_time 2015 1 4 3 0 0 0) fixture_connector 404 "Not Found"
              eq_refl eq_refl eq_refl eq_refl eq_refl Hday Hurl eq_refl Hstatus)
    as (self' & probes & Hsent & _ & Hcases).
  exists self', probes. split; [exact Hsent | exact Hcases].
Defined.
